(** * Transparent proxy worker for R2 storage: a shallow embedding of src/index.js

    The worker answers S3-style requests.  A GET or HEAD is resolved against
    the local bucket (R2) and, on a miss, against the source storage; an
    object found there is written back to the bucket and a sync task is
    queued.  PUT and DELETE go to the bucket on hosts that match the write
    pattern.

    The functions of index.js are embedded one by one, under their own
    names, in a state-and-exception monad.  The state holds what the worker
    can change: the global CONFIG, the bucket, the queue, the table of body
    streams and the list of calls made to the collaborators. *)

From Stdlib Require Import ZArith String Ascii List Bool Lia.
From stdpp Require Import base option list strings gmap.

Local Open Scope string_scope.
Local Open Scope Z_scope.
Local Open Scope list_scope.

(** ** JavaScript strings *)

(** Truthiness of a string: only the empty string is falsy. *)
Definition truthy (s : string) : bool := negb (String.eqb s "").

(** Truthiness of a value that is a string, or null / undefined. *)
Definition truthy_opt (o : option string) : bool :=
  match o with
  | Some s => truthy s
  | None => false
  end.

(** [a || d] where [a] is a string, null or undefined. *)
Definition or_else (o : option string) (d : string) : string :=
  match o with
  | Some s => if truthy s then s else d
  | None => d
  end.

Definition dquote : string :=
  String (Ascii false true false false false true false false) EmptyString.

Definition newline : string :=
  String (Ascii false true false true false false false false) EmptyString.

Definition lower_ascii (c : ascii) : ascii :=
  let n := nat_of_ascii c in
  if ((65 <=? n)%nat && (n <=? 90)%nat)%bool then ascii_of_nat (n + 32) else c.

(** [s.toLowerCase()] on the ASCII range. *)
Fixpoint toLowerCase (s : string) : string :=
  match s with
  | EmptyString => EmptyString
  | String c rest => String (lower_ascii c) (toLowerCase rest)
  end.

(** [s.startsWith(p)]. *)
Definition startsWith (p s : string) : bool := String.prefix p s.

(** [s.substring(n)]: what is left after the first [n] characters. *)
Fixpoint substring_from (n : nat) (s : string) : string :=
  match n, s with
  | O, _ => s
  | S n', String _ rest => substring_from n' rest
  | S _, EmptyString => EmptyString
  end.

(** [s.split(sep)] for a one-character separator: the empty string splits
    into one empty part. *)
Fixpoint split (sep : ascii) (s : string) : list string :=
  match s with
  | EmptyString => [EmptyString]
  | String c rest =>
      if Ascii.eqb c sep then EmptyString :: split sep rest
      else match split sep rest with
           | part :: parts => String c part :: parts
           | [] => [String c EmptyString]
           end
  end.

(** [parts.join(sep)]. *)
Fixpoint join (sep : string) (parts : list string) : string :=
  match parts with
  | [] => ""
  | [p] => p
  | p :: rest => p +:+ sep +:+ join sep rest
  end.

(** ** Headers

    A Headers object: names are case-insensitive and kept in lower case, one
    value per name. *)
Definition Headers : Type := list (string * string).

Definition same_name (name : string) (entry : string * string) : bool :=
  String.eqb (toLowerCase (fst entry)) (toLowerCase name).

Definition headers_get (name : string) (h : Headers) : option string :=
  snd <$> List.find (same_name name) h.

(** What [set] does to the list once it has accepted the name and the value:
    the pair takes the place of the pairs of that name. *)
Definition headers_replace (name value : string) (h : Headers) : Headers :=
  List.filter (fun e => negb (same_name name e)) h ++ [(toLowerCase name, value)].

(** ** Header names and values

    What a Headers object lets in (Fetch standard, "header name" and "header
    value"): a name is a token; a value has no NUL, CR or LF, and neither
    begins nor ends with HTTP whitespace.  [set] and the constructors take
    the whitespace off both ends of a value first, then throw a TypeError on
    a name or a value that is not one. *)

Fixpoint string_forall (p : ascii -> bool) (s : string) : bool :=
  match s with
  | EmptyString => true
  | String c rest => p c && string_forall p rest
  end.

(** The characters of a token: letters, digits and
    [! # $ % & ' * + - . ^ _ ` | ~]. *)
Definition is_token_char (c : ascii) : bool :=
  let n := nat_of_ascii c in
  ((48 <=? n)%nat && (n <=? 57)%nat)
  || ((65 <=? n)%nat && (n <=? 90)%nat)
  || ((97 <=? n)%nat && (n <=? 122)%nat)
  || existsb (Nat.eqb n) [33; 35; 36; 37; 38; 39; 42; 43; 45; 46; 94; 95; 96; 124; 126]%nat.

Definition header_name_ok (s : string) : bool :=
  truthy s && string_forall is_token_char s.

(** HTTP whitespace: tab, LF, CR, space. *)
Definition is_http_whitespace (c : ascii) : bool :=
  existsb (Nat.eqb (nat_of_ascii c)) [9; 10; 13; 32]%nat.

Fixpoint strip_leading (s : string) : string :=
  match s with
  | EmptyString => EmptyString
  | String c rest => if is_http_whitespace c then strip_leading rest else s
  end.

Fixpoint strip_trailing (s : string) : string :=
  match s with
  | EmptyString => EmptyString
  | String c rest =>
      match strip_trailing rest with
      | EmptyString => if is_http_whitespace c then EmptyString else String c EmptyString
      | kept => String c kept
      end
  end.

(** The value without its leading and trailing HTTP whitespace. *)
Definition normalize_value (s : string) : string :=
  strip_trailing (strip_leading s).

(** No NUL, CR or LF. *)
Definition header_value_ok (s : string) : bool :=
  string_forall (fun c => negb (existsb (Nat.eqb (nat_of_ascii c)) [0; 10; 13]%nat)) s.

(** The string is a header value, as a Headers object holds it. *)
Definition is_header_value (s : string) : bool :=
  header_value_ok s && String.eqb (normalize_value s) s.

(** A string that is a header value: what [get] returns, and what the
    runtime makes for a header (an entity tag, a date). *)
Record HeaderValue : Type := {
  value_text :> string;
  value_is_header_value : is_header_value value_text = true
}.

(** The string as a header value, or [fallback] when it is none. *)
Definition header_value (s : string) (fallback : HeaderValue) : HeaderValue :=
  match Bool.bool_dec (is_header_value s) true with
  | left accepted => {| value_text := s; value_is_header_value := accepted |}
  | right _ => fallback
  end.

(** A pair as a Headers object of the runtime holds it: the name is a token
    in lower case, the value is a header value. *)
Definition pair_ok (e : string * string) : bool :=
  header_name_ok (fst e) && String.eqb (toLowerCase (fst e)) (fst e)
  && is_header_value (snd e).

(** The content of a Headers object the runtime made: the headers of a
    request, of the response of a [fetch].  (Such an object has each name
    once; a list here may repeat one, and the property that needs distinct
    names asks for them.) *)
Record HeaderList : Type := {
  pairs :> Headers;
  pairs_accepted : forallb pair_ok pairs = true
}.

Definition no_headers : HeaderList :=
  {| pairs := []; pairs_accepted := eq_refl |}.

Definition HeaderList_add (e : string * string) (l : HeaderList) : HeaderList :=
  match Bool.bool_dec (pair_ok e) true with
  | left accepted =>
      {| pairs := e :: pairs l;
         pairs_accepted := andb_true_intro (conj accepted (pairs_accepted l)) |}
  | right _ => l
  end.

(** The Headers object the runtime makes of header lines: names in lower
    case, values without the whitespace around them.  A line that is not a
    name and a value does not reach the worker. *)
Definition received (lines : list (string * string)) : HeaderList :=
  fold_right
    (fun e l => HeaderList_add (toLowerCase (fst e), normalize_value (snd e)) l)
    no_headers lines.

#[warnings="-uniform-inheritance,-ambiguous-paths"]
Coercion received : list >-> HeaderList.

(** A plain JavaScript object with string values, as an association list in
    insertion order: [obj[k] = v] and [Object.entries(obj)]. *)
Definition JsObject : Type := list (string * string).

(** [obj[k] = v] on an object made by an object literal.  The key
    [__proto__] names the setter of [Object.prototype], which ignores a
    string: no property is made. *)
Definition obj_set (k v : string) (o : JsObject) : JsObject :=
  if String.eqb k "__proto__" then o
  else if existsb (fun e => String.eqb (fst e) k) o
  then map (fun e => if String.eqb (fst e) k then (k, v) else e) o
  else o ++ [(k, v)].

Definition obj_get (k : string) (o : JsObject) : option string :=
  snd <$> List.find (fun e => String.eqb (fst e) k) o.

(** ** Data model *)

(** A body stream.  It can be read once: the state keeps, per stream, whether
    it was read already (see [Run]). *)
Record Stream : Type := { sid : nat; bytes : string }.

(** The body of a response: none, a string, or a stream. *)
Inductive Body : Type :=
| NoBody
| Text (s : string)
| Streamed (s : Stream).

Record HttpMetadata : Type := {
  contentType : option string;
  contentLength : option string;
  cacheControl : option string
}.

(** What [handleGetRequest] calls [object]: an R2 object, or the object
    [fetchFromSourceStorage] builds in its image.  A field the object does
    not have is [None].  The upload date is kept as the text that
    [new Date(object.uploaded).toUTCString()] makes of it (line 371). *)
Record StorageObject : Type := {
  body : option Stream;
  httpEtag : option string;
  httpMetadata : option HttpMetadata;
  customMetadata : option JsObject;
  uploaded : option HeaderValue
}.

(** An object as the bucket keeps it.  The entity tag and the upload date
    are the bucket's own: a quoted string, and a date that the worker reads
    through [toUTCString].  The http metadata and the custom metadata are
    what the writer of the object gave, this worker or another client of
    the bucket. *)
Record R2Stored : Type := {
  r2_bytes : string;
  r2_httpEtag_value : HeaderValue;
  r2_contentType : option string;
  r2_cacheControl : option string;
  r2_customMetadata : JsObject;
  r2_uploaded : HeaderValue
}.

Definition r2_httpEtag (o : R2Stored) : string := r2_httpEtag_value o.

Record SyncEvent : Type := {
  key : string;
  action : string;
  timestamp : string
}.

Record Request : Type := {
  method : string;
  hostname : string;
  pathname : string;
  req_headers : HeaderList;
  req_body : option string
}.

Record Response : Type := {
  status : Z;
  headers : Headers;
  content : Body
}.

(** [class StorageError extends Error], and any other exception the runtime
    throws (it has a message, and neither [status] nor [code]). *)
Inductive JsError : Type :=
| StorageError (message : string) (status : Z) (code : string)
| RuntimeError (message : string).

(** ** CONFIG *)

Record SourceStorage : Type := {
  endpoint : string;
  region : string;
  accessKeyId : string;
  secretAccessKey : string;
  bucketName : string
}.

(** A compiled regular expression is kept as its [test] function.  The
    default Cache-Control is a header value: index.js declares it (line 10)
    and never assigns it. *)
Record Config : Type := {
  DEFAULT_CACHE_CONTROL_value : HeaderValue;
  READ_HOSTNAME_PATTERN : string -> bool;
  WRITE_HOSTNAME_PATTERN : string -> bool;
  SOURCE_STORAGE : SourceStorage
}.

(** [CONFIG.DEFAULT_CACHE_CONTROL] *)
Definition DEFAULT_CACHE_CONTROL (c : Config) : string :=
  DEFAULT_CACHE_CONTROL_value c.

(** The constant [CONFIG] as the module declares it: [/^read-/] and
    [/^write-/] test for a prefix. *)
Definition CONFIG_initial : Config := {|
  DEFAULT_CACHE_CONTROL_value :=
    {| value_text := "public, max-age=86400"; value_is_header_value := eq_refl |};
  READ_HOSTNAME_PATTERN := startsWith "read-";
  WRITE_HOSTNAME_PATTERN := startsWith "write-";
  SOURCE_STORAGE := {| endpoint := ""; region := ""; accessKeyId := "";
                       secretAccessKey := ""; bucketName := "" |}
|}.

(** ** The environment of a request

    What the bindings and the runtime answer during one request.  The worker
    cannot choose any of it. *)

(** A read of the configuration store: it throws, or returns the value
    under the name ([None]: no such name). *)
Inductive KVRead (A : Type) : Type :=
| KVThrows
| KVReturns (v : option A).
Arguments KVThrows {A}.
Arguments KVReturns {A} v.

(** The JSON object under [source_storage_config]: the fields it has. *)
Record SourcePatch : Type := {
  patch_endpoint : option string;
  patch_region : option string;
  patch_accessKeyId : option string;
  patch_secretAccessKey : option string;
  patch_bucketName : option string
}.

Record KV : Type := {
  source_storage_config : KVRead SourcePatch;
  read_hostname_pattern : KVRead string;
  write_hostname_pattern : KVRead string
}.

(** What the source storage answers to [fetch(url)]: the status, the
    Headers object and the body of the response. *)
Record OriginAnswer : Type := {
  origin_status : Z;
  origin_headers : HeaderList;
  origin_body : option string
}.

Inductive FetchOutcome : Type :=
| FetchRejects
| FetchResolves (answer : OriginAnswer).

Record Env : Type := {
  CONFIG_KV : KV;
  (** [new RegExp(source)]: the [test] function, or [None] for a SyntaxError *)
  RegExp : string -> option (string -> bool);
  (** the network: what [fetch(url)] does *)
  origin : string -> FetchOutcome;
  (** whether the bucket accepts a put, a delete; the queue a send *)
  R2_put_accepts : bool;
  (** how a put the bucket does not accept fails: late, after it has read
      the value it was given, or before it reads any of it *)
  R2_put_fails_late : bool;
  R2_delete_accepts : bool;
  SYNC_QUEUE_accepts : bool;
  (** the etag the bucket gives to a content: a quoted string *)
  R2_etag_value : string -> HeaderValue;
  (** the clock: [new Date().toISOString()], [new Date().toUTCString()],
      [Date.now()] in decimal *)
  Date_toISOString_value : HeaderValue;
  Date_toUTCString_value : HeaderValue;
  Date_now : string
}.

Definition R2_etag (env : Env) (data : string) : string := R2_etag_value env data.

Definition Date_toISOString (env : Env) : string := Date_toISOString_value env.

Definition Date_toUTCString (env : Env) : string := Date_toUTCString_value env.

(** ** State *)

(** What outlives a request: the module's CONFIG, the bucket, the queue. *)
Record Store : Type := {
  CONFIG : Config;
  R2_BUCKET : gmap string R2Stored;
  SYNC_QUEUE : list SyncEvent
}.

(** A call the worker makes to a collaborator. *)
Inductive Call : Type :=
| CallGet (objectKey : string)
| CallPut (objectKey : string) (value : option Stream)
          (http : option HttpMetadata) (custom : JsObject)
| CallDelete (objectKey : string)
| CallFetch (url : string)
| CallSend (ev : SyncEvent).

(** The state of a request in progress: the store, for every stream created
    so far whether it was read ([was_read !! sid]), and the calls made. *)
Record Run : Type := {
  store : Store;
  was_read : list bool;
  calls : list Call
}.

Definition set_store (f : Store -> Store) (r : Run) : Run :=
  {| store := f (store r); was_read := was_read r; calls := calls r |}.

Definition set_CONFIG (f : Config -> Config) (s : Store) : Store :=
  {| CONFIG := f (CONFIG s); R2_BUCKET := R2_BUCKET s; SYNC_QUEUE := SYNC_QUEUE s |}.

Definition set_R2_BUCKET (f : gmap string R2Stored -> gmap string R2Stored)
  (s : Store) : Store :=
  {| CONFIG := CONFIG s; R2_BUCKET := f (R2_BUCKET s); SYNC_QUEUE := SYNC_QUEUE s |}.

Definition set_SYNC_QUEUE (f : list SyncEvent -> list SyncEvent) (s : Store) : Store :=
  {| CONFIG := CONFIG s; R2_BUCKET := R2_BUCKET s; SYNC_QUEUE := f (SYNC_QUEUE s) |}.

(** ** The monad: state, and exceptions that keep the state *)

Inductive Result (A : Type) : Type :=
| Ok (a : A)
| Throw (e : JsError).
Arguments Ok {A} a.
Arguments Throw {A} e.

Definition M (A : Type) : Type := Run -> Result A * Run.

Definition ret {A : Type} (a : A) : M A := fun r => (Ok a, r).

Definition throw {A : Type} (e : JsError) : M A := fun r => (Throw e, r).

Definition bind {A B : Type} (c : M A) (k : A -> M B) : M B :=
  fun r =>
    match c r with
    | (Ok a, r') => k a r'
    | (Throw e, r') => (Throw e, r')
    end.

(** [try { c } catch (error) { h error }] *)
Definition try_catch {A : Type} (c : M A) (h : JsError -> M A) : M A :=
  fun r =>
    match c r with
    | (Ok a, r') => (Ok a, r')
    | (Throw e, r') => h e r'
    end.

Declare Scope js_scope.
Delimit Scope js_scope with js.
Notation "x <- c ;; k" := (bind c (fun x => k))
  (at level 100, c at next level, right associativity) : js_scope.
Notation "c ;; k" := (bind c (fun _ => k))
  (at level 100, right associativity) : js_scope.
Local Open Scope js_scope.

Definition read_CONFIG : M Config := fun r => (Ok (CONFIG (store r)), r).

(** What can throw and touches no state: [c], then [k] on its result. *)
Definition and_then {A B : Type} (c : Result A) (k : A -> Result B) : Result B :=
  match c with
  | Ok a => k a
  | Throw e => Throw e
  end.

Notation "x <-- c ;; k" := (and_then c (fun x => k))
  (at level 100, c at next level, right associativity) : js_scope.

(** Such a computation inside a function that has state. *)
Definition lift {A : Type} (c : Result A) : M A := fun r => (c, r).

Definition update (f : Store -> Store) : M unit := fun r => (Ok tt, set_store f r).

Definition record (c : Call) : M unit :=
  fun r => (Ok tt, {| store := store r; was_read := was_read r; calls := calls r ++ [c] |}).

(** ** The runtime: streams, the bucket, the queue, the network

    These are the operations index.js calls and does not define.  Each one
    records its call, then does what the environment says. *)

(** A new stream over [data], not read yet. *)
Definition new_stream (data : string) : M Stream :=
  fun r =>
    (Ok {| sid := length (was_read r); bytes := data |},
     {| store := store r; was_read := was_read r ++ [false]; calls := calls r |}).

Definition already_read (s : Stream) (r : Run) : bool :=
  default false (was_read r !! sid s).

(** Reading a stream to its end.  A stream is read once: a second reader
    gets a TypeError. *)
Definition read_all (s : Stream) : M string :=
  fun r =>
    if already_read s r
    then (Throw (RuntimeError "This ReadableStream is disturbed (has already been read from)"), r)
    else (Ok (bytes s),
          {| store := store r; was_read := <[sid s := true]> (was_read r); calls := calls r |}).

(** [request.body]: the request's stream is stream 0 of the request. *)
Definition request_body (request : Request) : option Stream :=
  match req_body request with
  | Some data => Some {| sid := 0; bytes := data |}
  | None => None
  end.

(** The TypeError of a constructor that is given a stream already read. *)
Definition disturbed_body : JsError :=
  RuntimeError "This ReadableStream is disturbed (has already been read from), and cannot be used as a body.".

(** [new Response(body, { status, headers })].  As the Fetch standard has it,
    a stream that was already read cannot become a body: the constructor
    throws a TypeError. *)
Definition new_Response (b : Body) (st : Z) (h : Headers) : M Response :=
  fun r =>
    match b with
    | Streamed s =>
        if already_read s r
        then (Throw disturbed_body, r)
        else (Ok {| status := st; headers := h; content := b |}, r)
    | _ => (Ok {| status := st; headers := h; content := b |}, r)
    end.

(** [object.body] as the first argument of [new Response]. *)
Definition body_of (b : option Stream) : Body :=
  match b with
  | Some s => Streamed s
  | None => NoBody
  end.

(** The TypeError of a Headers object that is given a name that is not a
    header name, or a value that is not a header value.  (The text of the
    message is the runtime's own; it is kept the same for the two.) *)
Definition invalid_header : JsError :=
  RuntimeError "Invalid header name or value.".

(** [headers.set] accepts the value: without the whitespace around it, it
    has no NUL, CR or LF. *)
Definition value_accepted (v : string) : bool :=
  header_value_ok (normalize_value v).

(** [headers.set(name, value)]: the value loses the whitespace around it; a
    name that is not a header name, or a value that is not a header value,
    throws; else the pair takes the place of the pairs of that name. *)
Definition headers_set (name value : string) (h : Headers) : Result Headers :=
  if header_name_ok name && value_accepted value
  then Ok (headers_replace name (normalize_value value) h)
  else Throw invalid_header.

(** Headers given as an object literal, [{ headers: { ... } }]: the
    constructor sets them one by one. *)
Definition new_Headers (entries : list (string * string)) : Result Headers :=
  fold_left (fun made e => (h <-- made ;; headers_set (fst e) (snd e) h)) entries (Ok []).

(** The same for a literal whose names and values are constants of index.js
    that are header names and header values: nothing can throw. *)
Definition headers_of (entries : list (string * string)) : Headers :=
  fold_left (fun h e => headers_replace (fst e) (snd e) h) entries [].

(** [env.CONFIG_KV.get(name)] *)
Definition KV_get {A : Type} (v : KVRead A) : M (option A) :=
  match v with
  | KVThrows => throw (RuntimeError "KV get failed")
  | KVReturns o => ret o
  end.

(** [new RegExp(source)] *)
Definition new_RegExp (env : Env) (source : string) : M (string -> bool) :=
  match RegExp env source with
  | Some test => ret test
  | None => throw (RuntimeError "Invalid regular expression")
  end.

(** The R2 object the bucket returns for a stored object: its metadata, and
    a stream over its content. *)
Definition r2_object (o : R2Stored) (s : Stream) : StorageObject :=
  {| body := Some s;
     httpEtag := Some (r2_httpEtag o);
     httpMetadata := Some {| contentType := r2_contentType o;
                             contentLength := None;
                             cacheControl := r2_cacheControl o |};
     customMetadata := Some (r2_customMetadata o);
     uploaded := Some (r2_uploaded o) |}.

(** [env.R2_BUCKET.get(key)]: null, or the object with a new stream over its
    content. *)
Definition R2_BUCKET_get (objectKey : string) : M (option StorageObject) :=
  record (CallGet objectKey) ;;
  fun r =>
    match R2_BUCKET (store r) !! objectKey with
    | None => (Ok None, r)
    | Some o =>
        (s <- new_stream (r2_bytes o) ;;
         ret (Some (r2_object o s))) r
    end.

(** A field of [httpMetadata] as the bucket keeps it: the binding makes a
    string of what it is given, and of null the text [null]. *)
Definition stored_text (field : option string) : option string :=
  Some (default "null" field).

(** [env.R2_BUCKET.put(key, value, { httpMetadata, customMetadata })].  A put
    the bucket accepts reads [value] to its end and keeps the object under
    the key.  A put it does not accept throws: late, when it has read
    [value] (the upload broke off or was refused at its end), or before it
    reads any of it. *)
Definition R2_BUCKET_put (env : Env) (objectKey : string) (value : option Stream)
  (http : option HttpMetadata) (custom : JsObject) : M R2Stored :=
  record (CallPut objectKey value http custom) ;;
  if R2_put_accepts env then
    data <- match value with
            | Some s => read_all s
            | None => ret ""
            end ;;
    let o := {| r2_bytes := data;
                r2_httpEtag_value := R2_etag_value env data;
                r2_contentType := http ≫= stored_text ∘ contentType;
                r2_cacheControl := http ≫= stored_text ∘ cacheControl;
                r2_customMetadata := custom;
                r2_uploaded := Date_toUTCString_value env |} in
    update (set_R2_BUCKET (insert objectKey o)) ;;
    ret o
  else
    (if R2_put_fails_late env
     then match value with
          | Some s => read_all s ;; ret tt
          | None => ret tt
          end
     else ret tt) ;;
    throw (RuntimeError "R2 put failed").

(** [env.R2_BUCKET.delete(key)] *)
Definition R2_BUCKET_delete (env : Env) (objectKey : string) : M unit :=
  record (CallDelete objectKey) ;;
  if R2_delete_accepts env
  then update (set_R2_BUCKET (delete objectKey))
  else throw (RuntimeError "R2 delete failed").

(** [env.SYNC_QUEUE.send(message)] *)
Definition SYNC_QUEUE_send (env : Env) (ev : SyncEvent) : M unit :=
  record (CallSend ev) ;;
  if SYNC_QUEUE_accepts env
  then update (set_SYNC_QUEUE (fun q => q ++ [ev]))
  else throw (RuntimeError "Queue send failed").

(** The response of the global [fetch]. *)
Record FetchResponse : Type := {
  fetched_status : Z;
  fetched_headers : HeaderList;
  fetched_body : option Stream
}.

(** [response.ok]: a status from 200 to 299. *)
Definition ok (response : FetchResponse) : bool :=
  (200 <=? fetched_status response) && (fetched_status response <=? 299).

(** The global [fetch(url, init)]: it rejects (network error, timeout), or
    resolves to the answer with a new stream over its body. *)
Definition global_fetch (env : Env) (url : string) : M FetchResponse :=
  record (CallFetch url) ;;
  match origin env url with
  | FetchRejects => throw (RuntimeError "fetch failed")
  | FetchResolves a =>
      b <- match origin_body a with
           | Some data => s <- new_stream data ;; ret (Some s)
           | None => ret None
           end ;;
      ret {| fetched_status := origin_status a;
             fetched_headers := origin_headers a;
             fetched_body := b |}
  end.

(** [response.text()] *)
Definition response_text (response : FetchResponse) : M string :=
  match fetched_body response with
  | Some s => read_all s
  | None => ret ""
  end.

(** ** index.js *)

(** [{ ...CONFIG.SOURCE_STORAGE, ...sourceConfig }], line 95 *)
Definition merge_source (s : SourceStorage) (p : SourcePatch) : SourceStorage :=
  {| endpoint := default (endpoint s) (patch_endpoint p);
     region := default (region s) (patch_region p);
     accessKeyId := default (accessKeyId s) (patch_accessKeyId p);
     secretAccessKey := default (secretAccessKey s) (patch_secretAccessKey p);
     bucketName := default (bucketName s) (patch_bucketName p) |}.

(** Assignments to the fields of CONFIG. *)
Definition with_SOURCE_STORAGE (v : SourceStorage) (c : Config) : Config :=
  {| DEFAULT_CACHE_CONTROL_value := DEFAULT_CACHE_CONTROL_value c;
     READ_HOSTNAME_PATTERN := READ_HOSTNAME_PATTERN c;
     WRITE_HOSTNAME_PATTERN := WRITE_HOSTNAME_PATTERN c;
     SOURCE_STORAGE := v |}.

Definition with_READ_HOSTNAME_PATTERN (v : string -> bool) (c : Config) : Config :=
  {| DEFAULT_CACHE_CONTROL_value := DEFAULT_CACHE_CONTROL_value c;
     READ_HOSTNAME_PATTERN := v;
     WRITE_HOSTNAME_PATTERN := WRITE_HOSTNAME_PATTERN c;
     SOURCE_STORAGE := SOURCE_STORAGE c |}.

Definition with_WRITE_HOSTNAME_PATTERN (v : string -> bool) (c : Config) : Config :=
  {| DEFAULT_CACHE_CONTROL_value := DEFAULT_CACHE_CONTROL_value c;
     READ_HOSTNAME_PATTERN := READ_HOSTNAME_PATTERN c;
     WRITE_HOSTNAME_PATTERN := v;
     SOURCE_STORAGE := SOURCE_STORAGE c |}.

(** [initializeConfig(env)], lines 91-112.  Whatever throws inside is caught
    and logged; what was assigned to CONFIG before stays assigned. *)
Definition initializeConfig (env : Env) : M unit :=
  try_catch
    (sourceConfig <- KV_get (source_storage_config (CONFIG_KV env)) ;;
     match sourceConfig with
     | Some p =>
         update (set_CONFIG (fun c => with_SOURCE_STORAGE (merge_source (SOURCE_STORAGE c) p) c))
     | None => ret tt
     end ;;
     readPattern <- KV_get (read_hostname_pattern (CONFIG_KV env)) ;;
     (if truthy_opt readPattern
      then re <- new_RegExp env (default "" readPattern) ;;
           update (set_CONFIG (with_READ_HOSTNAME_PATTERN re))
      else ret tt) ;;
     writePattern <- KV_get (write_hostname_pattern (CONFIG_KV env)) ;;
     (if truthy_opt writePattern
      then re <- new_RegExp env (default "" writePattern) ;;
           update (set_CONFIG (with_WRITE_HOSTNAME_PATTERN re))
      else ret tt))
    (fun _ => ret tt).

(** [validateAuth(request, env, isWriteOperation, objectKey)], lines 117-135 *)
Definition validateAuth (request : Request) (env : Env) (isWriteOperation : bool)
  (objectKey : string) : M bool :=
  (if isWriteOperation then
     let authHeader := headers_get "Authorization" (req_headers request) in
     if negb (truthy_opt authHeader)
     then throw (StorageError "Authentication required" 401 "AccessDenied")
     else ret tt
   else ret tt) ;;
  ret true.

(** [getResponseHeaders(object)], lines 360-385: the headers, or the
    TypeError of the first [headers.set] that throws.  Nothing in the
    function catches it. *)
Definition getResponseHeaders_run (cfg : Config) (env : Env) (object : StorageObject)
  : Result Headers :=
  let h := [] in
  h <-- headers_set "Content-Type"
          (or_else (httpMetadata object ≫= contentType) "application/octet-stream") h ;;
  h <-- (if truthy_opt (httpMetadata object ≫= contentLength)
         then headers_set "Content-Length"
                (default "" (httpMetadata object ≫= contentLength)) h
         else Ok h) ;;
  h <-- (if truthy_opt (httpEtag object)
         then headers_set "ETag" (default "" (httpEtag object)) h
         else Ok h) ;;
  h <-- headers_set "Cache-Control"
          (or_else (httpMetadata object ≫= cacheControl) (DEFAULT_CACHE_CONTROL cfg)) h ;;
  h <-- headers_set "Last-Modified"
          (match uploaded object with
           | Some t => value_text t
           | None => Date_toUTCString env
           end) h ;;
  h <-- match customMetadata object with
        | Some entries =>
            fold_left
              (fun made e =>
                 (h <-- made ;; headers_set ("x-amz-meta-" +:+ fst e) (snd e) h))
              entries (Ok h)
        | None => Ok h
        end ;;
  headers_set "Access-Control-Allow-Origin" "*" h.

(** The headers [getResponseHeaders(object)] returns, where it returns. *)
Definition getResponseHeaders (cfg : Config) (env : Env) (object : StorageObject)
  : Headers :=
  match getResponseHeaders_run cfg env object with
  | Ok h => h
  | Throw _ => []
  end.

(** [formatErrorResponse(error)], lines 390-408 *)
Definition formatErrorResponse (env : Env) (error : JsError) : Response :=
  let st := match error with
            | StorageError _ s _ => if s =? 0 then 500 else s
            | RuntimeError _ => 500
            end in
  let code := match error with
              | StorageError _ _ c => or_else (Some c) "InternalError"
              | RuntimeError _ => "InternalError"
              end in
  let message := match error with
                 | StorageError m _ _ => or_else (Some m) "Internal Server Error"
                 | RuntimeError m => or_else (Some m) "Internal Server Error"
                 end in
  let xmlBody :=
    "<?xml version=" +:+ dquote +:+ "1.0" +:+ dquote +:+ " encoding=" +:+ dquote
      +:+ "UTF-8" +:+ dquote +:+ "?>" +:+ newline
      +:+ "<Error>" +:+ newline
      +:+ "  <Code>" +:+ code +:+ "</Code>" +:+ newline
      +:+ "  <Message>" +:+ message +:+ "</Message>" +:+ newline
      +:+ "  <RequestId>worker-" +:+ Date_now env +:+ "</RequestId>" +:+ newline
      +:+ "</Error>" in
  {| status := st;
     headers := headers_of [("Content-Type", "application/xml")];
     content := Text xmlBody |}.

(** [queueSyncTask(env, objectKey, action)], lines 343-355 *)
Definition queueSyncTask (env : Env) (objectKey : string) (act : string) : M bool :=
  try_catch
    (SYNC_QUEUE_send env {| key := objectKey; action := act;
                            timestamp := Date_toISOString env |} ;;
     ret true)
    (fun _ => ret false).

(** [storeObjectInR2(env, object, objectKey)], lines 323-338.  The value
    given to the bucket is [object.body] itself. *)
Definition storeObjectInR2 (env : Env) (object : StorageObject) (objectKey : string)
  : M bool :=
  try_catch
    (R2_BUCKET_put env objectKey (body object) (httpMetadata object)
       (obj_set "lazyLoadedAt" (Date_toISOString env)
          (obj_set "lazyLoaded" "true" (default [] (customMetadata object)))) ;;
     ret true)
    (fun _ => ret false).

(** The "simulated R2 object" of lines 302-313. *)
Definition simulated_object (response : FetchResponse) : StorageObject :=
  {| body := fetched_body response;
     httpEtag := headers_get "ETag" (fetched_headers response);
     httpMetadata :=
       Some {| contentType := headers_get "Content-Type" (fetched_headers response);
               contentLength := headers_get "Content-Length" (fetched_headers response);
               cacheControl := headers_get "Cache-Control" (fetched_headers response) |};
     customMetadata := Some [("source", "lazy-loaded")];
     uploaded := None |}.

(** The URL of line 280:
    [`${CONFIG.SOURCE_STORAGE.endpoint}/${CONFIG.SOURCE_STORAGE.bucketName}/${objectKey}`] *)
Definition sourceUrl_of (cfg : Config) (objectKey : string) : string :=
  endpoint (SOURCE_STORAGE cfg) +:+ "/" +:+ bucketName (SOURCE_STORAGE cfg)
    +:+ "/" +:+ objectKey.

(** [fetchFromSourceStorage(env, ctx, objectKey)], lines 270-318.  The loop
    of lines 296-299 fills a local [headers] object nothing reads. *)
Definition fetchFromSourceStorage (env : Env) (objectKey : string)
  : M (option StorageObject) :=
  cfg <- read_CONFIG ;;
  if negb (truthy (endpoint (SOURCE_STORAGE cfg))) then ret None
  else
    try_catch
      (let sourceUrl := sourceUrl_of cfg objectKey in
       response <- global_fetch env sourceUrl ;;
       if negb (ok response) then
         response_text response ;;
         ret None
       else
         ret (Some (simulated_object response)))
      (fun _ => ret None).

(** [handleGetRequest(request, env, ctx, objectKey)], lines 140-178 *)
Definition handleGetRequest (request : Request) (env : Env) (objectKey : string)
  : M Response :=
  if negb (truthy objectKey)
  then throw (StorageError "Bucket listing not implemented" 501 "NotImplemented")
  else
    object <- R2_BUCKET_get objectKey ;;
    cfg <- read_CONFIG ;;
    object <- (match object with
               | None =>
                   if truthy (endpoint (SOURCE_STORAGE cfg)) then
                     object <- fetchFromSourceStorage env objectKey ;;
                     match object with
                     | Some o =>
                         storeObjectInR2 env o objectKey ;;
                         queueSyncTask env objectKey "LAZY_LOADED" ;;
                         ret object
                     | None => ret object
                     end
                   else ret object
               | Some _ => ret object
               end) ;;
    match object with
    | None => throw (StorageError "Object not found" 404 "NoSuchKey")
    | Some o =>
        if String.eqb (method request) "HEAD"
        then h <- lift (getResponseHeaders_run cfg env o) ;;
             new_Response NoBody 200 h
        else h <- lift (getResponseHeaders_run cfg env o) ;;
             new_Response (body_of (body o)) 200 h
    end.

(** [handlePutRequest(request, env, ctx, objectKey)], lines 183-226 *)
Definition handlePutRequest (request : Request) (env : Env) (objectKey : string)
  : M Response :=
  if negb (truthy objectKey)
  then throw (StorageError "Invalid object key" 400 "InvalidKey")
  else
    cfg <- read_CONFIG ;;
    let contentType :=
      or_else (headers_get "Content-Type" (req_headers request)) "application/octet-stream" in
    let cacheControl :=
      or_else (headers_get "Cache-Control" (req_headers request)) (DEFAULT_CACHE_CONTROL cfg) in
    let metadata :=
      fold_left
        (fun md e =>
           if startsWith "x-amz-meta-" (toLowerCase (fst e))
           then obj_set (substring_from 11 (fst e)) (snd e) md
           else md)
        (pairs (req_headers request)) [] in
    try_catch
      (object <- R2_BUCKET_put env objectKey (request_body request)
                   (Some {| contentType := Some contentType;
                            contentLength := None;
                            cacheControl := Some cacheControl |})
                   metadata ;;
       queueSyncTask env objectKey "UPLOADED" ;;
       h <- lift (new_Headers [("ETag", r2_httpEtag object);
                               ("Content-Type", "application/xml")]) ;;
       new_Response NoBody 200 h)
      (fun _ => throw (StorageError "Upload failed" 500 "InternalError")).

(** [handleDeleteRequest(request, env, ctx, objectKey)], lines 231-251 *)
Definition handleDeleteRequest (request : Request) (env : Env) (objectKey : string)
  : M Response :=
  if negb (truthy objectKey)
  then throw (StorageError "Invalid object key" 400 "InvalidKey")
  else
    try_catch
      (R2_BUCKET_delete env objectKey ;;
       queueSyncTask env objectKey "DELETED" ;;
       new_Response NoBody 204 [])
      (fun _ => throw (StorageError "Delete failed" 500 "InternalError")).

(** [handleOptionsRequest(request)], lines 256-265 *)
Definition handleOptionsRequest (request : Request) : M Response :=
  new_Response NoBody 200
    (headers_of
       [("Access-Control-Allow-Origin", "*");
        ("Access-Control-Allow-Methods", "GET, PUT, DELETE, HEAD, OPTIONS");
        ("Access-Control-Allow-Headers",
         "Content-Type, Authorization, X-Amz-Date, X-Amz-Content-Sha256, Content-MD5");
        ("Access-Control-Max-Age", "86400")]).

(** The key of a request: [url.pathname.split('/').filter(p => p).join('/')],
    lines 58-59. *)
Definition objectKey_of (request : Request) : string :=
  let pathParts := List.filter truthy (split "/"%char (pathname request)) in
  join "/" pathParts.

(** [fetch(request, env, ctx)], lines 43-85.  [isReadOperation] is computed
    (line 55) and not used. *)
Definition fetch (request : Request) (env : Env) : M Response :=
  initializeConfig env ;;
  try_catch
    (cfg <- read_CONFIG ;;
     let isWriteOperation := WRITE_HOSTNAME_PATTERN cfg (hostname request) in
     let isReadOperation :=
       READ_HOSTNAME_PATTERN cfg (hostname request) || negb isWriteOperation in
     let objectKey := objectKey_of request in
     validateAuth request env isWriteOperation objectKey ;;
     if String.eqb (method request) "GET" || String.eqb (method request) "HEAD" then
       handleGetRequest request env objectKey
     else if String.eqb (method request) "PUT" then
       if negb isWriteOperation
       then throw (StorageError "Write operations not allowed on this endpoint" 403 "AccessDenied")
       else handlePutRequest request env objectKey
     else if String.eqb (method request) "DELETE" then
       if negb isWriteOperation
       then throw (StorageError "Delete operations not allowed on this endpoint" 403 "AccessDenied")
       else handleDeleteRequest request env objectKey
     else if String.eqb (method request) "OPTIONS" then
       handleOptionsRequest request
     else
       throw (StorageError ("Method " +:+ method request +:+ " not supported") 405 "MethodNotAllowed"))
    (fun error => ret (formatErrorResponse env error)).

(** ** Serving one request

    The runtime hands the worker a request whose body is stream 0, and sends
    what [fetch] returns.  Streams do not outlive the request. *)
Record Served : Type := {
  response : Response;
  after : Store;
  trace : list Call
}.

Definition start (s : Store) : Run :=
  {| store := s; was_read := [false]; calls := [] |}.

(** What the runtime answers by itself when the handler rejects. *)
Definition uncaught : Response :=
  {| status := 500; headers := []; content := Text "Internal Server Error" |}.

Definition serve (env : Env) (request : Request) (s : Store) : Served :=
  let out := fetch request env (start s) in
  {| response := match fst out with
                 | Ok resp => resp
                 | Throw _ => uncaught
                 end;
     after := store (snd out);
     trace := calls (snd out) |}.

(** The bytes the client receives as the body of a response. *)
Definition delivered (resp : Response) : string :=
  match content resp with
  | NoBody => ""
  | Text s => s
  | Streamed s => bytes s
  end.

(** * Vocabulary of the properties *)

(** ** The request as [fetch] reads it *)

(** The state in which the routing of [fetch] starts: after
    [initializeConfig]. *)
Definition configured (env : Env) (s : Store) : Run :=
  snd (initializeConfig env (start s)).

(** The CONFIG in force for the request. *)
Definition config_in_force (env : Env) (s : Store) : Config :=
  CONFIG (store (configured env s)).

(** Line 54: whether the host matches the write pattern. *)
Definition isWriteOperation (env : Env) (request : Request) (s : Store) : bool :=
  WRITE_HOSTNAME_PATTERN (config_in_force env s) (hostname request).

(** Lines 121-122: whether the Authorization header passes [!authHeader]. *)
Definition has_credential (request : Request) : bool :=
  truthy_opt (headers_get "Authorization" (req_headers request)).

(** Whether the source storage is configured (line 150). *)
Definition source_configured (env : Env) (s : Store) : bool :=
  truthy (endpoint (SOURCE_STORAGE (config_in_force env s))).

(** Line 65: the method is GET or HEAD. *)
Definition is_read_method (request : Request) : bool :=
  String.eqb (method request) "GET" || String.eqb (method request) "HEAD".

(** [validateAuth] lets the request through. *)
Definition passes_validateAuth (env : Env) (request : Request) (s : Store) : bool :=
  negb (isWriteOperation env request s) || has_credential request.

(** Lines 67 and 72: the method is PUT or DELETE. *)
Definition is_write_method (request : Request) : bool :=
  String.eqb (method request) "PUT" || String.eqb (method request) "DELETE".

(** The path has no character other than the slash. *)
Fixpoint only_slashes (s : string) : bool :=
  match s with
  | EmptyString => true
  | String c rest => Ascii.eqb c "/" && only_slashes rest
  end.

(** ** What the source storage answers *)

(** The status of an answer is between 200 and 299 ([response.ok]). *)
Definition ok_status (a : OriginAnswer) : bool :=
  (200 <=? origin_status a) && (origin_status a <=? 299).

(** The origin did not deliver: the fetch rejected (network error, timeout),
    or the status of the answer is not between 200 and 299. *)
Definition origin_fails (o : FetchOutcome) : bool :=
  match o with
  | FetchRejects => true
  | FetchResolves a => negb (ok_status a)
  end.

(** The stream the runtime makes for the body of the origin's answer: it is
    stream 1 of the request, after the request's own. *)
Definition origin_stream (a : OriginAnswer) : option Stream :=
  match origin_body a with
  | Some data => Some {| sid := 1; bytes := data |}
  | None => None
  end.

(** The object [fetchFromSourceStorage] returns for an answer. *)
Definition origin_object (a : OriginAnswer) : StorageObject :=
  simulated_object {| fetched_status := origin_status a;
                      fetched_headers := origin_headers a;
                      fetched_body := origin_stream a |}.

(** The custom metadata of the write-back (lines 327-331). *)
Definition lazy_metadata (env : Env) : JsObject :=
  obj_set "lazyLoadedAt" (Date_toISOString env)
    (obj_set "lazyLoaded" "true" [("source", "lazy-loaded")]).

(** What the bucket keeps after the write-back of an answer. *)
Definition written_back (env : Env) (a : OriginAnswer) : R2Stored :=
  {| r2_bytes := default "" (origin_body a);
     r2_httpEtag_value := R2_etag_value env (default "" (origin_body a));
     r2_contentType := stored_text (headers_get "Content-Type" (origin_headers a));
     r2_cacheControl := stored_text (headers_get "Cache-Control" (origin_headers a));
     r2_customMetadata := lazy_metadata env;
     r2_uploaded := Date_toUTCString_value env |}.

(** The message of [queueSyncTask] (lines 345-349). *)
Definition sync_event (env : Env) (k act : string) : SyncEvent :=
  {| key := k; action := act; timestamp := Date_toISOString env |}.

(** The answer to a read that was resolved from the origin.  A GET whose
    object has a body stream gives that one stream to [new Response] after
    [storeObjectInR2] gave it to the bucket: the constructor refuses it when
    the put has read it, whether the put went through or failed late. *)
Definition lazy_result (env : Env) (request : Request) (cfg : Config)
  (a : OriginAnswer) : Result Response :=
  let h := getResponseHeaders cfg env (origin_object a) in
  if String.eqb (method request) "HEAD"
  then Ok {| status := 200; headers := h; content := NoBody |}
  else match origin_stream a with
       | None => Ok {| status := 200; headers := h; content := NoBody |}
       | Some st =>
           if R2_put_accepts env || R2_put_fails_late env
           then Throw disturbed_body
           else Ok {| status := 200; headers := h; content := Streamed st |}
       end.

(** ** What an upload gives to the bucket *)

(** The custom metadata of an upload (lines 194-199). *)
Definition upload_metadata (request : Request) : JsObject :=
  fold_left
    (fun md e =>
       if startsWith "x-amz-meta-" (toLowerCase (fst e))
       then obj_set (substring_from 11 (fst e)) (snd e) md
       else md)
    (pairs (req_headers request)) [].

(** The httpMetadata of an upload (lines 189-191, 204-207). *)
Definition upload_httpMetadata (cfg : Config) (request : Request) : HttpMetadata :=
  {| contentType :=
       Some (or_else (headers_get "Content-Type" (req_headers request))
               "application/octet-stream");
     contentLength := None;
     cacheControl :=
       Some (or_else (headers_get "Cache-Control" (req_headers request))
               (DEFAULT_CACHE_CONTROL cfg)) |}.

(** What the bucket keeps after an upload. *)
Definition uploaded_object (env : Env) (cfg : Config) (request : Request) : R2Stored :=
  {| r2_bytes := default "" (req_body request);
     r2_httpEtag_value := R2_etag_value env (default "" (req_body request));
     r2_contentType := contentType (upload_httpMetadata cfg request);
     r2_cacheControl := cacheControl (upload_httpMetadata cfg request);
     r2_customMetadata := upload_metadata request;
     r2_uploaded := Date_toUTCString_value env |}.

(** ** What [getResponseHeaders] accepts *)

(** A field of the object that is set as a header when it is there and not
    empty: [headers.set] accepts it. *)
Definition field_accepted (field : option string) : bool :=
  match field with
  | Some v => if truthy v then value_accepted v else true
  | None => true
  end.

(** The custom metadata can be set as headers (line 377): every key makes a
    header name behind [x-amz-meta-], and every value is accepted. *)
Definition metadata_accepted (entries : JsObject) : bool :=
  forallb (fun e => header_name_ok ("x-amz-meta-" +:+ fst e) && value_accepted (snd e))
    entries.

(** Every [headers.set] of [getResponseHeaders] accepts what the object
    gives it. *)
Definition header_safe_object (object : StorageObject) : bool :=
  field_accepted (httpMetadata object ≫= contentType)
  && field_accepted (httpMetadata object ≫= contentLength)
  && field_accepted (httpEtag object)
  && field_accepted (httpMetadata object ≫= cacheControl)
  && metadata_accepted (default [] (customMetadata object)).

(** The same for an object of the bucket. *)
Definition header_safe (o : R2Stored) : bool :=
  header_safe_object (r2_object o {| sid := 1; bytes := r2_bytes o |}).

(** The headers after line 372, when no [set] has thrown. *)
Definition standard_headers_of (cfg : Config) (env : Env) (object : StorageObject)
  : Headers :=
  let h := headers_replace "Content-Type"
             (normalize_value
                (or_else (httpMetadata object ≫= contentType) "application/octet-stream"))
             [] in
  let h := if truthy_opt (httpMetadata object ≫= contentLength)
           then headers_replace "Content-Length"
                  (normalize_value (default "" (httpMetadata object ≫= contentLength))) h
           else h in
  let h := if truthy_opt (httpEtag object)
           then headers_replace "ETag" (normalize_value (default "" (httpEtag object))) h
           else h in
  let h := headers_replace "Cache-Control"
             (normalize_value
                (or_else (httpMetadata object ≫= cacheControl) (DEFAULT_CACHE_CONTROL cfg)))
             h in
  headers_replace "Last-Modified"
    (match uploaded object with
     | Some t => value_text t
     | None => Date_toUTCString env
     end) h.

(** The headers of the custom metadata, put on [h]. *)
Definition metadata_headers_on (entries : JsObject) (h : Headers) : Headers :=
  fold_left
    (fun h e => headers_replace ("x-amz-meta-" +:+ fst e) (normalize_value (snd e)) h)
    entries h.

(** The headers at the end of the function, when no [set] has thrown. *)
Definition returned_headers (cfg : Config) (env : Env) (object : StorageObject)
  : Headers :=
  headers_replace "Access-Control-Allow-Origin" "*"
    (metadata_headers_on (default [] (customMetadata object))
       (standard_headers_of cfg env object)).

(** ** Environments, stores and requests of the examples *)

(** A configuration store that holds nothing, or only the source storage. *)
Definition kv_of (source : option SourcePatch) : KV :=
  {| source_storage_config := KVReturns source;
     read_hostname_pattern := KVReturns None;
     write_hostname_pattern := KVReturns None |}.

(** The entity tag of the examples: the content between [etag-of-] and
    quotes, where that is a header value. *)
Definition example_etag (data : string) : HeaderValue :=
  header_value (dquote +:+ "etag-of-" +:+ data +:+ dquote)
    {| value_text := dquote +:+ "etag" +:+ dquote; value_is_header_value := eq_refl |}.

(** An environment in which every collaborator accepts (a put that would
    not be accepted fails before it reads the value), with the given
    configuration store and network. *)
Definition env_of (kv : KV) (net : string -> FetchOutcome) : Env :=
  {| CONFIG_KV := kv;
     RegExp := fun _ => None;
     origin := net;
     R2_put_accepts := true;
     R2_put_fails_late := false;
     R2_delete_accepts := true;
     SYNC_QUEUE_accepts := true;
     R2_etag_value := example_etag;
     Date_toISOString_value :=
       {| value_text := "2024-01-01T00:00:00.000Z"; value_is_header_value := eq_refl |};
     Date_toUTCString_value :=
       {| value_text := "Mon, 01 Jan 2024 00:00:00 GMT"; value_is_header_value := eq_refl |};
     Date_now := "1704067200000" |}.

(** No source storage configured, no network. *)
Definition plain_env : Env := env_of (kv_of None) (fun _ => FetchRejects).

(** A stored text file. *)
Definition file_a : R2Stored :=
  {| r2_bytes := "hello";
     r2_httpEtag_value :=
       {| value_text := dquote +:+ "e1" +:+ dquote; value_is_header_value := eq_refl |};
     r2_contentType := Some "text/plain";
     r2_cacheControl := None;
     r2_customMetadata := [];
     r2_uploaded :=
       {| value_text := "Sun, 31 Dec 2023 00:00:00 GMT"; value_is_header_value := eq_refl |} |}.

(** A stored file with custom metadata: two keys that differ by the case of
    a letter, and values with white space around them. *)
Definition file_tagged : R2Stored :=
  {| r2_bytes := "x";
     r2_httpEtag_value :=
       {| value_text := dquote +:+ "e3" +:+ dquote; value_is_header_value := eq_refl |};
     r2_contentType := None;
     r2_cacheControl := None;
     r2_customMetadata := [("Owner", " ann "); ("tag", "t"); ("owner", "bob ")];
     r2_uploaded :=
       {| value_text := "Sun, 31 Dec 2023 00:00:00 GMT"; value_is_header_value := eq_refl |} |}.

(** A stored file whose custom metadata has a key with a space in it: the
    bucket takes any string as a key of custom metadata. *)
Definition file_odd : R2Stored :=
  {| r2_bytes := "hello";
     r2_httpEtag_value :=
       {| value_text := dquote +:+ "e2" +:+ dquote; value_is_header_value := eq_refl |};
     r2_contentType := Some "text/plain";
     r2_cacheControl := None;
     r2_customMetadata := [("a b", "x")];
     r2_uploaded :=
       {| value_text := "Sun, 31 Dec 2023 00:00:00 GMT"; value_is_header_value := eq_refl |} |}.

(** The worker as deployed: the CONFIG of the module, nothing in the bucket,
    nothing in the queue. *)
Definition empty_store : Store :=
  {| CONFIG := CONFIG_initial; R2_BUCKET := ∅; SYNC_QUEUE := [] |}.

(** A bucket that holds [a.txt]. *)
Definition stocked : Store :=
  {| CONFIG := CONFIG_initial; R2_BUCKET := {[ "a.txt" := file_a ]}; SYNC_QUEUE := [] |}.

(** The same store with another content of the bucket. *)
Definition with_bucket (b : gmap string R2Stored) (s : Store) : Store :=
  {| CONFIG := CONFIG s; R2_BUCKET := b; SYNC_QUEUE := SYNC_QUEUE s |}.

(** A request, by method, host, path, headers and body. *)
Definition request_of (m host path : string) (h : Headers) (b : option string)
  : Request :=
  {| method := m; hostname := host; pathname := path;
     req_headers := received h; req_body := b |}.

(** Headers that carry a credential. *)
Definition bearer : Headers := [("authorization", "Bearer token")].

(** The same environment with another network. *)
Definition with_origin (net : string -> FetchOutcome) (env : Env) : Env :=
  {| CONFIG_KV := CONFIG_KV env; RegExp := RegExp env; origin := net;
     R2_put_accepts := R2_put_accepts env;
     R2_put_fails_late := R2_put_fails_late env;
     R2_delete_accepts := R2_delete_accepts env;
     SYNC_QUEUE_accepts := SYNC_QUEUE_accepts env;
     R2_etag_value := R2_etag_value env;
     Date_toISOString_value := Date_toISOString_value env;
     Date_toUTCString_value := Date_toUTCString_value env;
     Date_now := Date_now env |}.

(** The same environment, where the bucket accepts a put or not as [b] says. *)
Definition with_R2_put_accepts (b : bool) (env : Env) : Env :=
  {| CONFIG_KV := CONFIG_KV env; RegExp := RegExp env; origin := origin env;
     R2_put_accepts := b;
     R2_put_fails_late := R2_put_fails_late env;
     R2_delete_accepts := R2_delete_accepts env;
     SYNC_QUEUE_accepts := SYNC_QUEUE_accepts env;
     R2_etag_value := R2_etag_value env;
     Date_toISOString_value := Date_toISOString_value env;
     Date_toUTCString_value := Date_toUTCString_value env;
     Date_now := Date_now env |}.

(** The same environment, where the bucket carries out a delete or not as
    [b] says. *)
Definition with_R2_delete_accepts (b : bool) (env : Env) : Env :=
  {| CONFIG_KV := CONFIG_KV env; RegExp := RegExp env; origin := origin env;
     R2_put_accepts := R2_put_accepts env;
     R2_put_fails_late := R2_put_fails_late env;
     R2_delete_accepts := b;
     SYNC_QUEUE_accepts := SYNC_QUEUE_accepts env;
     R2_etag_value := R2_etag_value env;
     Date_toISOString_value := Date_toISOString_value env;
     Date_toUTCString_value := Date_toUTCString_value env;
     Date_now := Date_now env |}.

(** The same environment, where the queue accepts a send or not as [b] says. *)
Definition with_SYNC_QUEUE_accepts (b : bool) (env : Env) : Env :=
  {| CONFIG_KV := CONFIG_KV env; RegExp := RegExp env; origin := origin env;
     R2_put_accepts := R2_put_accepts env;
     R2_put_fails_late := R2_put_fails_late env;
     R2_delete_accepts := R2_delete_accepts env;
     SYNC_QUEUE_accepts := b;
     R2_etag_value := R2_etag_value env;
     Date_toISOString_value := Date_toISOString_value env;
     Date_toUTCString_value := Date_toUTCString_value env;
     Date_now := Date_now env |}.

(** A source storage that does not have the key: it answers 404. *)
Definition not_in_origin : string -> FetchOutcome :=
  fun _ => FetchResolves {| origin_status := 404; origin_headers := []; origin_body := None |}.

(** An environment whose source storage is configured at
    [https://origin.example], bucket [assets], and answers as [net] says. *)
Definition origin_env (net : string -> FetchOutcome) : Env :=
  env_of
    (kv_of (Some {| patch_endpoint := Some "https://origin.example";
                    patch_region := None;
                    patch_accessKeyId := None;
                    patch_secretAccessKey := None;
                    patch_bucketName := Some "assets" |}))
    net.

(** The source storage of the examples: it has [images/logo.png], of type
    image/png and ETag "abc", and nothing else. *)
Definition logo_answer : OriginAnswer :=
  {| origin_status := 200;
     origin_headers := [("content-type", "image/png");
                        ("etag", dquote +:+ "abc" +:+ dquote)];
     origin_body := Some "PNG-DATA" |}.

(** The network of the examples: the logo at its URL, 404 elsewhere. *)
Definition logo_origin : string -> FetchOutcome :=
  fun url =>
    if String.eqb url "https://origin.example/assets/images/logo.png"
    then FetchResolves logo_answer
    else not_in_origin url.

(** A GET and a HEAD of the logo on a read host, without credential. *)
Definition get_logo : Request :=
  request_of "GET" "read-cdn.example.com" "/images/logo.png" [] None.

Definition head_logo : Request :=
  request_of "HEAD" "read-cdn.example.com" "/images/logo.png" [] None.

(** ** Counting calls *)

Definition is_put (c : Call) : bool :=
  match c with
  | CallPut _ _ _ _ => true
  | _ => false
  end.

Definition is_send (c : Call) : bool :=
  match c with
  | CallSend _ => true
  | _ => false
  end.

(** ** Vocabulary of the further properties *)

(** Line 77: the method is OPTIONS. *)
Definition is_options (request : Request) : bool :=
  String.eqb (method request) "OPTIONS".

(** The headers of the answer to OPTIONS (lines 258-263). *)
Definition cors_descriptor : Headers :=
  headers_of
    [("Access-Control-Allow-Origin", "*");
     ("Access-Control-Allow-Methods", "GET, PUT, DELETE, HEAD, OPTIONS");
     ("Access-Control-Allow-Headers",
      "Content-Type, Authorization, X-Amz-Date, X-Amz-Content-Sha256, Content-MD5");
     ("Access-Control-Max-Age", "86400")].

(** The call is about the object key [k], or is the fetch of [url]. *)
Definition call_concerns (url k : string) (c : Call) : bool :=
  match c with
  | CallGet k' => String.eqb k' k
  | CallPut k' _ _ _ => String.eqb k' k
  | CallDelete k' => String.eqb k' k
  | CallFetch u => String.eqb u url
  | CallSend ev => String.eqb (key ev) k
  end.

(** The statuses the worker answers with. *)
Definition answered_statuses : list Z := [200; 204; 400; 401; 403; 404; 405; 500; 501].

(** The request with its Authorization header set to the header value [v]. *)
Definition with_authorization (v : HeaderValue) (request : Request) : Request :=
  {| method := method request;
     hostname := hostname request;
     pathname := pathname request;
     req_headers := received (headers_replace "Authorization" v (req_headers request));
     req_body := req_body request |}.

(** The same environment, where a put the bucket does not accept fails late
    or early as [b] says. *)
Definition with_R2_put_fails_late (b : bool) (env : Env) : Env :=
  {| CONFIG_KV := CONFIG_KV env; RegExp := RegExp env; origin := origin env;
     R2_put_accepts := R2_put_accepts env;
     R2_put_fails_late := b;
     R2_delete_accepts := R2_delete_accepts env;
     SYNC_QUEUE_accepts := SYNC_QUEUE_accepts env;
     R2_etag_value := R2_etag_value env;
     Date_toISOString_value := Date_toISOString_value env;
     Date_toUTCString_value := Date_toUTCString_value env;
     Date_now := Date_now env |}.

(** The string has no slash. *)
Fixpoint no_slash (s : string) : bool :=
  match s with
  | EmptyString => true
  | String c rest => negb (Ascii.eqb c "/") && no_slash rest
  end.

(** The request with its path replaced by [p]. *)
Definition with_pathname (p : string) (request : Request) : Request :=
  {| method := method request;
     hostname := hostname request;
     pathname := p;
     req_headers := req_headers request;
     req_body := req_body request |}.


(** The reading of a hostname pattern throws: the read of the configuration
    store itself, or [new RegExp] on the text it returned (lines 100-102 and
    105-107). *)
Definition pattern_fails (env : Env) (v : KVRead string) : bool :=
  match v with
  | KVThrows => true
  | KVReturns (Some p) =>
      truthy p && match RegExp env p with
                  | Some _ => false
                  | None => true
                  end
  | KVReturns None => false
  end.

(** The same environment with another configuration store and another
    [RegExp]. *)
Definition with_CONFIG_KV (kv : KV) (re : string -> option (string -> bool))
  (env : Env) : Env :=
  {| CONFIG_KV := kv; RegExp := re; origin := origin env;
     R2_put_accepts := R2_put_accepts env;
     R2_put_fails_late := R2_put_fails_late env;
     R2_delete_accepts := R2_delete_accepts env;
     SYNC_QUEUE_accepts := SYNC_QUEUE_accepts env;
     R2_etag_value := R2_etag_value env;
     Date_toISOString_value := Date_toISOString_value env;
     Date_toUTCString_value := Date_toUTCString_value env;
     Date_now := Date_now env |}.


(** * Properties *)

(** These are kept folded when a goal is simplified. *)
Arguments getResponseHeaders : simpl never.
Arguments formatErrorResponse : simpl never.
Arguments headers_of : simpl never.
Arguments headers_get : simpl never.
Arguments headers_set : simpl never.
Arguments headers_replace : simpl never.
Arguments new_Headers : simpl never.
Arguments getResponseHeaders_run : simpl never.
Arguments received : simpl never.
Arguments normalize_value : simpl never.
Arguments header_name_ok : simpl never.
Arguments header_value_ok : simpl never.
Arguments is_header_value : simpl never.
Arguments obj_set : simpl never.
Arguments sourceUrl_of : simpl never.
Arguments objectKey_of : simpl never.
Arguments truthy : simpl never.
Arguments simulated_object : simpl never.
Arguments r2_object : simpl never.

(** ** Keys *)

Lemma truthy_true (s : string) : s <> "" -> truthy s = true.
Proof.
  intros H. unfold truthy.
  destruct (String.eqb_spec s ""); [contradiction | reflexivity].
Qed.

Lemma split_not_nil (sep : ascii) (s : string) : split sep s <> [].
Proof.
  destruct s as [|c rest]; cbn [split]; [discriminate|].
  destruct (Ascii.eqb c sep); [discriminate|].
  destruct (split sep rest); discriminate.
Qed.

Lemma no_part_iff_only_slashes (s : string) :
  List.filter truthy (split "/" s) = [] <-> only_slashes s = true.
Proof.
  induction s as [|c rest IH]; cbn [split only_slashes].
  - split; reflexivity.
  - destruct (Ascii.eqb c "/"); cbn [andb].
    + cbn [List.filter]. change (truthy "") with false. exact IH.
    + destruct (split "/" rest) as [|part parts] eqn:Hs.
      * destruct (split_not_nil "/" rest Hs).
      * cbn [List.filter]. change (truthy (String c part)) with true.
        split; discriminate.
Qed.

Lemma join_empty (parts : list string) :
  Forall (fun p => truthy p = true) parts -> join "/" parts = "" -> parts = [].
Proof.
  intros Hall Hj. destruct parts as [|p rest]; [reflexivity|].
  apply Forall_cons_1 in Hall. destruct Hall as [Hp _].
  destruct p as [|c p']; [discriminate Hp|].
  destruct rest; discriminate Hj.
Qed.

(** The key of a request is empty exactly when its path has no character
    other than the slash. *)
Lemma objectKey_of_empty (request : Request) :
  objectKey_of request = "" <-> only_slashes (pathname request) = true.
Proof.
  unfold objectKey_of. rewrite <- no_part_iff_only_slashes. split.
  - apply join_empty. apply List.Forall_forall. intros p Hin.
    apply List.filter_In in Hin. tauto.
  - intros ->. reflexivity.
Qed.

Example objectKey_of_examples :
  objectKey_of (request_of "GET" "h" "/" [] None) = ""
  /\ objectKey_of (request_of "GET" "h" "" [] None) = ""
  /\ objectKey_of (request_of "GET" "h" "//" [] None) = ""
  /\ objectKey_of (request_of "GET" "h" "/images//logo.png" [] None) = "images/logo.png".
Proof. repeat split; reflexivity. Qed.

(** ** The configuration step *)

(** [initializeConfig] never throws, and changes nothing but CONFIG. *)
Lemma initializeConfig_spec (env : Env) (r : Run) :
  exists c : Config,
    initializeConfig env r =
      (Ok tt,
       {| store := {| CONFIG := c;
                      R2_BUCKET := R2_BUCKET (store r);
                      SYNC_QUEUE := SYNC_QUEUE (store r) |};
          was_read := was_read r;
          calls := calls r |}).
Proof.
  destruct r as [[c b q] w l].
  unfold initializeConfig, try_catch, bind, KV_get, new_RegExp.
  destruct (source_storage_config (CONFIG_KV env)) as [|[p|]];
    destruct (read_hostname_pattern (CONFIG_KV env)) as [|rp];
    destruct (write_hostname_pattern (CONFIG_KV env)) as [|wp];
    cbn; eauto;
    try (destruct (truthy_opt rp); cbn; eauto;
         try (destruct (RegExp env (default "" rp)); cbn; eauto));
    try (destruct (truthy_opt wp); cbn; eauto;
         try (destruct (RegExp env (default "" wp)); cbn; eauto)).
Qed.

Lemma configured_eq (env : Env) (s : Store) :
  configured env s =
    {| store := {| CONFIG := config_in_force env s;
                   R2_BUCKET := R2_BUCKET s;
                   SYNC_QUEUE := SYNC_QUEUE s |};
       was_read := [false];
       calls := [] |}.
Proof.
  unfold config_in_force, configured.
  destruct (initializeConfig_spec env (start s)) as [c ->]. reflexivity.
Qed.

Lemma initializeConfig_start (env : Env) (s : Store) :
  initializeConfig env (start s) = (Ok tt, configured env s).
Proof.
  unfold configured.
  destruct (initializeConfig_spec env (start s)) as [c ->]. reflexivity.
Qed.

(** The load reads the CONFIG and the configuration store, not the bucket
    and not the queue. *)
Lemma config_in_force_with_bucket (env : Env) (b : gmap string R2Stored) (s : Store) :
  config_in_force env (with_bucket b s) = config_in_force env s.
Proof.
  destruct s as [c b0 q].
  unfold config_in_force, configured, start, with_bucket, initializeConfig, try_catch,
    bind, KV_get, new_RegExp.
  cbn [CONFIG SYNC_QUEUE].
  destruct (source_storage_config (CONFIG_KV env)) as [|[p|]];
    destruct (read_hostname_pattern (CONFIG_KV env)) as [|rp];
    destruct (write_hostname_pattern (CONFIG_KV env)) as [|wp];
    cbn; try reflexivity;
    try (destruct (truthy_opt rp); cbn; try reflexivity;
         try (destruct (RegExp env (default "" rp)); cbn; try reflexivity));
    try (destruct (truthy_opt wp); cbn; try reflexivity;
         try (destruct (RegExp env (default "" wp)); cbn; try reflexivity)).
Qed.

(** With nothing in the configuration store, the CONFIG stays as it is. *)
Lemma config_in_force_default (net : string -> FetchOutcome) (s : Store) :
  config_in_force (env_of (kv_of None) net) s = CONFIG s.
Proof. reflexivity. Qed.

(** [fetch] never rejects: an exception of the routing or of a handler is
    turned into a response by [formatErrorResponse], so [serve] never sends
    [uncaught]. *)
Lemma fetch_always_answers (request : Request) (env : Env) (r : Run) :
  exists (resp : Response) (r' : Run), fetch request env r = (Ok resp, r').
Proof.
  unfold fetch. unfold bind at 1.
  destruct (initializeConfig_spec env r) as [c ->].
  unfold try_catch, ret.
  match goal with
  | |- context [match ?run ?st with _ => _ end] =>
      destruct (run st) as [[resp|e] r']
  end; eauto.
Qed.

(** ** Headers objects *)

Lemma lower_ascii_idempotent (c : ascii) : lower_ascii (lower_ascii c) = lower_ascii c.
Proof.
  destruct c as [[] [] [] [] [] [] [] []]; reflexivity.
Qed.

Lemma toLowerCase_idempotent (s : string) : toLowerCase (toLowerCase s) = toLowerCase s.
Proof.
  induction s as [|c rest IH]; cbn [toLowerCase]; [reflexivity|].
  rewrite lower_ascii_idempotent, IH. reflexivity.
Qed.

Lemma find_none_app {A : Type} (p : A -> bool) (l1 l2 : list A) :
  List.find p l1 = None -> List.find p (l1 ++ l2) = List.find p l2.
Proof.
  induction l1 as [|x l1 IH]; cbn [List.find app]; [reflexivity|].
  destruct (p x); [discriminate | exact IH].
Qed.

Lemma find_some_app {A : Type} (p : A -> bool) (l1 l2 : list A) (x : A) :
  List.find p l1 = Some x -> List.find p (l1 ++ l2) = Some x.
Proof.
  induction l1 as [|y l1 IH]; cbn [List.find app]; [discriminate|].
  destruct (p y); [intros H; exact H | exact IH].
Qed.

Lemma find_filter_out {A : Type} (p : A -> bool) (l : list A) :
  List.find p (List.filter (fun e => negb (p e)) l) = None.
Proof.
  induction l as [|x l IH]; cbn [List.filter List.find]; [reflexivity|].
  destruct (p x) eqn:Hx; cbn [negb List.find]; [exact IH|].
  rewrite Hx. exact IH.
Qed.

(** A pair put in place, then [h.get] of its name, whatever the case of the
    letters. *)
Lemma headers_get_replace (name value : string) (h : Headers) :
  headers_get name (headers_replace name value h) = Some value.
Proof.
  unfold headers_get, headers_replace.
  rewrite find_none_app by apply find_filter_out.
  cbn [List.find]. unfold same_name at 1. cbn [fst].
  rewrite toLowerCase_idempotent, String.eqb_refl. reflexivity.
Qed.

(** A pair of another name leaves [h.get(name)] as it was. *)
Lemma headers_get_replace_other (name other value : string) (h : Headers) :
  String.eqb (toLowerCase other) (toLowerCase name) = false ->
  headers_get name (headers_replace other value h) = headers_get name h.
Proof.
  intros Hne. unfold headers_get, headers_replace. f_equal.
  assert (Hf : List.find (same_name name)
                 (List.filter (fun e => negb (same_name other e)) h)
               = List.find (same_name name) h).
  { induction h as [|e h IH]; cbn [List.filter List.find]; [reflexivity|].
    destruct (same_name other e) eqn:Ho; cbn [negb List.find].
    - assert (Hn : same_name name e = false).
      { unfold same_name in *. apply String.eqb_eq in Ho. rewrite Ho. exact Hne. }
      rewrite Hn. exact IH.
    - destruct (same_name name e); [reflexivity | exact IH]. }
  destruct (List.find (same_name name) h) as [x|] eqn:Hx.
  - rewrite (find_some_app _ _ _ x Hf). reflexivity.
  - rewrite (find_none_app _ _ _ Hf). cbn [List.find].
    unfold same_name at 1. cbn [fst]. rewrite toLowerCase_idempotent, Hne.
    reflexivity.
Qed.

Lemma toLowerCase_append (a b : string) :
  toLowerCase (a +:+ b) = toLowerCase a +:+ toLowerCase b.
Proof.
  induction a as [|c a IH]; [reflexivity|].
  change (String (lower_ascii c) (toLowerCase (a +:+ b))
          = String (lower_ascii c) (toLowerCase a +:+ toLowerCase b)).
  rewrite IH. reflexivity.
Qed.

Lemma append_eqb_same_prefix (p a b : string) :
  String.eqb (p +:+ a) (p +:+ b) = String.eqb a b.
Proof.
  induction p as [|c p IH]; [reflexivity|].
  change (String.eqb (String c (p +:+ a)) (String c (p +:+ b)) = String.eqb a b).
  cbn [String.eqb]. rewrite Ascii.eqb_refl. exact IH.
Qed.

Lemma metadata_names_differ (k k' : string) :
  String.eqb (toLowerCase k') (toLowerCase k) = false ->
  String.eqb (toLowerCase ("x-amz-meta-" +:+ k')) (toLowerCase ("x-amz-meta-" +:+ k))
  = false.
Proof.
  intros H. rewrite !toLowerCase_append, append_eqb_same_prefix. exact H.
Qed.

(** The headers of custom metadata do not touch a header whose name does not
    begin with [x-amz-meta-]. *)
Lemma headers_get_metadata (name : string) (entries : JsObject) (h : Headers) :
  startsWith "x-amz-meta-" (toLowerCase name) = false ->
  headers_get name (metadata_headers_on entries h) = headers_get name h.
Proof.
  intros Hn. unfold metadata_headers_on. revert h.
  induction entries as [|e entries IH]; intros h; cbn [fold_left]; [reflexivity|].
  rewrite IH. apply headers_get_replace_other.
  destruct (String.eqb_spec (toLowerCase ("x-amz-meta-" +:+ fst e)) (toLowerCase name))
    as [Heq|]; [|reflexivity].
  rewrite <- Heq in Hn. destruct (fst e); vm_compute in Hn; discriminate Hn.
Qed.

(** The header of a metadata key is the value of the last entry with that
    key, up to the case of the letters, without the whitespace around it. *)
Lemma metadata_header_last (k v : string) (before later : JsObject) (h : Headers) :
  forallb (fun e => negb (String.eqb (toLowerCase (fst e)) (toLowerCase k))) later = true ->
  headers_get ("x-amz-meta-" +:+ k)
    (metadata_headers_on (before ++ (k, v) :: later) h)
  = Some (normalize_value v).
Proof.
  intros Hlater. unfold metadata_headers_on.
  rewrite fold_left_app. cbn [fold_left fst snd].
  set (h1 := headers_replace ("x-amz-meta-" +:+ k) (normalize_value v) _).
  assert (H1 : headers_get ("x-amz-meta-" +:+ k) h1 = Some (normalize_value v))
    by apply headers_get_replace.
  clearbody h1. revert h1 H1.
  induction later as [|e later IH]; intros h1 H1; cbn [fold_left]; [exact H1|].
  cbn [forallb] in Hlater. apply andb_true_iff in Hlater. destruct Hlater as [He Hl].
  apply IH; [exact Hl|].
  rewrite headers_get_replace_other; [exact H1|].
  apply metadata_names_differ. apply negb_true_iff. exact He.
Qed.

(** *** What [set] accepts *)

Lemma is_header_value_inv (s : string) :
  is_header_value s = true -> header_value_ok s = true /\ normalize_value s = s.
Proof.
  unfold is_header_value. intros H. apply andb_true_iff in H.
  destruct H as [Hok Hn]. apply String.eqb_eq in Hn. split; assumption.
Qed.

Lemma is_header_value_accepted (s : string) :
  is_header_value s = true -> value_accepted s = true.
Proof.
  intros H. destruct (is_header_value_inv s H) as [Hok Hn].
  unfold value_accepted. rewrite Hn. exact Hok.
Qed.

(** A header value goes into a Headers object as it is. *)
Lemma value_text_accepted (v : HeaderValue) :
  value_accepted v = true /\ normalize_value v = v.
Proof.
  split.
  - apply is_header_value_accepted, value_is_header_value.
  - apply is_header_value_inv, value_is_header_value.
Qed.

Lemma headers_set_accepted (name value : string) (h : Headers) :
  header_name_ok name = true ->
  headers_set name value h =
    if value_accepted value
    then Ok (headers_replace name (normalize_value value) h)
    else Throw invalid_header.
Proof.
  intros Hn. unfold headers_set. rewrite Hn. reflexivity.
Qed.

Lemma pairs_accepted_In (l : HeaderList) (e : string * string) :
  In e (pairs l) -> pair_ok e = true.
Proof.
  intros Hin. pose proof (pairs_accepted l) as H.
  rewrite List.forallb_forall in H. exact (H e Hin).
Qed.

Lemma headers_get_In (name : string) (h : Headers) (v : string) :
  headers_get name h = Some v -> exists n, In (n, v) h /\ same_name name (n, v) = true.
Proof.
  unfold headers_get. destruct (List.find (same_name name) h) as [[n w]|] eqn:Hf;
    [|discriminate].
  cbn. intros [= <-]. apply List.find_some in Hf. exists n. exact Hf.
Qed.

(** What [get] returns from a Headers object of the runtime is a header
    value. *)
Lemma headers_get_accepted (l : HeaderList) (name v : string) :
  headers_get name l = Some v -> is_header_value v = true.
Proof.
  intros H. destruct (headers_get_In name l v H) as (n & Hin & _).
  pose proof (pairs_accepted_In l (n, v) Hin) as Hok.
  unfold pair_ok in Hok. apply andb_true_iff in Hok. exact (proj2 Hok).
Qed.

Lemma field_accepted_value (v : string) :
  value_accepted v = true -> field_accepted (Some v) = true.
Proof. intros H. cbn [field_accepted]. rewrite H. destruct (truthy v); reflexivity. Qed.

Lemma field_accepted_get (l : HeaderList) (name : string) :
  field_accepted (headers_get name l) = true.
Proof.
  destruct (headers_get name l) as [v|] eqn:H; [|reflexivity].
  apply field_accepted_value, is_header_value_accepted.
  exact (headers_get_accepted l name v H).
Qed.


(** [a || d] is accepted exactly when [a] is, for a [d] that is. *)
Lemma or_else_accepted (o : option string) (d : string) :
  value_accepted d = true ->
  value_accepted (or_else o d) = field_accepted o.
Proof.
  intros Hd. destruct o as [v|]; cbn [or_else field_accepted]; [|exact Hd].
  destruct (truthy v); [reflexivity | exact Hd].
Qed.

Lemma default_accepted (o : option string) :
  truthy_opt o = true -> value_accepted (default "" o) = field_accepted o.
Proof.
  destruct o as [v|]; cbn [truthy_opt default field_accepted]; [|discriminate].
  intros ->. reflexivity.
Qed.

Lemma falsy_accepted (o : option string) :
  truthy_opt o = false -> field_accepted o = true.
Proof.
  destruct o as [v|]; cbn [truthy_opt field_accepted]; [|reflexivity].
  intros ->. reflexivity.
Qed.

(** *** [getResponseHeaders]: when it returns, and what *)

Lemma metadata_fold_thrown (entries : JsObject) :
  fold_left
    (fun made e => (h <-- made ;; headers_set ("x-amz-meta-" +:+ fst e) (snd e) h))
    entries (Throw invalid_header)
  = Throw invalid_header.
Proof. induction entries as [|e entries IH]; [reflexivity | exact IH]. Qed.

(** The loop of lines 375-379. *)
Lemma metadata_fold (entries : JsObject) (h : Headers) :
  fold_left
    (fun made e => (h <-- made ;; headers_set ("x-amz-meta-" +:+ fst e) (snd e) h))
    entries (Ok h)
  = if metadata_accepted entries
    then Ok (metadata_headers_on entries h)
    else Throw invalid_header.
Proof.
  unfold metadata_accepted, metadata_headers_on. revert h.
  induction entries as [|e entries IH]; intros h; [reflexivity|].
  cbn [fold_left forallb and_then]. unfold headers_set at 2.
  destruct (header_name_ok ("x-amz-meta-" +:+ fst e) && value_accepted (snd e)).
  - cbn [andb]. apply IH.
  - cbn [andb]. apply metadata_fold_thrown.
Qed.

(** [getResponseHeaders] returns exactly on the objects every [set] of which
    is accepted, and then returns [returned_headers]. *)
Lemma getResponseHeaders_run_eq (cfg : Config) (env : Env) (object : StorageObject) :
  getResponseHeaders_run cfg env object =
    if header_safe_object object
    then Ok (returned_headers cfg env object)
    else Throw invalid_header.
Proof.
  unfold getResponseHeaders_run, header_safe_object, returned_headers,
    standard_headers_of.
  rewrite (headers_set_accepted "Content-Type") by reflexivity.
  rewrite (or_else_accepted _ "application/octet-stream") by reflexivity.
  destruct (field_accepted (httpMetadata object ≫= contentType));
    cbn [and_then andb]; [|reflexivity].
  set (h1 := headers_replace "Content-Type" _ _).
  assert (H2 :
    (if truthy_opt (httpMetadata object ≫= contentLength)
     then headers_set "Content-Length"
            (default "" (httpMetadata object ≫= contentLength)) h1
     else Ok h1)
    = if field_accepted (httpMetadata object ≫= contentLength)
      then Ok (if truthy_opt (httpMetadata object ≫= contentLength)
               then headers_replace "Content-Length"
                      (normalize_value (default "" (httpMetadata object ≫= contentLength)))
                      h1
               else h1)
      else Throw invalid_header).
  { destruct (truthy_opt (httpMetadata object ≫= contentLength)) eqn:Ht.
    - rewrite (headers_set_accepted "Content-Length") by reflexivity.
      rewrite (default_accepted _ Ht). reflexivity.
    - rewrite (falsy_accepted _ Ht). reflexivity. }
  rewrite H2. clear H2.
  destruct (field_accepted (httpMetadata object ≫= contentLength));
    cbn [and_then andb]; [|reflexivity].
  set (h2 := if truthy_opt (httpMetadata object ≫= contentLength) then _ else h1).
  assert (H3 :
    (if truthy_opt (httpEtag object)
     then headers_set "ETag" (default "" (httpEtag object)) h2
     else Ok h2)
    = if field_accepted (httpEtag object)
      then Ok (if truthy_opt (httpEtag object)
               then headers_replace "ETag"
                      (normalize_value (default "" (httpEtag object))) h2
               else h2)
      else Throw invalid_header).
  { destruct (truthy_opt (httpEtag object)) eqn:Ht.
    - rewrite (headers_set_accepted "ETag") by reflexivity.
      rewrite (default_accepted _ Ht). reflexivity.
    - rewrite (falsy_accepted _ Ht). reflexivity. }
  rewrite H3. clear H3.
  destruct (field_accepted (httpEtag object)); cbn [and_then andb]; [|reflexivity].
  set (h3 := if truthy_opt (httpEtag object) then _ else h2).
  rewrite (headers_set_accepted "Cache-Control") by reflexivity.
  rewrite (or_else_accepted _ (DEFAULT_CACHE_CONTROL cfg))
    by apply (value_text_accepted (DEFAULT_CACHE_CONTROL_value cfg)).
  destruct (field_accepted (httpMetadata object ≫= cacheControl));
    cbn [and_then andb]; [|reflexivity].
  rewrite (headers_set_accepted "Last-Modified") by reflexivity.
  assert (H5 : exists t : HeaderValue,
            match uploaded object with
            | Some t => value_text t
            | None => Date_toUTCString env
            end = value_text t).
  { destruct (uploaded object) as [t|]; eexists; reflexivity. }
  destruct H5 as [t ->]. destruct (value_text_accepted t) as [-> ->].
  cbn [and_then].
  set (h5 := headers_replace "Last-Modified" _ _).
  assert (H6 :
    match customMetadata object with
    | Some entries =>
        fold_left
          (fun made e =>
             (h <-- made ;; headers_set ("x-amz-meta-" +:+ fst e) (snd e) h))
          entries (Ok h5)
    | None => Ok h5
    end
    = if metadata_accepted (default [] (customMetadata object))
      then Ok (metadata_headers_on (default [] (customMetadata object)) h5)
      else Throw invalid_header).
  { destruct (customMetadata object) as [entries|]; [apply metadata_fold | reflexivity]. }
  rewrite H6. clear H6.
  destruct (metadata_accepted (default [] (customMetadata object)));
    cbn [and_then]; reflexivity.
Qed.

Lemma getResponseHeaders_safe (cfg : Config) (env : Env) (object : StorageObject) :
  header_safe_object object = true ->
  getResponseHeaders_run cfg env object = Ok (getResponseHeaders cfg env object)
  /\ getResponseHeaders cfg env object = returned_headers cfg env object.
Proof.
  intros H. unfold getResponseHeaders. rewrite getResponseHeaders_run_eq, H.
  split; reflexivity.
Qed.

(** The standard headers of what is returned, read with [get]. *)
Lemma returned_standard (cfg : Config) (env : Env) (object : StorageObject) :
  let h := returned_headers cfg env object in
  headers_get "Content-Type" h
    = Some (normalize_value
              (or_else (httpMetadata object ≫= contentType) "application/octet-stream"))
  /\ headers_get "Content-Length" h
    = (if truthy_opt (httpMetadata object ≫= contentLength)
       then Some (normalize_value (default "" (httpMetadata object ≫= contentLength)))
       else None)
  /\ headers_get "ETag" h
    = (if truthy_opt (httpEtag object)
       then Some (normalize_value (default "" (httpEtag object)))
       else None)
  /\ headers_get "Cache-Control" h
    = Some (normalize_value
              (or_else (httpMetadata object ≫= cacheControl) (DEFAULT_CACHE_CONTROL cfg)))
  /\ headers_get "Last-Modified" h
    = Some (match uploaded object with
            | Some t => value_text t
            | None => Date_toUTCString env
            end)
  /\ headers_get "Access-Control-Allow-Origin" h = Some "*".
Proof.
  cbn zeta. unfold returned_headers.
  repeat split;
    try (rewrite headers_get_replace_other by reflexivity;
         rewrite headers_get_metadata by reflexivity;
         unfold standard_headers_of; cbn zeta;
         destruct (truthy_opt (httpMetadata object ≫= contentLength));
         destruct (truthy_opt (httpEtag object));
         rewrite ?headers_get_replace_other by reflexivity;
         first [apply headers_get_replace | reflexivity]).
  apply headers_get_replace.
Qed.

(** The headers of the custom metadata of what is returned. *)
Lemma returned_metadata (cfg : Config) (env : Env) (object : StorageObject)
    (k : string) :
  headers_get ("x-amz-meta-" +:+ k) (returned_headers cfg env object)
  = headers_get ("x-amz-meta-" +:+ k)
      (metadata_headers_on (default [] (customMetadata object))
         (standard_headers_of cfg env object)).
Proof.
  unfold returned_headers. apply headers_get_replace_other. reflexivity.
Qed.

(** *** Objects made of what the runtime delivers *)

(** The headers of the answer to an upload (lines 215-218): the entity tag
    is the bucket's own. *)
Lemma new_Headers_etag (etag : HeaderValue) :
  new_Headers [("ETag", value_text etag); ("Content-Type", "application/xml")]
  = Ok (headers_of [("ETag", value_text etag); ("Content-Type", "application/xml")]).
Proof.
  unfold new_Headers, headers_of. cbn [fold_left and_then fst snd].
  rewrite (headers_set_accepted "ETag") by reflexivity.
  destruct (value_text_accepted etag) as [-> ->]. reflexivity.
Qed.

(** The object [fetchFromSourceStorage] builds takes its fields from the
    Headers object of the response: every [set] accepts them. *)
Lemma origin_object_safe (a : OriginAnswer) :
  header_safe_object (origin_object a) = true.
Proof.
  unfold header_safe_object, origin_object, simulated_object.
  cbn [httpMetadata httpEtag customMetadata uploaded fetched_headers mbind option_bind
       contentType contentLength cacheControl default].
  rewrite !field_accepted_get. reflexivity.
Qed.

Lemma stored_text_accepted (l : HeaderList) (name : string) :
  field_accepted (stored_text (headers_get name l)) = true.
Proof.
  unfold stored_text. apply field_accepted_value.
  destruct (headers_get name l) as [v|] eqn:H; cbn [default]; [|reflexivity].
  apply is_header_value_accepted. exact (headers_get_accepted l name v H).
Qed.

Lemma lazy_metadata_eq (env : Env) :
  lazy_metadata env =
    [("source", "lazy-loaded"); ("lazyLoaded", "true");
     ("lazyLoadedAt", Date_toISOString env)].
Proof. reflexivity. Qed.

Lemma lazy_metadata_accepted (env : Env) :
  metadata_accepted (lazy_metadata env) = true.
Proof.
  rewrite lazy_metadata_eq. unfold metadata_accepted, Date_toISOString.
  cbn [forallb fst snd].
  rewrite (proj1 (value_text_accepted (Date_toISOString_value env))).
  reflexivity.
Qed.

(** The entity tag and the upload date of an object of the bucket are the
    bucket's own. *)
Lemma r2_object_own_fields (o : R2Stored) (st : Stream) :
  field_accepted (httpEtag (r2_object o st)) = true.
Proof.
  unfold r2_object, r2_httpEtag. cbn [httpEtag].
  exact (field_accepted_value _ (proj1 (value_text_accepted (r2_httpEtag_value o)))).
Qed.

(** An object of the bucket can be read back when its http metadata and its
    custom metadata can be set as headers. *)
Lemma header_safe_eq (o : R2Stored) :
  header_safe o =
    field_accepted (r2_contentType o) && field_accepted (r2_cacheControl o)
    && metadata_accepted (r2_customMetadata o).
Proof.
  unfold header_safe, header_safe_object.
  rewrite (r2_object_own_fields o {| sid := 1; bytes := r2_bytes o |}).
  unfold r2_object.
  cbn [httpMetadata customMetadata mbind option_bind contentType contentLength
       cacheControl default field_accepted].
  rewrite !andb_true_r. reflexivity.
Qed.

(** What the write-back keeps in the bucket can be read back. *)
Lemma written_back_safe (env : Env) (a : OriginAnswer) :
  header_safe (written_back env a) = true.
Proof.
  rewrite header_safe_eq. unfold written_back.
  cbn [r2_contentType r2_cacheControl r2_customMetadata].
  rewrite !stored_text_accepted, lazy_metadata_accepted. reflexivity.
Qed.

(** ** One request *)

(** The first steps of [fetch] on a new request: the configuration, then the
    reading of CONFIG inside the [try]. *)
Ltac enter_fetch env s :=
  unfold fetch; unfold bind at 1; rewrite initializeConfig_start;
  unfold try_catch at 1; unfold bind at 1; unfold read_CONFIG at 1;
  fold (config_in_force env s); unfold bind at 1; unfold validateAuth, bind.

(** The first steps of [handleGetRequest] on a key that is not empty, up to
    the answer [Ho] of the bucket. *)
Ltac enter_get Hk Ho :=
  rewrite configured_eq; unfold handleGetRequest;
  rewrite (truthy_true _ Hk); cbn [negb];
  unfold bind, R2_BUCKET_get, bind, record, read_CONFIG; cbn [store R2_BUCKET];
  rewrite Ho; cbn.

(** The method is PUT, or DELETE. *)
Ltac put_or_delete request Hm :=
  unfold is_write_method in Hm;
  destruct (String.eqb_spec (method request) "PUT") as [-> | ?];
  [ | destruct (String.eqb_spec (method request) "DELETE") as [-> | ?];
      [ | discriminate Hm ] ].

Section OneRequest.

Variable env : Env.
Variable request : Request.
Variable s : Store.

(** *** Routing (lines 54-81) *)

Lemma fetch_unauthenticated :
  isWriteOperation env request s = true ->
  has_credential request = false ->
  fetch request env (start s) =
    (Ok (formatErrorResponse env
           (StorageError "Authentication required" 401 "AccessDenied")),
     configured env s).
Proof.
  intros Hw Hc. enter_fetch env s.
  unfold isWriteOperation in Hw. rewrite Hw.
  unfold has_credential in Hc. rewrite Hc. reflexivity.
Qed.

Lemma fetch_read :
  is_read_method request = true ->
  passes_validateAuth env request s = true ->
  fetch request env (start s) =
    try_catch (handleGetRequest request env (objectKey_of request))
      (fun error => ret (formatErrorResponse env error)) (configured env s).
Proof.
  intros Hm Hp. enter_fetch env s.
  unfold is_read_method in Hm. rewrite Hm.
  unfold passes_validateAuth, isWriteOperation, has_credential in Hp.
  destruct (WRITE_HOSTNAME_PATTERN (config_in_force env s) (hostname request));
    cbn in Hp.
  - rewrite Hp. reflexivity.
  - reflexivity.
Qed.

Lemma fetch_forbidden :
  is_write_method request = true ->
  isWriteOperation env request s = false ->
  fetch request env (start s) =
    (Ok (formatErrorResponse env
           (StorageError
              (if String.eqb (method request) "PUT"
               then "Write operations not allowed on this endpoint"
               else "Delete operations not allowed on this endpoint")
              403 "AccessDenied")),
     configured env s).
Proof.
  intros Hm Hw. enter_fetch env s.
  unfold isWriteOperation in Hw. rewrite Hw.
  put_or_delete request Hm; reflexivity.
Qed.

Lemma fetch_write :
  is_write_method request = true ->
  isWriteOperation env request s = true ->
  has_credential request = true ->
  fetch request env (start s) =
    try_catch
      (if String.eqb (method request) "PUT"
       then handlePutRequest request env (objectKey_of request)
       else handleDeleteRequest request env (objectKey_of request))
      (fun error => ret (formatErrorResponse env error)) (configured env s).
Proof.
  intros Hm Hw Hc. enter_fetch env s.
  unfold isWriteOperation in Hw. rewrite Hw.
  unfold has_credential in Hc. rewrite Hc.
  put_or_delete request Hm; reflexivity.
Qed.

(** *** [handleGetRequest]: the key is in the bucket; it is in neither store;
    the source storage fails; the source storage delivers *)

Lemma handleGetRequest_hit (k : string) (o : R2Stored) :
  k <> "" ->
  R2_BUCKET s !! k = Some o ->
  handleGetRequest request env k (configured env s) =
    (match getResponseHeaders_run (config_in_force env s) env
             (r2_object o {| sid := 1; bytes := r2_bytes o |}) with
     | Ok h =>
         Ok {| status := 200;
               headers := h;
               content := if String.eqb (method request) "HEAD" then NoBody
                          else Streamed {| sid := 1; bytes := r2_bytes o |} |}
     | Throw e => Throw e
     end,
     {| store := store (configured env s);
        was_read := [false; false];
        calls := [CallGet k] |}).
Proof.
  intros Hk Ho. enter_get Hk Ho. unfold lift.
  destruct (String.eqb (method request) "HEAD");
    destruct (getResponseHeaders_run (config_in_force env s) env
                (r2_object o {| sid := 1; bytes := r2_bytes o |}));
    reflexivity.
Qed.

Lemma handleGetRequest_miss (k : string) :
  k <> "" ->
  R2_BUCKET s !! k = None ->
  source_configured env s = false ->
  handleGetRequest request env k (configured env s) =
    (Throw (StorageError "Object not found" 404 "NoSuchKey"),
     {| store := store (configured env s);
        was_read := [false];
        calls := [CallGet k] |}).
Proof.
  intros Hk Ho Hc. unfold source_configured in Hc. enter_get Hk Ho.
  rewrite Hc. reflexivity.
Qed.

Lemma handleGetRequest_origin_fails (k : string) :
  k <> "" ->
  R2_BUCKET s !! k = None ->
  source_configured env s = true ->
  origin_fails (origin env (sourceUrl_of (config_in_force env s) k)) = true ->
  exists w : list bool,
    handleGetRequest request env k (configured env s) =
      (Throw (StorageError "Object not found" 404 "NoSuchKey"),
       {| store := store (configured env s);
          was_read := w;
          calls := [CallGet k; CallFetch (sourceUrl_of (config_in_force env s) k)] |}).
Proof.
  intros Hk Ho Hc Hf. unfold source_configured in Hc. enter_get Hk Ho.
  rewrite Hc.
  unfold fetchFromSourceStorage, bind, read_CONFIG. cbn. rewrite Hc. cbn.
  unfold try_catch, bind, global_fetch, bind, record. cbn.
  destruct (origin env (sourceUrl_of (config_in_force env s) k)) as [|a]; cbn.
  - eauto.
  - cbn in Hf. unfold ok_status in Hf. apply negb_true_iff in Hf.
    unfold ok. destruct (origin_body a); cbn; rewrite Hf; cbn; eauto.
Qed.

Lemma handleGetRequest_origin_hit (k : string) (a : OriginAnswer) :
  k <> "" ->
  R2_BUCKET s !! k = None ->
  source_configured env s = true ->
  origin env (sourceUrl_of (config_in_force env s) k) = FetchResolves a ->
  ok_status a = true ->
  handleGetRequest request env k (configured env s) =
    (lazy_result env request (config_in_force env s) a,
     {| store :=
          {| CONFIG := config_in_force env s;
             R2_BUCKET := if R2_put_accepts env
                          then <[k := written_back env a]> (R2_BUCKET s)
                          else R2_BUCKET s;
             SYNC_QUEUE := SYNC_QUEUE s ++
                           (if SYNC_QUEUE_accepts env
                            then [sync_event env k "LAZY_LOADED"] else []) |};
        was_read := match origin_body a with
                    | Some _ => [false; R2_put_accepts env || R2_put_fails_late env]
                    | None => [false]
                    end;
        calls := [CallGet k;
                  CallFetch (sourceUrl_of (config_in_force env s) k);
                  CallPut k (origin_stream a) (httpMetadata (origin_object a))
                    (lazy_metadata env);
                  CallSend (sync_event env k "LAZY_LOADED")] |}).
Proof.
  intros Hk Ho Hc Hf Hok. unfold source_configured in Hc. enter_get Hk Ho.
  rewrite Hc.
  unfold fetchFromSourceStorage, bind, read_CONFIG. cbn. rewrite Hc. cbn.
  unfold try_catch, bind, global_fetch, bind, record. cbn.
  rewrite Hf. unfold ok_status in Hok.
  unfold lazy_result, origin_object, origin_stream.
  unfold storeObjectInR2, queueSyncTask, try_catch, bind, R2_BUCKET_put,
    SYNC_QUEUE_send, bind, record, update.
  pose proof (getResponseHeaders_safe (config_in_force env s) env _
                (origin_object_safe a)) as [Hrun _].
  unfold origin_object, origin_stream in Hrun. unfold simulated_object in *.
  destruct (origin_body a) as [data|] eqn:Hb; cbn; unfold ok; cbn; rewrite Hok; cbn;
    destruct (R2_put_accepts env); cbn;
    destruct (R2_put_fails_late env); cbn;
    destruct (SYNC_QUEUE_accepts env); cbn;
    destruct (String.eqb (method request) "HEAD"); cbn;
    unfold lift; cbn in Hrun; rewrite Hrun; cbn;
    unfold written_back, lazy_metadata, sync_event; rewrite ?Hb; cbn;
    try rewrite app_nil_r; reflexivity.
Qed.

(** *** [handlePutRequest] and [handleDeleteRequest] *)

Lemma handleDeleteRequest_run (k : string) :
  k <> "" ->
  handleDeleteRequest request env k (configured env s) =
    (if R2_delete_accepts env
     then Ok {| status := 204; headers := []; content := NoBody |}
     else Throw (StorageError "Delete failed" 500 "InternalError"),
     {| store :=
          {| CONFIG := config_in_force env s;
             R2_BUCKET := if R2_delete_accepts env
                          then delete k (R2_BUCKET s) else R2_BUCKET s;
             SYNC_QUEUE := SYNC_QUEUE s ++
                           (if R2_delete_accepts env && SYNC_QUEUE_accepts env
                            then [sync_event env k "DELETED"] else []) |};
        was_read := [false];
        calls := CallDelete k ::
                 (if R2_delete_accepts env
                  then [CallSend (sync_event env k "DELETED")] else []) |}).
Proof.
  intros Hk. rewrite configured_eq.
  unfold handleDeleteRequest. rewrite (truthy_true k Hk). cbn [negb].
  unfold try_catch, bind, R2_BUCKET_delete, queueSyncTask, try_catch, bind,
    SYNC_QUEUE_send, bind, record, update, sync_event.
  destruct (R2_delete_accepts env); cbn;
    destruct (SYNC_QUEUE_accepts env); cbn; try rewrite app_nil_r; reflexivity.
Qed.

(** An upload of a key that is not empty: the put, then, when the bucket
    accepted it, the send of the UPLOADED event and the answer 200 with the
    ETag of the bucket. *)
Lemma handlePutRequest_run (k : string) :
  k <> "" ->
  let o := uploaded_object env (config_in_force env s) request in
  fst (handlePutRequest request env k (configured env s)) =
    (if R2_put_accepts env
     then Ok {| status := 200;
                headers := headers_of [("ETag", r2_httpEtag o);
                                       ("Content-Type", "application/xml")];
                content := NoBody |}
     else Throw (StorageError "Upload failed" 500 "InternalError"))
  /\ store (snd (handlePutRequest request env k (configured env s))) =
       {| CONFIG := config_in_force env s;
          R2_BUCKET := if R2_put_accepts env
                       then <[k := o]> (R2_BUCKET s) else R2_BUCKET s;
          SYNC_QUEUE := SYNC_QUEUE s ++
                        (if R2_put_accepts env && SYNC_QUEUE_accepts env
                         then [sync_event env k "UPLOADED"] else []) |}
  /\ calls (snd (handlePutRequest request env k (configured env s))) =
       CallPut k (request_body request)
         (Some (upload_httpMetadata (config_in_force env s) request))
         (upload_metadata request) ::
       (if R2_put_accepts env then [CallSend (sync_event env k "UPLOADED")] else []).
Proof.
  intros Hk o. subst o. rewrite configured_eq.
  unfold handlePutRequest. rewrite (truthy_true k Hk). cbn [negb].
  unfold bind at 1. unfold read_CONFIG. cbn [store CONFIG].
  fold (upload_metadata request).
  fold (upload_httpMetadata (config_in_force env s) request).
  unfold try_catch, bind, R2_BUCKET_put, queueSyncTask, try_catch, bind,
    SYNC_QUEUE_send, bind, record, update, read_all, already_read,
    uploaded_object, request_body, sync_event, lift, r2_httpEtag.
  destruct (R2_put_accepts env); cbn;
    destruct (R2_put_fails_late env); cbn;
    destruct (req_body request) as [d|]; cbn;
    destruct (SYNC_QUEUE_accepts env); cbn;
    rewrite ?new_Headers_etag; cbn;
    try rewrite app_nil_r; repeat split; reflexivity.
Qed.

Lemma handlePutRequest_first_call (k : string) :
  k <> "" ->
  exists rest : list Call,
    calls (snd (handlePutRequest request env k (configured env s))) =
      CallPut k (request_body request)
        (Some (upload_httpMetadata (config_in_force env s) request))
        (upload_metadata request) :: rest.
Proof.
  intros Hk. destruct (handlePutRequest_run k Hk) as (_ & _ & ->). eauto.
Qed.

Lemma handle_empty_key (r : Run) :
  handleGetRequest request env "" r =
    (Throw (StorageError "Bucket listing not implemented" 501 "NotImplemented"), r)
  /\ handlePutRequest request env "" r =
       (Throw (StorageError "Invalid object key" 400 "InvalidKey"), r)
  /\ handleDeleteRequest request env "" r =
       (Throw (StorageError "Invalid object key" 400 "InvalidKey"), r).
Proof. repeat split; reflexivity. Qed.

(** *** What [serve] returns, by route *)

Lemma serve_read :
  is_read_method request = true ->
  passes_validateAuth env request s = true ->
  serve env request s =
    let out := handleGetRequest request env (objectKey_of request) (configured env s) in
    {| response := match fst out with
                   | Ok resp => resp
                   | Throw e => formatErrorResponse env e
                   end;
       after := store (snd out);
       trace := calls (snd out) |}.
Proof.
  intros Hm Hp. unfold serve. rewrite (fetch_read Hm Hp).
  unfold try_catch, ret.
  destruct (handleGetRequest request env (objectKey_of request) (configured env s))
    as [[resp|e] r']; reflexivity.
Qed.

Lemma serve_write :
  is_write_method request = true ->
  isWriteOperation env request s = true ->
  has_credential request = true ->
  serve env request s =
    let out := (if String.eqb (method request) "PUT"
                then handlePutRequest request env (objectKey_of request)
                else handleDeleteRequest request env (objectKey_of request))
                 (configured env s) in
    {| response := match fst out with
                   | Ok resp => resp
                   | Throw e => formatErrorResponse env e
                   end;
       after := store (snd out);
       trace := calls (snd out) |}.
Proof.
  intros Hm Hw Hc. unfold serve. rewrite (fetch_write Hm Hw Hc).
  unfold try_catch, ret.
  destruct ((if String.eqb (method request) "PUT"
             then handlePutRequest request env (objectKey_of request)
             else handleDeleteRequest request env (objectKey_of request))
              (configured env s)) as [[resp|e] r']; reflexivity.
Qed.

Lemma serve_unauthenticated :
  isWriteOperation env request s = true ->
  has_credential request = false ->
  serve env request s =
    {| response := formatErrorResponse env
                     (StorageError "Authentication required" 401 "AccessDenied");
       after := store (configured env s);
       trace := [] |}.
Proof.
  intros Hw Hc. unfold serve. rewrite (fetch_unauthenticated Hw Hc).
  rewrite configured_eq. reflexivity.
Qed.

Lemma serve_forbidden :
  is_write_method request = true ->
  isWriteOperation env request s = false ->
  serve env request s =
    {| response := formatErrorResponse env
                     (StorageError
                        (if String.eqb (method request) "PUT"
                         then "Write operations not allowed on this endpoint"
                         else "Delete operations not allowed on this endpoint")
                        403 "AccessDenied");
       after := store (configured env s);
       trace := [] |}.
Proof.
  intros Hm Hw. unfold serve. rewrite (fetch_forbidden Hm Hw).
  rewrite configured_eq. reflexivity.
Qed.

(** A read of a key the bucket holds: the object, or the TypeError of
    [getResponseHeaders] when what is stored cannot be set as headers. *)
Lemma serve_hit (o : R2Stored) :
  is_read_method request = true ->
  passes_validateAuth env request s = true ->
  objectKey_of request <> "" ->
  R2_BUCKET s !! objectKey_of request = Some o ->
  serve env request s =
    {| response :=
         if header_safe o
         then {| status := 200;
                 headers := getResponseHeaders (config_in_force env s) env
                              (r2_object o {| sid := 1; bytes := r2_bytes o |});
                 content := if String.eqb (method request) "HEAD" then NoBody
                            else Streamed {| sid := 1; bytes := r2_bytes o |} |}
         else formatErrorResponse env invalid_header;
       after := store (configured env s);
       trace := [CallGet (objectKey_of request)] |}.
Proof.
  intros Hm Hp Hk Ho. rewrite (serve_read Hm Hp). cbn zeta.
  rewrite (handleGetRequest_hit _ _ Hk Ho).
  unfold getResponseHeaders, header_safe. rewrite getResponseHeaders_run_eq.
  destruct (header_safe_object (r2_object o {| sid := 1; bytes := r2_bytes o |}));
    reflexivity.
Qed.

(** A read of a key that is in neither store. *)
Lemma serve_miss :
  is_read_method request = true ->
  passes_validateAuth env request s = true ->
  objectKey_of request <> "" ->
  R2_BUCKET s !! objectKey_of request = None ->
  origin_fails (origin env (sourceUrl_of (config_in_force env s) (objectKey_of request)))
    = true ->
  serve env request s =
    {| response := formatErrorResponse env
                     (StorageError "Object not found" 404 "NoSuchKey");
       after := store (configured env s);
       trace := CallGet (objectKey_of request) ::
                (if source_configured env s
                 then [CallFetch (sourceUrl_of (config_in_force env s)
                                    (objectKey_of request))]
                 else []) |}.
Proof.
  intros Hm Hp Hk Ho Hf. rewrite (serve_read Hm Hp). cbn zeta.
  destruct (source_configured env s) eqn:Hc.
  - destruct (handleGetRequest_origin_fails _ Hk Ho Hc Hf) as [w ->].
    reflexivity.
  - rewrite (handleGetRequest_miss _ Hk Ho Hc). reflexivity.
Qed.

(** A read of a key that is not in the bucket and that the source storage
    delivers. *)
Lemma serve_origin_hit (a : OriginAnswer) :
  is_read_method request = true ->
  passes_validateAuth env request s = true ->
  objectKey_of request <> "" ->
  R2_BUCKET s !! objectKey_of request = None ->
  source_configured env s = true ->
  origin env (sourceUrl_of (config_in_force env s) (objectKey_of request))
    = FetchResolves a ->
  ok_status a = true ->
  serve env request s =
    {| response := match lazy_result env request (config_in_force env s) a with
                   | Ok resp => resp
                   | Throw e => formatErrorResponse env e
                   end;
       after :=
         {| CONFIG := config_in_force env s;
            R2_BUCKET := if R2_put_accepts env
                         then <[objectKey_of request := written_back env a]> (R2_BUCKET s)
                         else R2_BUCKET s;
            SYNC_QUEUE := SYNC_QUEUE s ++
                          (if SYNC_QUEUE_accepts env
                           then [sync_event env (objectKey_of request) "LAZY_LOADED"]
                           else []) |};
       trace := [CallGet (objectKey_of request);
                 CallFetch (sourceUrl_of (config_in_force env s) (objectKey_of request));
                 CallPut (objectKey_of request) (origin_stream a)
                   (httpMetadata (origin_object a)) (lazy_metadata env);
                 CallSend (sync_event env (objectKey_of request) "LAZY_LOADED")] |}.
Proof.
  intros Hm Hp Hk Ho Hc Hf Hok. rewrite (serve_read Hm Hp). cbn zeta.
  rewrite (handleGetRequest_origin_hit _ _ Hk Ho Hc Hf Hok).
  reflexivity.
Qed.

(** The statuses a resolved read can have: found, not found, listing not
    implemented, or the TypeError of a body already read. *)
Lemma read_status :
  is_read_method request = true ->
  passes_validateAuth env request s = true ->
  status (response (serve env request s)) = 200
  \/ status (response (serve env request s)) = 404
  \/ status (response (serve env request s)) = 501
  \/ status (response (serve env request s)) = 500.
Proof.
  intros Hm Hp.
  destruct (String.eqb_spec (objectKey_of request) "") as [Hk | Hk].
  - rewrite (serve_read Hm Hp), Hk. cbn zeta.
    destruct (handle_empty_key (configured env s)) as [-> _].
    right; right; left. reflexivity.
  - destruct (R2_BUCKET s !! objectKey_of request) as [o|] eqn:Ho.
    { rewrite (serve_hit _ Hm Hp Hk Ho).
      destruct (header_safe o); [left | right; right; right]; reflexivity. }
    destruct (origin_fails (origin env (sourceUrl_of (config_in_force env s)
                                          (objectKey_of request)))) eqn:Hf.
    { rewrite (serve_miss Hm Hp Hk Ho Hf). right; left. reflexivity. }
    destruct (origin env (sourceUrl_of (config_in_force env s)
                            (objectKey_of request))) as [|a] eqn:Hor;
      [discriminate Hf|].
    cbn in Hf. apply negb_false_iff in Hf.
    destruct (source_configured env s) eqn:Hc.
    + rewrite (serve_origin_hit _ Hm Hp Hk Ho Hc Hor Hf).
      cbn [response]. unfold lazy_result.
      destruct (String.eqb (method request) "HEAD"); [left; reflexivity|].
      destruct (origin_stream a); [|left; reflexivity].
      destruct (R2_put_accepts env); [right; right; right; reflexivity|].
      destruct (R2_put_fails_late env); [right; right; right|left]; reflexivity.
    + rewrite (serve_read Hm Hp). cbn zeta.
      rewrite (handleGetRequest_miss _ Hk Ho Hc). right; left. reflexivity.
Qed.

(** A GET resolved from the source storage, whose answer has a body, when the
    bucket accepts the write-back: the stream given to the put is the one
    given to [new Response] afterwards (lines 155 and 175 both say
    [object.body]); the put has read it, the constructor refuses it, and the
    client gets the 500 of [formatErrorResponse] in place of the object. *)
Lemma lazy_get_after_write_back (a : OriginAnswer) (data : string) :
  method request = "GET" ->
  passes_validateAuth env request s = true ->
  objectKey_of request <> "" ->
  R2_BUCKET s !! objectKey_of request = None ->
  source_configured env s = true ->
  origin env (sourceUrl_of (config_in_force env s) (objectKey_of request))
    = FetchResolves a ->
  ok_status a = true ->
  origin_body a = Some data ->
  R2_put_accepts env = true ->
  response (serve env request s) = formatErrorResponse env disturbed_body
  /\ status (response (serve env request s)) = 500
  /\ R2_BUCKET (after (serve env request s)) !! objectKey_of request
       = Some (written_back env a)
  /\ In (CallPut (objectKey_of request) (Some {| sid := 1; bytes := data |})
           (httpMetadata (origin_object a)) (lazy_metadata env))
        (trace (serve env request s)).
Proof.
  intros Hget Hp Hk Ho Hc Hf Hok Hb Hput.
  assert (Hm : is_read_method request = true)
    by (unfold is_read_method; rewrite Hget; reflexivity).
  rewrite (serve_origin_hit _ Hm Hp Hk Ho Hc Hf Hok).
  cbn [response after trace R2_BUCKET]. unfold lazy_result, origin_stream.
  rewrite Hget, Hb, Hput. change (String.eqb "GET" "HEAD") with false. cbv iota.
  repeat split.
  - apply lookup_insert_eq.
  - cbn. auto.
Qed.

End OneRequest.

(** ** Headers of a lazily loaded object, before and after the write-back *)

Lemma lazy_headers (cfg : Config) (env : Env) (a : OriginAnswer) :
  headers_get "Content-Type" (origin_headers a) = Some "image/png" ->
  headers_get "ETag" (origin_headers a) = Some (dquote +:+ "abc" +:+ dquote) ->
  let h := getResponseHeaders cfg env (origin_object a) in
  headers_get "Content-Type" h = Some "image/png"
  /\ headers_get "ETag" h = Some (dquote +:+ "abc" +:+ dquote)
  /\ headers_get "x-amz-meta-source" h = Some "lazy-loaded".
Proof.
  intros Hct Het h. subst h.
  rewrite (proj2 (getResponseHeaders_safe cfg env _ (origin_object_safe a))).
  destruct (returned_standard cfg env (origin_object a)) as (Hc & _ & He & _).
  rewrite Hc, He.
  change (headers_get "x-amz-meta-source" (returned_headers cfg env (origin_object a)))
    with (headers_get ("x-amz-meta-" +:+ "source")
            (returned_headers cfg env (origin_object a))).
  rewrite returned_metadata.
  unfold origin_object, simulated_object.
  cbn [httpMetadata httpEtag customMetadata uploaded fetched_headers mbind option_bind
       contentType contentLength cacheControl default].
  rewrite Hct, Het. repeat split.
  exact (metadata_header_last "source" "lazy-loaded" [] [] _ eq_refl).
Qed.

Lemma stored_headers (cfg : Config) (env1 env2 : Env) (a : OriginAnswer) (st : Stream) :
  headers_get "Content-Type" (origin_headers a) = Some "image/png" ->
  let h := getResponseHeaders cfg env2 (r2_object (written_back env1 a) st) in
  headers_get "Content-Type" h = Some "image/png"
  /\ headers_get "x-amz-meta-source" h = Some "lazy-loaded"
  /\ headers_get "x-amz-meta-lazyLoaded" h = Some "true"
  /\ headers_get "x-amz-meta-lazyLoadedAt" h = Some (Date_toISOString env1).
Proof.
  intros Hct h. subst h.
  assert (Hsafe : header_safe_object (r2_object (written_back env1 a) st) = true).
  { pose proof (written_back_safe env1 a) as H. exact H. }
  rewrite (proj2 (getResponseHeaders_safe cfg env2 _ Hsafe)).
  destruct (returned_standard cfg env2 (r2_object (written_back env1 a) st))
    as (Hc & _).
  rewrite Hc.
  change "x-amz-meta-source" with ("x-amz-meta-" +:+ "source").
  change "x-amz-meta-lazyLoaded" with ("x-amz-meta-" +:+ "lazyLoaded").
  change "x-amz-meta-lazyLoadedAt" with ("x-amz-meta-" +:+ "lazyLoadedAt").
  rewrite !returned_metadata.
  unfold r2_object, written_back.
  cbn [httpMetadata httpEtag customMetadata uploaded mbind option_bind
       contentType contentLength cacheControl default
       r2_httpEtag r2_contentType r2_cacheControl r2_customMetadata r2_uploaded].
  rewrite Hct, lazy_metadata_eq. repeat split.
  - exact (metadata_header_last "source" "lazy-loaded" []
             [("lazyLoaded", "true"); ("lazyLoadedAt", Date_toISOString env1)]
             _ eq_refl).
  - exact (metadata_header_last "lazyLoaded" "true" [("source", "lazy-loaded")]
             [("lazyLoadedAt", Date_toISOString env1)] _ eq_refl).
  - rewrite (metadata_header_last "lazyLoadedAt" (Date_toISOString env1)
               [("source", "lazy-loaded"); ("lazyLoaded", "true")] [] _ eq_refl).
    unfold Date_toISOString.
    rewrite (proj2 (value_text_accepted (Date_toISOString_value env1))). reflexivity.
Qed.

(** * The claims *)

(** ** Access to writes (C8), empty keys (C9), deletes (C10) *)

(** C8, as stated, fails on the code.  A PUT on a write host whose
    Authorization header is present with an empty value is refused with 401
    AccessDenied and no call to the bucket; and a PUT on a write host with a
    credential and an empty key is refused with 400 InvalidKey, again with no
    call to the bucket. *)
Lemma C8_present_header_does_not_always_proceed :
  let empty_credential :=
    request_of "PUT" "write-bucket.example.com" "/a.txt" [("authorization", "")] (Some "x") in
  let empty_key :=
    request_of "PUT" "write-bucket.example.com" "/" bearer (Some "x") in
  (isWriteOperation plain_env empty_credential empty_store = true
   /\ headers_get "Authorization" (req_headers empty_credential) = Some ""
   /\ serve plain_env empty_credential empty_store =
        {| response := formatErrorResponse plain_env
                         (StorageError "Authentication required" 401 "AccessDenied");
           after := empty_store;
           trace := [] |})
  /\ (isWriteOperation plain_env empty_key empty_store = true
      /\ headers_get "Authorization" (req_headers empty_key) = Some "Bearer token"
      /\ serve plain_env empty_key empty_store =
           {| response := formatErrorResponse plain_env
                            (StorageError "Invalid object key" 400 "InvalidKey");
              after := empty_store;
              trace := [] |}).
Proof. vm_compute. repeat split; reflexivity. Qed.

(** C8, as amended.  For every PUT or DELETE: on a host that does not match
    the write pattern the answer is 403 AccessDenied, whatever the headers;
    on a write host without a non-empty Authorization header it is 401
    AccessDenied; in both cases nothing is called and the bucket and the
    queue are untouched.  On a write host with a non-empty Authorization
    header the request is handed to [handlePutRequest] or
    [handleDeleteRequest], and when the key is not empty the first call made
    is the put or the delete on the bucket. *)
Theorem C8_writes_need_write_host_and_credential
  (env : Env) (request : Request) (s : Store) :
  is_write_method request = true ->
  (isWriteOperation env request s = false ->
     response (serve env request s) =
       formatErrorResponse env
         (StorageError
            (if String.eqb (method request) "PUT"
             then "Write operations not allowed on this endpoint"
             else "Delete operations not allowed on this endpoint")
            403 "AccessDenied")
     /\ trace (serve env request s) = []
     /\ R2_BUCKET (after (serve env request s)) = R2_BUCKET s
     /\ SYNC_QUEUE (after (serve env request s)) = SYNC_QUEUE s)
  /\ (isWriteOperation env request s = true ->
      has_credential request = false ->
        response (serve env request s) =
          formatErrorResponse env
            (StorageError "Authentication required" 401 "AccessDenied")
        /\ trace (serve env request s) = []
        /\ R2_BUCKET (after (serve env request s)) = R2_BUCKET s
        /\ SYNC_QUEUE (after (serve env request s)) = SYNC_QUEUE s)
  /\ (isWriteOperation env request s = true ->
      has_credential request = true ->
        fetch request env (start s) =
          try_catch
            (if String.eqb (method request) "PUT"
             then handlePutRequest request env (objectKey_of request)
             else handleDeleteRequest request env (objectKey_of request))
            (fun error => ret (formatErrorResponse env error)) (configured env s)
        /\ (objectKey_of request <> "" ->
            exists rest : list Call,
              trace (serve env request s) =
                (if String.eqb (method request) "PUT"
                 then CallPut (objectKey_of request) (request_body request)
                        (Some (upload_httpMetadata (config_in_force env s) request))
                        (upload_metadata request)
                 else CallDelete (objectKey_of request)) :: rest)).
Proof.
  intros Hm. split; [|split].
  - intros Hw. rewrite (serve_forbidden env request s Hm Hw).
    rewrite configured_eq. repeat split; reflexivity.
  - intros Hw Hc. rewrite (serve_unauthenticated env request s Hw Hc).
    rewrite configured_eq. repeat split; reflexivity.
  - intros Hw Hc. split; [exact (fetch_write env request s Hm Hw Hc)|].
    intros Hk. rewrite (serve_write env request s Hm Hw Hc). cbn zeta. cbn [trace].
    destruct (String.eqb (method request) "PUT").
    + exact (handlePutRequest_first_call env request s _ Hk).
    + rewrite (handleDeleteRequest_run env request s _ Hk). cbn [snd calls].
      eauto.
Qed.

Lemma C8_writes_need_write_host_and_credential_witness :
  let put_a :=
    request_of "PUT" "write-bucket.example.com" "/a.txt" bearer (Some "x") in
  is_write_method put_a = true
  /\ isWriteOperation plain_env put_a empty_store = true
  /\ has_credential put_a = true
  /\ exists rest : list Call,
       trace (serve plain_env put_a empty_store) =
         CallPut "a.txt" (request_body put_a)
           (Some (upload_httpMetadata (config_in_force plain_env empty_store) put_a))
           (upload_metadata put_a) :: rest.
Proof.
  intros put_a.
  assert (Hm : is_write_method put_a = true) by reflexivity.
  assert (Hw : isWriteOperation plain_env put_a empty_store = true) by reflexivity.
  assert (Hc : has_credential put_a = true) by reflexivity.
  repeat split; try assumption.
  destruct (C8_writes_need_write_host_and_credential plain_env put_a empty_store Hm)
    as (_ & _ & H).
  destruct (H Hw Hc) as [_ Hcall].
  apply Hcall. vm_compute. discriminate.
Defined.

(** C9, as stated, fails on the code: the access checks come before the
    check of the key.  With an empty key, a PUT on a host that does not match
    the write pattern gets 403 AccessDenied (not 400 InvalidKey), and a GET
    on a write host without Authorization gets 401 AccessDenied (not 501
    NotImplemented). *)
Lemma C9_access_checks_come_before_the_key_check :
  let put_root := request_of "PUT" "read-bucket.example.com" "/" bearer (Some "x") in
  let get_root := request_of "GET" "write-bucket.example.com" "/" [] None in
  (objectKey_of put_root = ""
   /\ response (serve plain_env put_root empty_store) =
        formatErrorResponse plain_env
          (StorageError "Write operations not allowed on this endpoint" 403 "AccessDenied")
   /\ status (response (serve plain_env put_root empty_store)) = 403)
  /\ (objectKey_of get_root = ""
      /\ response (serve plain_env get_root empty_store) =
           formatErrorResponse plain_env
             (StorageError "Authentication required" 401 "AccessDenied")
      /\ status (response (serve plain_env get_root empty_store)) = 401).
Proof. vm_compute. repeat split; reflexivity. Qed.

(** C9, as amended.  For a request whose path yields the empty key: a GET or
    HEAD that passes [validateAuth] (the host does not match the write
    pattern, or a non-empty Authorization header is there) fails with 501
    NotImplemented; a PUT or DELETE on a write host with a non-empty
    Authorization header fails with 400 InvalidKey; in both cases no
    collaborator is called.  Otherwise the access check answers first: 401
    AccessDenied on a write host without a non-empty Authorization header,
    403 AccessDenied for a PUT or DELETE on any other host. *)
Theorem C9_empty_key (env : Env) (request : Request) (s : Store) :
  objectKey_of request = "" ->
  (is_read_method request = true ->
   passes_validateAuth env request s = true ->
     response (serve env request s) =
       formatErrorResponse env
         (StorageError "Bucket listing not implemented" 501 "NotImplemented")
     /\ trace (serve env request s) = [])
  /\ (is_write_method request = true ->
      isWriteOperation env request s = true ->
      has_credential request = true ->
        response (serve env request s) =
          formatErrorResponse env (StorageError "Invalid object key" 400 "InvalidKey")
        /\ trace (serve env request s) = [])
  /\ (isWriteOperation env request s = true ->
      has_credential request = false ->
        response (serve env request s) =
          formatErrorResponse env
            (StorageError "Authentication required" 401 "AccessDenied"))
  /\ (is_write_method request = true ->
      isWriteOperation env request s = false ->
        status (response (serve env request s)) = 403).
Proof.
  intros Hk. split; [|split; [|split]].
  - intros Hm Hp. rewrite (serve_read env request s Hm Hp). rewrite Hk. cbn zeta.
    destruct (handle_empty_key env request (configured env s)) as [-> _].
    rewrite configured_eq. split; reflexivity.
  - intros Hm Hw Hc. rewrite (serve_write env request s Hm Hw Hc). rewrite Hk.
    cbn zeta.
    destruct (handle_empty_key env request (configured env s)) as (_ & Hput & Hdel).
    destruct (String.eqb (method request) "PUT");
      [rewrite Hput | rewrite Hdel]; rewrite configured_eq; split; reflexivity.
  - intros Hw Hc. rewrite (serve_unauthenticated env request s Hw Hc). reflexivity.
  - intros Hm Hw. rewrite (serve_forbidden env request s Hm Hw). reflexivity.
Qed.

Lemma C9_empty_key_witness :
  let get_root := request_of "GET" "read-bucket.example.com" "/" [] None in
  objectKey_of get_root = ""
  /\ response (serve plain_env get_root stocked) =
       formatErrorResponse plain_env
         (StorageError "Bucket listing not implemented" 501 "NotImplemented")
  /\ trace (serve plain_env get_root stocked) = [].
Proof.
  intros get_root.
  assert (Hk : objectKey_of get_root = "") by reflexivity.
  split; [exact Hk|].
  destruct (C9_empty_key plain_env get_root stocked Hk) as [H _].
  apply H; reflexivity.
Defined.

(** C10, as stated, fails on the code: the delete of the bucket can throw,
    and the catch of lines 247-250 then answers 500 InternalError "Delete
    failed" without sending any event, although the DELETE is authorized, on
    a write host and has a key; and when the queue refuses the send, the
    answer is 204 but no event is in the queue ([queueSyncTask] swallows the
    refusal, lines 351-354). *)
Lemma C10_delete_that_throws_sends_no_event :
  let delete_a :=
    request_of "DELETE" "write-bucket.example.com" "/a.txt" bearer None in
  let refusing := with_R2_delete_accepts false plain_env in
  let deaf := with_SYNC_QUEUE_accepts false plain_env in
  method delete_a = "DELETE"
  /\ isWriteOperation refusing delete_a stocked = true
  /\ has_credential delete_a = true
  /\ objectKey_of delete_a = "a.txt"
  /\ response (serve refusing delete_a stocked) =
       formatErrorResponse refusing (StorageError "Delete failed" 500 "InternalError")
  /\ status (response (serve refusing delete_a stocked)) = 500
  /\ trace (serve refusing delete_a stocked) = [CallDelete "a.txt"]
  /\ SYNC_QUEUE (after (serve refusing delete_a stocked)) = []
  /\ status (response (serve deaf delete_a stocked)) = 204
  /\ SYNC_QUEUE (after (serve deaf delete_a stocked)) = [].
Proof. vm_compute. repeat split; reflexivity. Qed.

(** C10, as amended.  An authorized DELETE (write host, non-empty
    Authorization header) of a non-empty key calls the delete of the bucket
    first, without asking whether the key is there.  When the bucket carries
    the delete out, the answer is 204 with no body, the key is gone from the
    bucket, and the DELETED event is sent once; it is in the queue afterwards
    when the queue accepted it.  When the delete throws, the answer is 500
    InternalError "Delete failed", no event is sent, and the bucket and the
    queue are as before.  The answer and the calls are the same whatever the
    bucket holds: a key that is there and one that is not cannot be told
    apart. *)
Theorem C10_delete_does_not_check_existence
  (env : Env) (request : Request) (s : Store) :
  method request = "DELETE" ->
  isWriteOperation env request s = true ->
  has_credential request = true ->
  objectKey_of request <> "" ->
  response (serve env request s) =
    (if R2_delete_accepts env
     then {| status := 204; headers := []; content := NoBody |}
     else formatErrorResponse env (StorageError "Delete failed" 500 "InternalError"))
  /\ (R2_delete_accepts env = true -> delivered (response (serve env request s)) = "")
  /\ trace (serve env request s) =
       CallDelete (objectKey_of request) ::
       (if R2_delete_accepts env
        then [CallSend (sync_event env (objectKey_of request) "DELETED")]
        else [])
  /\ R2_BUCKET (after (serve env request s)) =
       (if R2_delete_accepts env
        then delete (objectKey_of request) (R2_BUCKET s)
        else R2_BUCKET s)
  /\ SYNC_QUEUE (after (serve env request s)) =
       SYNC_QUEUE s ++ (if R2_delete_accepts env && SYNC_QUEUE_accepts env
                        then [sync_event env (objectKey_of request) "DELETED"]
                        else [])
  /\ (forall b : gmap string R2Stored,
        response (serve env request (with_bucket b s)) = response (serve env request s)
        /\ trace (serve env request (with_bucket b s)) = trace (serve env request s)
        /\ SYNC_QUEUE (after (serve env request (with_bucket b s)))
             = SYNC_QUEUE (after (serve env request s))).
Proof.
  intros Hm Hw Hc Hk.
  assert (Hwm : is_write_method request = true)
    by (unfold is_write_method; rewrite Hm; reflexivity).
  assert (Hrun : forall s0 : Store,
             isWriteOperation env request s0 = true ->
             serve env request s0 =
               {| response :=
                    if R2_delete_accepts env
                    then {| status := 204; headers := []; content := NoBody |}
                    else formatErrorResponse env
                           (StorageError "Delete failed" 500 "InternalError");
                  after :=
                    {| CONFIG := config_in_force env s0;
                       R2_BUCKET := if R2_delete_accepts env
                                    then delete (objectKey_of request) (R2_BUCKET s0)
                                    else R2_BUCKET s0;
                       SYNC_QUEUE :=
                         SYNC_QUEUE s0 ++
                         (if R2_delete_accepts env && SYNC_QUEUE_accepts env
                          then [sync_event env (objectKey_of request) "DELETED"]
                          else []) |};
                  trace :=
                    CallDelete (objectKey_of request) ::
                    (if R2_delete_accepts env
                     then [CallSend (sync_event env (objectKey_of request) "DELETED")]
                     else []) |}).
  { intros s0 Hw0. rewrite (serve_write env request s0 Hwm Hw0 Hc). rewrite Hm.
    cbn zeta. change (String.eqb "DELETE" "PUT") with false. cbv iota.
    rewrite (handleDeleteRequest_run env request s0 _ Hk).
    destruct (R2_delete_accepts env); reflexivity. }
  rewrite (Hrun s Hw). cbn [response after trace R2_BUCKET SYNC_QUEUE].
  split; [reflexivity|]. split; [intros ->; reflexivity|].
  split; [reflexivity|]. split; [reflexivity|]. split; [reflexivity|].
  intros b.
  assert (Hwb : isWriteOperation env request (with_bucket b s) = true).
  { unfold isWriteOperation. rewrite config_in_force_with_bucket. exact Hw. }
  rewrite (Hrun _ Hwb). cbn [response after trace R2_BUCKET SYNC_QUEUE with_bucket].
  repeat split; reflexivity.
Qed.

Lemma C10_delete_does_not_check_existence_witness :
  let delete_b :=
    request_of "DELETE" "write-bucket.example.com" "/b.txt" bearer None in
  R2_BUCKET stocked !! "b.txt" = None
  /\ response (serve plain_env delete_b stocked) =
       {| status := 204; headers := []; content := NoBody |}
  /\ trace (serve plain_env delete_b stocked) =
       [CallDelete "b.txt"; CallSend (sync_event plain_env "b.txt" "DELETED")]
  /\ response (serve plain_env delete_b (with_bucket {[ "b.txt" := file_a ]} stocked))
       = response (serve plain_env delete_b stocked).
Proof.
  intros delete_b.
  split; [reflexivity|].
  assert (Hk : objectKey_of delete_b <> "") by (vm_compute; discriminate).
  destruct (C10_delete_does_not_check_existence plain_env delete_b stocked
              eq_refl eq_refl eq_refl Hk) as (Hr & _ & Ht & _ & _ & Hb).
  split; [exact Hr | split; [exact Ht | exact (proj1 (Hb _))]].
Defined.

(** ** Reads and authorization (C1) *)

(** C1, as stated, fails on the code: [validateAuth] runs before the method
    is looked at, so on a host that matches the write pattern a GET without
    Authorization is answered 401 AccessDenied and the bucket is never asked,
    although it holds the key; the same GET with an Authorization header is
    answered 200. *)
Lemma C1_get_on_write_host_needs_authorization :
  let get_a := request_of "GET" "write-bucket.example.com" "/a.txt" [] None in
  let get_a_auth := request_of "GET" "write-bucket.example.com" "/a.txt" bearer None in
  is_read_method get_a = true
  /\ R2_BUCKET stocked !! objectKey_of get_a = Some file_a
  /\ serve plain_env get_a stocked =
       {| response := formatErrorResponse plain_env
                        (StorageError "Authentication required" 401 "AccessDenied");
          after := stocked;
          trace := [] |}
  /\ status (response (serve plain_env get_a stocked)) = 401
  /\ status (response (serve plain_env get_a_auth stocked)) = 200.
Proof. vm_compute. repeat split; reflexivity. Qed.

(** C1, as amended.  A GET or HEAD that passes [validateAuth] (the host does
    not match the write pattern, or the request has a non-empty Authorization
    header) is handed to [handleGetRequest]: the answer is what the
    resolution gives, with status 200, 404, 501 or 500 and never an
    AccessDenied.  A GET or HEAD on a host that matches the write pattern,
    without a non-empty Authorization header, is answered 401 AccessDenied
    and nothing is called. *)
Theorem C1_reads_pass_through_validateAuth
  (env : Env) (request : Request) (s : Store) :
  is_read_method request = true ->
  (passes_validateAuth env request s = true ->
     fetch request env (start s) =
       try_catch (handleGetRequest request env (objectKey_of request))
         (fun error => ret (formatErrorResponse env error)) (configured env s)
     /\ (status (response (serve env request s)) = 200
         \/ status (response (serve env request s)) = 404
         \/ status (response (serve env request s)) = 501
         \/ status (response (serve env request s)) = 500))
  /\ (passes_validateAuth env request s = false ->
        response (serve env request s) =
          formatErrorResponse env
            (StorageError "Authentication required" 401 "AccessDenied")
        /\ trace (serve env request s) = []).
Proof.
  intros Hm. split.
  - intros Hp. split.
    + exact (fetch_read env request s Hm Hp).
    + exact (read_status env request s Hm Hp).
  - intros Hp. unfold passes_validateAuth in Hp.
    apply orb_false_iff in Hp. destruct Hp as [Hw Hc].
    apply negb_false_iff in Hw.
    rewrite (serve_unauthenticated env request s Hw Hc). split; reflexivity.
Qed.

Lemma C1_reads_pass_through_validateAuth_witness :
  let get_a := request_of "GET" "read-bucket.example.com" "/a.txt" [] None in
  is_read_method get_a = true
  /\ passes_validateAuth plain_env get_a stocked = true
  /\ fetch get_a plain_env (start stocked) =
       try_catch (handleGetRequest get_a plain_env (objectKey_of get_a))
         (fun error => ret (formatErrorResponse plain_env error))
         (configured plain_env stocked).
Proof.
  intros get_a.
  assert (Hm : is_read_method get_a = true) by reflexivity.
  assert (Hp : passes_validateAuth plain_env get_a stocked = true) by reflexivity.
  split; [exact Hm | split; [exact Hp|]].
  destruct (C1_reads_pass_through_validateAuth plain_env get_a stocked Hm) as [H _].
  exact (proj1 (H Hp)).
Defined.

(** ** Resolution from the bucket (C6) *)

(** C6 does not hold of the code for every object the bucket can hold:
    [getResponseHeaders] sets every entry of the stored custom metadata as a
    header (line 377), and [headers.set] throws a TypeError when the name it
    is given is no header name.  For an object stored with the metadata key
    [a b], the GET of its key is answered 500 InternalError, although the
    bucket holds the key and returned the object. *)
Lemma C6_stored_metadata_that_is_no_header :
  let get_odd := request_of "GET" "read-bucket.example.com" "/odd.txt" [] None in
  let s := with_bucket {[ "odd.txt" := file_odd ]} empty_store in
  is_read_method get_odd = true
  /\ passes_validateAuth plain_env get_odd s = true
  /\ R2_BUCKET s !! objectKey_of get_odd = Some file_odd
  /\ response (serve plain_env get_odd s) = formatErrorResponse plain_env invalid_header
  /\ status (response (serve plain_env get_odd s)) = 500
  /\ trace (serve plain_env get_odd s) = [CallGet "odd.txt"].
Proof. vm_compute. repeat split; reflexivity. Qed.

(** C6.  What the code does on a read (GET or HEAD that passes
    [validateAuth], with a key that is not empty) of a key the bucket holds.
    It calls the get of the bucket and nothing else: no fetch from the
    source storage, no put, no send; the bucket and the queue are as before.
    It answers with the stored object (status 200, the headers of the
    object, its content as the body of a GET), as the claim says, when the
    content type, the cache control and every entry of the custom metadata
    of the object can be set as headers; otherwise it answers with the 500
    InternalError of the TypeError that [headers.set] throws, against the
    claim. *)
Theorem C6_local_hit_stays_local
  (env : Env) (request : Request) (s : Store) (o : R2Stored) :
  is_read_method request = true ->
  passes_validateAuth env request s = true ->
  objectKey_of request <> "" ->
  R2_BUCKET s !! objectKey_of request = Some o ->
  response (serve env request s) =
    (if header_safe o
     then {| status := 200;
             headers := getResponseHeaders (config_in_force env s) env
                          (r2_object o {| sid := 1; bytes := r2_bytes o |});
             content := if String.eqb (method request) "HEAD" then NoBody
                        else Streamed {| sid := 1; bytes := r2_bytes o |} |}
     else formatErrorResponse env invalid_header)
  /\ header_safe o =
       field_accepted (r2_contentType o) && field_accepted (r2_cacheControl o)
       && metadata_accepted (r2_customMetadata o)
  /\ (header_safe o = true -> method request = "GET" ->
        delivered (response (serve env request s)) = r2_bytes o)
  /\ trace (serve env request s) = [CallGet (objectKey_of request)]
  /\ R2_BUCKET (after (serve env request s)) = R2_BUCKET s
  /\ SYNC_QUEUE (after (serve env request s)) = SYNC_QUEUE s.
Proof.
  intros Hm Hp Hk Ho. rewrite (serve_hit env request s o Hm Hp Hk Ho).
  rewrite configured_eq.
  cbn [response after trace store R2_BUCKET SYNC_QUEUE].
  split; [reflexivity|]. split; [apply header_safe_eq|].
  split; [|repeat split; reflexivity].
  intros -> Hget. rewrite Hget. reflexivity.
Qed.

Lemma C6_local_hit_stays_local_witness :
  let get_a := request_of "GET" "read-bucket.example.com" "/a.txt" [] None in
  R2_BUCKET stocked !! objectKey_of get_a = Some file_a
  /\ header_safe file_a = true
  /\ delivered (response (serve plain_env get_a stocked)) = "hello"
  /\ trace (serve plain_env get_a stocked) = [CallGet "a.txt"].
Proof.
  intros get_a.
  assert (Hk : objectKey_of get_a <> "") by (vm_compute; discriminate).
  assert (Ho : R2_BUCKET stocked !! objectKey_of get_a = Some file_a) by reflexivity.
  split; [exact Ho|]. split; [reflexivity|].
  destruct (C6_local_hit_stays_local plain_env get_a stocked file_a
              eq_refl eq_refl Hk Ho) as (_ & _ & Hd & Ht & _).
  split; [exact (Hd eq_refl eq_refl) | exact Ht].
Defined.

(** ** Resolution from the source storage (C4, C5, C7) *)

(** C4.  For a key that is not in the bucket, when the fetch from the source
    storage fails (it rejects: network error, timeout; or its status is not
    2xx), the read is answered 404 NoSuchKey; the bucket and the queue are as
    before and nothing is put or sent.  The answer and the store afterwards
    are those of a source storage that answers 404 for the key, which is the
    case of a key absent from both stores. *)
Theorem C4_origin_failure_is_a_miss
  (env : Env) (request : Request) (s : Store) :
  is_read_method request = true ->
  passes_validateAuth env request s = true ->
  objectKey_of request <> "" ->
  R2_BUCKET s !! objectKey_of request = None ->
  origin_fails (origin env (sourceUrl_of (config_in_force env s) (objectKey_of request)))
    = true ->
  response (serve env request s) =
    formatErrorResponse env (StorageError "Object not found" 404 "NoSuchKey")
  /\ status (response (serve env request s)) = 404
  /\ R2_BUCKET (after (serve env request s)) = R2_BUCKET s
  /\ SYNC_QUEUE (after (serve env request s)) = SYNC_QUEUE s
  /\ trace (serve env request s) =
       CallGet (objectKey_of request) ::
       (if source_configured env s
        then [CallFetch (sourceUrl_of (config_in_force env s) (objectKey_of request))]
        else [])
  /\ serve env request s = serve (with_origin not_in_origin env) request s.
Proof.
  intros Hm Hp Hk Ho Hf.
  rewrite (serve_miss (with_origin not_in_origin env) request s Hm Hp Hk Ho eq_refl).
  rewrite (serve_miss env request s Hm Hp Hk Ho Hf).
  repeat split; try reflexivity; rewrite configured_eq; reflexivity.
Qed.

Lemma C4_origin_failure_is_a_miss_witness :
  let get_b := request_of "GET" "read-bucket.example.com" "/b.txt" [] None in
  let down := origin_env (fun _ => FetchRejects) in
  let broken :=
    origin_env (fun _ => FetchResolves {| origin_status := 503;
                                          origin_headers := [];
                                          origin_body := Some "unavailable" |}) in
  (status (response (serve down get_b stocked)) = 404
   /\ trace (serve down get_b stocked) =
        [CallGet "b.txt"; CallFetch "https://origin.example/assets/b.txt"]
   /\ after (serve down get_b stocked) = after (serve (origin_env not_in_origin) get_b stocked))
  /\ status (response (serve broken get_b stocked)) = 404.
Proof.
  intros get_b down broken.
  assert (Hk : objectKey_of get_b <> "") by (vm_compute; discriminate).
  split.
  - destruct (C4_origin_failure_is_a_miss down get_b stocked
                eq_refl eq_refl Hk eq_refl eq_refl) as (_ & Hs & _ & _ & Ht & He).
    split; [exact Hs | split; [exact Ht | exact (f_equal after He)]].
  - destruct (C4_origin_failure_is_a_miss broken get_b stocked
                eq_refl eq_refl Hk eq_refl eq_refl) as (_ & Hs & _).
    exact Hs.
Defined.

(** C5.  What the code does when the source storage delivers the object and
    the put of the write-back throws.  The put is attempted, with the body
    stream of the fetched object, and [storeObjectInR2] catches its
    exception (lines 334-337): the bucket is as before and the LAZY_LOADED
    event is still sent.  The read is answered 200 with the headers of the
    fetched object and, for a GET, its body, as the claim says, when the put
    threw before it read the stream, when the request is a HEAD, or when the
    source storage sent no body.  When the put threw after it had read the
    stream, the GET is answered 500 InternalError: line 175 gives the same
    stream to [new Response], which refuses a stream that was read.  The
    failure of the write-back is then in the answer, against the claim. *)
Theorem C5_write_back_failure_is_absorbed
  (env : Env) (request : Request) (s : Store) (a : OriginAnswer) :
  is_read_method request = true ->
  passes_validateAuth env request s = true ->
  objectKey_of request <> "" ->
  R2_BUCKET s !! objectKey_of request = None ->
  source_configured env s = true ->
  origin env (sourceUrl_of (config_in_force env s) (objectKey_of request))
    = FetchResolves a ->
  ok_status a = true ->
  R2_put_accepts env = false ->
  trace (serve env request s) =
    [CallGet (objectKey_of request);
     CallFetch (sourceUrl_of (config_in_force env s) (objectKey_of request));
     CallPut (objectKey_of request) (origin_stream a)
       (httpMetadata (origin_object a)) (lazy_metadata env);
     CallSend (sync_event env (objectKey_of request) "LAZY_LOADED")]
  /\ R2_BUCKET (after (serve env request s)) = R2_BUCKET s
  /\ (R2_put_fails_late env = false \/ method request = "HEAD" \/ origin_body a = None ->
        response (serve env request s) =
          {| status := 200;
             headers := getResponseHeaders (config_in_force env s) env (origin_object a);
             content := if String.eqb (method request) "HEAD" then NoBody
                        else body_of (origin_stream a) |}
        /\ (method request = "GET" ->
             delivered (response (serve env request s)) = default "" (origin_body a)))
  /\ (R2_put_fails_late env = true -> method request = "GET" ->
      origin_body a <> None ->
        response (serve env request s) = formatErrorResponse env disturbed_body
        /\ status (response (serve env request s)) = 500).
Proof.
  intros Hm Hp Hk Ho Hc Hf Hok Hput.
  rewrite (serve_origin_hit env request s a Hm Hp Hk Ho Hc Hf Hok).
  cbn [response after trace R2_BUCKET]. unfold lazy_result. rewrite Hput.
  cbn [orb]. split; [reflexivity|]. split; [reflexivity|]. split.
  - intros Hcase.
    destruct (String.eqb_spec (method request) "HEAD") as [Hhead | Hhead].
    + split; [reflexivity|]. intros Hget. rewrite Hget in Hhead. discriminate Hhead.
    + unfold origin_stream. destruct (origin_body a) as [data|] eqn:Hb.
      * destruct Hcase as [Hlate | [Hh | Hn]];
          [rewrite Hlate | contradiction | discriminate Hn].
        split; reflexivity.
      * split; reflexivity.
  - intros Hlate Hget Hb. rewrite Hget, Hlate.
    change (String.eqb "GET" "HEAD") with false. cbv iota.
    unfold origin_stream. destruct (origin_body a) as [data|]; [|contradiction].
    split; reflexivity.
Qed.

Lemma C5_write_back_failure_is_absorbed_witness :
  let early := with_R2_put_accepts false (origin_env logo_origin) in
  let late := with_R2_put_fails_late true early in
  (R2_put_accepts early = false
   /\ status (response (serve early get_logo empty_store)) = 200
   /\ delivered (response (serve early get_logo empty_store)) = "PNG-DATA"
   /\ R2_BUCKET (after (serve early get_logo empty_store)) = ∅)
  /\ (R2_put_accepts late = false
      /\ In (CallPut "images/logo.png" (Some {| sid := 1; bytes := "PNG-DATA" |})
               (httpMetadata (origin_object logo_answer)) (lazy_metadata late))
            (trace (serve late get_logo empty_store))
      /\ status (response (serve late get_logo empty_store)) = 500
      /\ R2_BUCKET (after (serve late get_logo empty_store)) = ∅).
Proof.
  intros early late.
  assert (Hk : objectKey_of get_logo <> "") by (vm_compute; discriminate).
  split.
  - destruct (C5_write_back_failure_is_absorbed early get_logo empty_store logo_answer
                eq_refl eq_refl Hk eq_refl eq_refl eq_refl eq_refl eq_refl)
      as (_ & Hb & Hfine & _).
    destruct (Hfine (or_introl eq_refl)) as [Hr Hd].
    split; [reflexivity|]. split; [rewrite Hr; reflexivity|].
    split; [exact (Hd eq_refl) | exact Hb].
  - destruct (C5_write_back_failure_is_absorbed late get_logo empty_store logo_answer
                eq_refl eq_refl Hk eq_refl eq_refl eq_refl eq_refl eq_refl)
      as (Ht & Hb & _ & Hlate).
    assert (Hsome : origin_body logo_answer <> None) by discriminate.
    destruct (Hlate eq_refl eq_refl Hsome) as [_ Hs].
    split; [reflexivity|]. split; [rewrite Ht; cbn; auto|].
    split; [exact Hs | exact Hb].
Defined.

(** C7.  A resolution that the source storage delivers makes these calls and
    no other: the get on the bucket, the fetch, one put on the bucket, one
    send of the LAZY_LOADED event.  The calls are the same whether the
    bucket accepts the put or not.  The queue afterwards has the event when
    it accepted the send and is as before when it did not, and the answer is
    the same in both cases. *)
Theorem C7_one_put_and_one_send
  (env : Env) (request : Request) (s : Store) (a : OriginAnswer) :
  is_read_method request = true ->
  passes_validateAuth env request s = true ->
  objectKey_of request <> "" ->
  R2_BUCKET s !! objectKey_of request = None ->
  source_configured env s = true ->
  origin env (sourceUrl_of (config_in_force env s) (objectKey_of request))
    = FetchResolves a ->
  ok_status a = true ->
  trace (serve env request s) =
    [CallGet (objectKey_of request);
     CallFetch (sourceUrl_of (config_in_force env s) (objectKey_of request));
     CallPut (objectKey_of request) (origin_stream a)
       (httpMetadata (origin_object a)) (lazy_metadata env);
     CallSend (sync_event env (objectKey_of request) "LAZY_LOADED")]
  /\ length (List.filter is_put (trace (serve env request s))) = 1%nat
  /\ length (List.filter is_send (trace (serve env request s))) = 1%nat
  /\ (forall accepted : bool,
        trace (serve (with_R2_put_accepts accepted env) request s) =
          trace (serve env request s))
  /\ SYNC_QUEUE (after (serve env request s)) =
       SYNC_QUEUE s ++
       (if SYNC_QUEUE_accepts env
        then [sync_event env (objectKey_of request) "LAZY_LOADED"] else [])
  /\ (forall accepted : bool,
        response (serve (with_SYNC_QUEUE_accepts accepted env) request s) =
          response (serve env request s)).
Proof.
  intros Hm Hp Hk Ho Hc Hf Hok.
  rewrite (serve_origin_hit env request s a Hm Hp Hk Ho Hc Hf Hok).
  cbn [trace after SYNC_QUEUE response].
  repeat split.
  - intros accepted.
    rewrite (serve_origin_hit (with_R2_put_accepts accepted env) request s a
               Hm Hp Hk Ho Hc Hf Hok).
    reflexivity.
  - intros accepted.
    rewrite (serve_origin_hit (with_SYNC_QUEUE_accepts accepted env) request s a
               Hm Hp Hk Ho Hc Hf Hok).
    reflexivity.
Qed.

Lemma C7_one_put_and_one_send_witness :
  let env := with_SYNC_QUEUE_accepts false (origin_env logo_origin) in
  trace (serve env head_logo empty_store) =
    [CallGet "images/logo.png";
     CallFetch "https://origin.example/assets/images/logo.png";
     CallPut "images/logo.png" (origin_stream logo_answer)
       (httpMetadata (origin_object logo_answer)) (lazy_metadata env);
     CallSend (sync_event env "images/logo.png" "LAZY_LOADED")]
  /\ SYNC_QUEUE (after (serve env head_logo empty_store)) = []
  /\ response (serve (origin_env logo_origin) head_logo empty_store) =
       response (serve env head_logo empty_store).
Proof.
  intros env.
  assert (Hk : objectKey_of head_logo <> "") by (vm_compute; discriminate).
  destruct (C7_one_put_and_one_send env head_logo empty_store logo_answer
              eq_refl eq_refl Hk eq_refl eq_refl eq_refl eq_refl)
    as (Ht & _ & _ & _ & Hq & Hr).
  split; [exact Ht | split; [exact Hq | exact (Hr true)]].
Defined.

(** ** The scenario of a lazy load followed by a read (C2, C3) *)

(** C2, as stated, fails on the code.  In the scenario of the claim, the
    first GET hands the fetched body stream to the bucket and then to
    [new Response], which refuses it: the answer is 500, not 200 (the slip
    of C3).  The second GET is answered from the bucket without a call to
    the source storage, and its origin tag is still [lazy-loaded]: the code
    has no tag [local], and the ETag is the bucket's own. *)
Lemma C2_second_read_is_still_tagged_lazy_loaded :
  let env := origin_env logo_origin in
  let one := serve env get_logo empty_store in
  let two := serve env get_logo (after one) in
  status (response one) = 500
  /\ trace two = [CallGet "images/logo.png"]
  /\ status (response two) = 200
  /\ headers_get "x-amz-meta-source" (headers (response two)) = Some "lazy-loaded"
  /\ existsb (fun e => String.eqb (snd e) "local") (headers (response two)) = false
  /\ headers_get "ETag" (headers (response two))
       = Some (dquote +:+ "etag-of-PNG-DATA" +:+ dquote).
Proof. vm_compute. repeat split; reflexivity. Qed.

(** C2, as amended.  For a key that is not in the bucket and that the source
    storage delivers with Content-Type image/png and ETag "abc": the object
    built from the answer has the headers Content-Type: image/png, ETag:
    "abc" and x-amz-meta-source: lazy-loaded, and a HEAD is answered 200 with
    them; when the bucket accepts the write-back it holds the object under
    the key afterwards, with the metadata source = lazy-loaded and
    lazyLoaded = true.  A later GET of the key is then answered from the
    bucket with one call, the get on the bucket: status 200, the bytes of the
    origin as body, Content-Type: image/png, and the stored tag
    x-amz-meta-source: lazy-loaded.  (What the first request returns when it
    is a GET is left out here.) *)
Theorem C2_lazy_load_then_read_from_bucket
  (env1 env2 : Env) (first second : Request) (s : Store) (a : OriginAnswer) :
  is_read_method first = true ->
  passes_validateAuth env1 first s = true ->
  objectKey_of first <> "" ->
  R2_BUCKET s !! objectKey_of first = None ->
  source_configured env1 s = true ->
  origin env1 (sourceUrl_of (config_in_force env1 s) (objectKey_of first))
    = FetchResolves a ->
  ok_status a = true ->
  headers_get "Content-Type" (origin_headers a) = Some "image/png" ->
  headers_get "ETag" (origin_headers a) = Some (dquote +:+ "abc" +:+ dquote) ->
  R2_put_accepts env1 = true ->
  method second = "GET" ->
  objectKey_of second = objectKey_of first ->
  passes_validateAuth env2 second (after (serve env1 first s)) = true ->
  let one := serve env1 first s in
  let two := serve env2 second (after one) in
  let lazy := getResponseHeaders (config_in_force env1 s) env1 (origin_object a) in
  (headers_get "Content-Type" lazy = Some "image/png"
   /\ headers_get "ETag" lazy = Some (dquote +:+ "abc" +:+ dquote)
   /\ headers_get "x-amz-meta-source" lazy = Some "lazy-loaded")
  /\ (method first = "HEAD" ->
      response one = {| status := 200; headers := lazy; content := NoBody |})
  /\ R2_BUCKET (after one) !! objectKey_of first = Some (written_back env1 a)
  /\ obj_get "source" (r2_customMetadata (written_back env1 a)) = Some "lazy-loaded"
  /\ obj_get "lazyLoaded" (r2_customMetadata (written_back env1 a)) = Some "true"
  /\ trace two = [CallGet (objectKey_of first)]
  /\ status (response two) = 200
  /\ delivered (response two) = default "" (origin_body a)
  /\ headers_get "Content-Type" (headers (response two)) = Some "image/png"
  /\ headers_get "x-amz-meta-source" (headers (response two)) = Some "lazy-loaded".
Proof.
  intros Hm Hp Hk Ho Hc Hf Hok Hct Het Hput Hget Hkey Hp2 one two lazy.
  assert (Hone : one =
    {| response := match lazy_result env1 first (config_in_force env1 s) a with
                   | Ok resp => resp
                   | Throw e => formatErrorResponse env1 e
                   end;
       after :=
         {| CONFIG := config_in_force env1 s;
            R2_BUCKET := <[objectKey_of first := written_back env1 a]> (R2_BUCKET s);
            SYNC_QUEUE := SYNC_QUEUE s ++
                          (if SYNC_QUEUE_accepts env1
                           then [sync_event env1 (objectKey_of first) "LAZY_LOADED"]
                           else []) |};
       trace := trace one |}).
  { subst one. rewrite (serve_origin_hit env1 first s a Hm Hp Hk Ho Hc Hf Hok).
    rewrite Hput. reflexivity. }
  assert (Hstored : R2_BUCKET (after one) !! objectKey_of second
                    = Some (written_back env1 a)).
  { rewrite Hone, Hkey. cbn [after R2_BUCKET]. apply lookup_insert_eq. }
  assert (Hm2 : is_read_method second = true)
    by (unfold is_read_method; rewrite Hget; reflexivity).
  assert (Hk2 : objectKey_of second <> "") by (rewrite Hkey; exact Hk).
  assert (Htwo := serve_hit env2 second (after one) (written_back env1 a)
                    Hm2 Hp2 Hk2 Hstored).
  rewrite written_back_safe in Htwo.
  fold two in Htwo.
  destruct (lazy_headers (config_in_force env1 s) env1 a Hct Het) as (L1 & L2 & L3).
  destruct (stored_headers (config_in_force env2 (after one)) env1 env2 a
              {| sid := 1; bytes := r2_bytes (written_back env1 a) |} Hct)
    as (S1 & S2 & _).
  split; [exact (conj L1 (conj L2 L3))|].
  split.
  { intros Hhead. rewrite Hone. cbn [response]. unfold lazy_result.
    rewrite Hhead. reflexivity. }
  split; [rewrite <- Hkey; exact Hstored|].
  split; [reflexivity|]. split; [reflexivity|].
  rewrite Htwo. cbn [trace response status headers]. rewrite Hkey, Hget.
  repeat split; try reflexivity; assumption.
Qed.

Lemma C2_lazy_load_then_read_from_bucket_witness :
  let env := origin_env logo_origin in
  let one := serve env head_logo empty_store in
  let two := serve env get_logo (after one) in
  response one =
    {| status := 200;
       headers := getResponseHeaders (config_in_force env empty_store) env
                    (origin_object logo_answer);
       content := NoBody |}
  /\ trace two = [CallGet "images/logo.png"]
  /\ status (response two) = 200
  /\ delivered (response two) = "PNG-DATA"
  /\ headers_get "x-amz-meta-source" (headers (response two)) = Some "lazy-loaded".
Proof.
  intros env one two.
  assert (Hk : objectKey_of head_logo <> "") by (vm_compute; discriminate).
  destruct (C2_lazy_load_then_read_from_bucket env env head_logo get_logo
              empty_store logo_answer
              eq_refl eq_refl Hk eq_refl eq_refl eq_refl eq_refl eq_refl eq_refl
              eq_refl eq_refl eq_refl eq_refl)
    as (_ & Hhead & _ & _ & _ & Ht & Hs & Hd & _ & Htag).
  split; [exact (Hhead eq_refl)|].
  split; [exact Ht|]. split; [exact Hs|]. split; [exact Hd | exact Htag].
Defined.

(** C3 does not hold on the code.  In the scenario of a first GET of
    [images/logo.png], the body of the origin's answer is stream 1: the trace
    shows it as the value of the put, the bucket holds its bytes afterwards,
    and the answer to the client is the 500 for the stream already read, not
    the object.  When the bucket refuses the put (and so leaves the stream
    unread), the body of the answer is that same stream 1: one stream is
    handed to both, nothing is teed or buffered. *)
Theorem C3_one_stream_for_bucket_and_client :
  let env := origin_env logo_origin in
  let fetched := {| sid := 1; bytes := "PNG-DATA" |} in
  let one := serve env get_logo empty_store in
  let refused := serve (with_R2_put_accepts false env) get_logo empty_store in
  trace one =
    [CallGet "images/logo.png";
     CallFetch "https://origin.example/assets/images/logo.png";
     CallPut "images/logo.png" (Some fetched)
       (httpMetadata (origin_object logo_answer)) (lazy_metadata env);
     CallSend (sync_event env "images/logo.png" "LAZY_LOADED")]
  /\ r2_bytes <$> (R2_BUCKET (after one) !! "images/logo.png") = Some "PNG-DATA"
  /\ response one = formatErrorResponse env disturbed_body
  /\ status (response one) = 500
  /\ delivered (response one) <> "PNG-DATA"
  /\ trace refused = trace one
  /\ content (response refused) = Streamed fetched
  /\ status (response refused) = 200.
Proof.
  intros env fetched one refused.
  assert (Hk : objectKey_of get_logo <> "") by (vm_compute; discriminate).
  destruct (lazy_get_after_write_back env get_logo empty_store logo_answer "PNG-DATA"
              eq_refl eq_refl Hk eq_refl eq_refl eq_refl eq_refl eq_refl eq_refl)
    as (Hr & Hs & Hb & _).
  fold one in Hr, Hs, Hb.
  split; [reflexivity|].
  split; [change "images/logo.png" with (objectKey_of get_logo); rewrite Hb; reflexivity|].
  split; [exact Hr|]. split; [exact Hs|].
  split; [rewrite Hr; vm_compute; discriminate|].
  repeat split; reflexivity.
Qed.

(** * Further properties of the code *)

(** ** The headers of an answer *)

(** X1: [getResponseHeaders] returns exactly when every [headers.set] it
    makes is accepted, that is when the content type, the content length,
    the entity tag and the cache control of the object are header values
    and every entry of its custom metadata makes a header name and a header
    value; otherwise it throws the TypeError of [set].  When it returns,
    the values are set without the white space around them: Content-Type
    (default application/octet-stream), Content-Length and ETag when the
    object has them, Cache-Control (default of CONFIG), Last-Modified (the
    upload date, or now), and Access-Control-Allow-Origin: *; the headers of
    the custom metadata replace none of these. *)
Theorem getResponseHeaders_standard (cfg : Config) (env : Env) (object : StorageObject) :
  (header_safe_object object = true ->
   exists h : Headers,
     getResponseHeaders_run cfg env object = Ok h
     /\ headers_get "Content-Type" h
          = Some (normalize_value
                    (or_else (httpMetadata object ≫= contentType)
                       "application/octet-stream"))
     /\ headers_get "Content-Length" h
          = (if truthy_opt (httpMetadata object ≫= contentLength)
             then Some (normalize_value
                          (default "" (httpMetadata object ≫= contentLength)))
             else None)
     /\ headers_get "ETag" h
          = (if truthy_opt (httpEtag object)
             then Some (normalize_value (default "" (httpEtag object)))
             else None)
     /\ headers_get "Cache-Control" h
          = Some (normalize_value
                    (or_else (httpMetadata object ≫= cacheControl)
                       (DEFAULT_CACHE_CONTROL cfg)))
     /\ headers_get "Last-Modified" h
          = Some (match uploaded object with
                  | Some t => value_text t
                  | None => Date_toUTCString env
                  end)
     /\ headers_get "Access-Control-Allow-Origin" h = Some "*")
  /\ (header_safe_object object = false ->
      getResponseHeaders_run cfg env object = Throw invalid_header).
Proof.
  split; intros H; rewrite getResponseHeaders_run_eq, H; [|reflexivity].
  eexists. split; [reflexivity|]. exact (returned_standard cfg env object).
Qed.

Lemma getResponseHeaders_standard_witness :
  let plain := r2_object file_a {| sid := 1; bytes := "hello" |} in
  let odd := r2_object file_odd {| sid := 1; bytes := "hello" |} in
  let h := getResponseHeaders CONFIG_initial plain_env plain in
  getResponseHeaders_run CONFIG_initial plain_env plain = Ok h
  /\ headers_get "Content-Type" h = Some "text/plain"
  /\ headers_get "ETag" h = Some (dquote +:+ "e1" +:+ dquote)
  /\ headers_get "Content-Length" h = None
  /\ getResponseHeaders_run CONFIG_initial plain_env odd = Throw invalid_header.
Proof.
  intros plain odd h. subst h.
  destruct (getResponseHeaders_standard CONFIG_initial plain_env plain) as [Hreturns _].
  destruct (Hreturns eq_refl) as (h & Hrun & Hct & Hcl & Het & _).
  destruct (getResponseHeaders_standard CONFIG_initial plain_env odd) as [_ Hthrows].
  unfold getResponseHeaders. rewrite Hrun, Hct, Hcl, Het.
  split; [reflexivity|]. split; [reflexivity|]. split; [reflexivity|].
  split; [reflexivity|]. exact (Hthrows eq_refl).
Defined.

(** X2: an entry [(k, v)] of the custom metadata of the object, with no
    later entry whose key is [k] up to the case of the letters.  When
    [x-amz-meta-k] is no header name or [v] is no header value,
    [getResponseHeaders] throws the TypeError of [headers.set]; when it
    returns, the header [x-amz-meta-k] has the value [v] without the white
    space around it. *)
Theorem getResponseHeaders_custom_metadata
  (cfg : Config) (env : Env) (object : StorageObject)
  (k v : string) (before later : JsObject) :
  customMetadata object = Some (before ++ (k, v) :: later) ->
  forallb (fun e => negb (String.eqb (toLowerCase (fst e)) (toLowerCase k))) later = true ->
  (header_name_ok ("x-amz-meta-" +:+ k) && value_accepted v = false ->
   getResponseHeaders_run cfg env object = Throw invalid_header)
  /\ (forall h : Headers,
        getResponseHeaders_run cfg env object = Ok h ->
        headers_get ("x-amz-meta-" +:+ k) h = Some (normalize_value v)).
Proof.
  intros Hc Hl. rewrite getResponseHeaders_run_eq. split.
  - intros Hbad.
    assert (Hsafe : header_safe_object object = false).
    { unfold header_safe_object, metadata_accepted. rewrite Hc.
      change (default [] (Some (before ++ (k, v) :: later)))
        with (before ++ (k, v) :: later).
      rewrite List.forallb_app. cbn [forallb fst snd]. rewrite Hbad.
      cbn [andb]. rewrite !andb_false_r. reflexivity. }
    rewrite Hsafe. reflexivity.
  - intros h Hrun.
    destruct (header_safe_object object); [|discriminate Hrun].
    injection Hrun as <-. rewrite returned_metadata, Hc.
    change (default [] (Some (before ++ (k, v) :: later)))
      with (before ++ (k, v) :: later).
    apply metadata_header_last. exact Hl.
Qed.

Lemma getResponseHeaders_custom_metadata_witness :
  let tagged := r2_object file_tagged {| sid := 1; bytes := "x" |} in
  let odd := r2_object file_odd {| sid := 1; bytes := "hello" |} in
  let h := getResponseHeaders CONFIG_initial plain_env tagged in
  getResponseHeaders_run CONFIG_initial plain_env tagged = Ok h
  /\ headers_get "x-amz-meta-owner" h = Some "bob"
  /\ headers_get "x-amz-meta-tag" h = Some "t"
  /\ getResponseHeaders_run CONFIG_initial plain_env odd = Throw invalid_header.
Proof.
  intros tagged odd h. subst h.
  assert (Hrun : getResponseHeaders_run CONFIG_initial plain_env tagged
                 = Ok (getResponseHeaders CONFIG_initial plain_env tagged))
    by (vm_compute; reflexivity).
  split; [exact Hrun|]. split; [|split].
  - exact (proj2 (getResponseHeaders_custom_metadata CONFIG_initial plain_env tagged
                    "owner" "bob " [("Owner", " ann "); ("tag", "t")] []
                    eq_refl eq_refl) _ Hrun).
  - exact (proj2 (getResponseHeaders_custom_metadata CONFIG_initial plain_env tagged
                    "tag" "t" [("Owner", " ann ")] [("owner", "bob ")]
                    eq_refl eq_refl) _ Hrun).
  - exact (proj1 (getResponseHeaders_custom_metadata CONFIG_initial plain_env odd
                    "a b" "x" [] [] eq_refl eq_refl) eq_refl).
Defined.

(** ** The custom metadata of an upload *)

(** [s.startsWith(p)], then [s.substring(p.length)]: what comes after [p]. *)
Lemma startsWith_substring (p s : string) :
  startsWith p s = true -> p +:+ substring_from (String.length p) s = s.
Proof.
  unfold startsWith. revert s.
  induction p as [|a p IH]; intros s H; [reflexivity|].
  destruct s as [|b s]; [discriminate H|].
  cbn [String.prefix] in H. destruct (Ascii.ascii_dec a b) as [<-|]; [|discriminate H].
  change (String a (p +:+ substring_from (String.length p) s) = String a s).
  f_equal. exact (IH s H).
Qed.

Lemma startsWith_append (p s : string) : startsWith p (p +:+ s) = true.
Proof.
  unfold startsWith. induction p as [|a p IH].
  - destruct s; reflexivity.
  - change (String.prefix (String a p) (String a (p +:+ s)) = true).
    cbn [String.prefix].
    destruct (Ascii.ascii_dec a a) as [_|Hn]; [exact IH | contradiction].
Qed.

Lemma append_same_prefix (p a b : string) : p +:+ a = p +:+ b -> a = b.
Proof.
  intros H. apply String.eqb_eq. rewrite <- (append_eqb_same_prefix p).
  apply String.eqb_eq. exact H.
Qed.

(** A header of custom metadata, as a Headers object yields it: its name is
    [x-amz-meta-] and what line 197 cuts off. *)
Lemma metadata_header_name (e : string * string) :
  pair_ok e = true ->
  startsWith "x-amz-meta-" (toLowerCase (fst e)) = true ->
  "x-amz-meta-" +:+ substring_from 11 (fst e) = fst e.
Proof.
  unfold pair_ok. intros Hok Hs.
  apply andb_true_iff in Hok. destruct Hok as [Hok _].
  apply andb_true_iff in Hok. destruct Hok as [_ Hlow].
  apply String.eqb_eq in Hlow. rewrite Hlow in Hs.
  exact (startsWith_substring "x-amz-meta-" (fst e) Hs).
Qed.

(** [obj[k] = v] for a key the object does not have. *)
Lemma obj_set_fresh (k v : string) (o : JsObject) :
  k <> "__proto__" ->
  (forall w, ~ In (k, w) o) ->
  obj_set k v o = o ++ [(k, v)].
Proof.
  intros Hk Hfresh. unfold obj_set.
  destruct (String.eqb_spec k "__proto__") as [|_]; [contradiction|].
  destruct (existsb (fun e => String.eqb (fst e) k) o) eqn:He; [|reflexivity].
  apply List.existsb_exists in He. destruct He as ([k' w] & Hin & Heq).
  cbn [fst] in Heq. apply String.eqb_eq in Heq. subst k'.
  destruct (Hfresh w Hin).
Qed.

(** The loop of lines 195-199 over headers with distinct names. *)
Lemma metadata_fold_entries (l : Headers) (md : JsObject) (k v : string) :
  forallb pair_ok l = true ->
  List.NoDup (map fst l) ->
  (forall e w, In e l -> startsWith "x-amz-meta-" (toLowerCase (fst e)) = true ->
               ~ In (substring_from 11 (fst e), w) md) ->
  In (k, v)
    (fold_left
       (fun md e =>
          if startsWith "x-amz-meta-" (toLowerCase (fst e))
          then obj_set (substring_from 11 (fst e)) (snd e) md
          else md) l md)
  <-> In (k, v) md \/ (k <> "__proto__" /\ In ("x-amz-meta-" +:+ k, v) l).
Proof.
  revert md. induction l as [|e l IH]; intros md Hok Hnd Hfresh; cbn [fold_left].
  { split; [intros H; left; exact H | intros [H | [_ []]]; exact H]. }
  cbn [forallb] in Hok. apply andb_true_iff in Hok. destruct Hok as [He Hl].
  cbn [map] in Hnd. apply List.NoDup_cons_iff in Hnd. destruct Hnd as [Hnotin Hnd].
  destruct (startsWith "x-amz-meta-" (toLowerCase (fst e))) eqn:Hs.
  - pose proof (metadata_header_name e He Hs) as Hname.
    destruct (String.eqb_spec (substring_from 11 (fst e)) "__proto__") as [Hp | Hp].
    + assert (Hset : obj_set (substring_from 11 (fst e)) (snd e) md = md).
      { unfold obj_set. rewrite Hp. reflexivity. }
      rewrite Hset. rewrite IH; [|exact Hl | exact Hnd |].
      * split; (intros [H | [Hk H]]; [left; exact H | right; split; [exact Hk|]]).
        -- right. exact H.
        -- destruct H as [H | H]; [|exact H].
           exfalso. apply Hk. subst e. cbn [fst] in Hname, Hp.
           apply append_same_prefix in Hname. rewrite <- Hname. exact Hp.
      * intros e' w Hin Hs'. apply (Hfresh e' w); [right; exact Hin | exact Hs'].
    + rewrite (obj_set_fresh _ (snd e) md Hp);
        [|intros w; exact (Hfresh e w (or_introl eq_refl) Hs)].
      rewrite IH; [|exact Hl | exact Hnd |].
      * rewrite in_app_iff. cbn [In].
        split.
        -- intros [[H | [H | []]] | [Hk H]].
           ++ left. exact H.
           ++ right. pose proof (f_equal fst H) as Hkey. pose proof (f_equal snd H) as Hv.
              cbn [fst snd] in Hkey, Hv. split; [rewrite <- Hkey; exact Hp|].
              left. destruct e as [n w]. cbn [fst snd] in *.
              rewrite <- Hkey, Hname, Hv. reflexivity.
           ++ right. split; [exact Hk | right; exact H].
        -- intros [H | [Hk [H | H]]].
           ++ left; left. exact H.
           ++ left; right; left. subst e. cbn [fst snd] in Hname |- *.
              apply append_same_prefix in Hname. rewrite Hname. reflexivity.
           ++ right. split; [exact Hk | exact H].
      * intros e' w Hin Hs' Hin'. apply in_app_iff in Hin'.
        destruct Hin' as [Hin' | [Heq | []]].
        -- exact (Hfresh e' w (or_intror Hin) Hs' Hin').
        -- pose proof (f_equal fst Heq) as Hkey. cbn [fst] in Hkey. apply Hnotin.
           pose proof (metadata_header_name e' (proj1 (List.forallb_forall _ _) Hl e' Hin) Hs')
             as Hname'.
           rewrite <- Hname, Hkey, Hname'. apply in_map. exact Hin.
  - rewrite IH; [|exact Hl | exact Hnd |].
    + split; (intros [H | [Hk H]]; [left; exact H | right; split; [exact Hk|]]).
      * right. exact H.
      * destruct H as [H | H]; [|exact H].
        exfalso. unfold pair_ok in He.
        apply andb_true_iff in He. destruct He as [He _].
        apply andb_true_iff in He. destruct He as [_ Hlow].
        apply String.eqb_eq in Hlow. rewrite Hlow in Hs. subst e. cbn [fst] in Hs.
        rewrite startsWith_append in Hs. discriminate Hs.
    + intros e' w Hin Hs'. apply (Hfresh e' w); [right; exact Hin | exact Hs'].
Qed.




(** X3: the headers of a request come from a Headers object: the names are
    in lower case and, as assumed here, each name is there once.  The custom
    metadata an upload gives to the bucket then has the entry [(k, v)]
    exactly when the request has the header [x-amz-meta-k] with the value
    [v] and [k] is not [__proto__] (the assignment of line 197 makes no
    property of that name); a header without the prefix gives no metadata,
    and nothing else does. *)
Theorem upload_metadata_entries (request : Request) (k v : string) :
  List.NoDup (map fst (pairs (req_headers request))) ->
  (In (k, v) (upload_metadata request)
   <-> k <> "__proto__"
       /\ In ("x-amz-meta-" +:+ k, v) (pairs (req_headers request))).
Proof.
  intros Hnd. unfold upload_metadata.
  rewrite (metadata_fold_entries _ [] k v (pairs_accepted _) Hnd);
    [|intros e w _ _ []].
  split; [intros [[] | H]; exact H | intros H; right; exact H].
Qed.

Lemma upload_metadata_entries_witness :
  let put_a :=
    request_of "PUT" "write-bucket.example.com" "/a.txt"
      [("X-Amz-Meta-Color", " red "); ("x-amz-meta-__proto__", "x");
       ("Content-Type", "text/plain")] (Some "data") in
  List.NoDup (map fst (pairs (req_headers put_a)))
  /\ In ("color", "red") (upload_metadata put_a)
  /\ ~ In ("__proto__", "x") (upload_metadata put_a).
Proof.
  intros put_a.
  assert (Hnd : List.NoDup (map fst (pairs (req_headers put_a)))).
  { vm_compute. repeat constructor; cbn; intuition discriminate. }
  split; [exact Hnd|]. split.
  - apply (proj2 (upload_metadata_entries put_a "color" "red" Hnd)).
    split; [discriminate | vm_compute; auto].
  - intros Hin.
    destruct (proj1 (upload_metadata_entries put_a "__proto__" "x" Hnd) Hin) as [Hk _].
    exact (Hk eq_refl).
Defined.

(** ** The key of a request *)

Lemma split_parts_no_slash (s : string) :
  Forall (fun p => no_slash p = true) (split "/" s).
Proof.
  induction s as [|c rest IH]; cbn [split].
  - constructor; [reflexivity | constructor].
  - destruct (Ascii.eqb c "/") eqn:Hc.
    + constructor; [reflexivity | exact IH].
    + destruct (split "/" rest) as [|part parts]; [repeat constructor; cbn; rewrite Hc; reflexivity|].
      apply Forall_cons_1 in IH. destruct IH as [Hp Hps].
      constructor; [|exact Hps]. cbn [no_slash]. rewrite Hc, Hp. reflexivity.
Qed.

Lemma split_no_slash (p : string) : no_slash p = true -> split "/" p = [p].
Proof.
  induction p as [|c p IH]; cbn [split no_slash]; [reflexivity|].
  intros H. apply andb_true_iff in H. destruct H as [Hc Hp].
  apply negb_true_iff in Hc. rewrite Hc, (IH Hp). reflexivity.
Qed.

Lemma split_append (p rest : string) :
  no_slash p = true -> split "/" (p +:+ String "/" rest) = p :: split "/" rest.
Proof.
  induction p as [|c p IH]; cbn [no_slash]; intros H.
  - reflexivity.
  - apply andb_true_iff in H. destruct H as [Hc Hp]. apply negb_true_iff in Hc.
    change (String c p +:+ String "/" rest) with (String c (p +:+ String "/" rest)).
    cbn [split]. rewrite Hc, (IH Hp). reflexivity.
Qed.

(** [parts.join('/').split('/')] gives [parts] back when no part has a
    slash. *)
Lemma split_join (parts : list string) :
  parts <> [] ->
  Forall (fun p => no_slash p = true) parts ->
  split "/" (join "/" parts) = parts.
Proof.
  induction parts as [|p rest IH]; [congruence|].
  intros _ Hall. apply Forall_cons_1 in Hall. destruct Hall as [Hp Hrest].
  destruct rest as [|q rest].
  - cbn [join]. apply split_no_slash. exact Hp.
  - change (join "/" (p :: q :: rest)) with (p +:+ String "/" (join "/" (q :: rest))).
    rewrite (split_append _ _ Hp), IH; [reflexivity | discriminate | exact Hrest].
Qed.

Lemma filter_truthy_twice (l : list string) :
  List.filter truthy (List.filter truthy l) = List.filter truthy l.
Proof.
  induction l as [|x l IH]; cbn [List.filter]; [reflexivity|].
  destruct (truthy x) eqn:Hx; cbn [List.filter]; rewrite ?Hx, IH; reflexivity.
Qed.

Lemma Forall_filter_truthy (P : string -> Prop) (l : list string) :
  Forall P l -> Forall P (List.filter truthy l).
Proof.
  induction 1 as [|x l Hx Hl IH]; cbn [List.filter]; [constructor|].
  destruct (truthy x); [constructor; assumption | exact IH].
Qed.

(** The parts of the key of a request are the parts of its path that are not
    empty. *)
Lemma split_objectKey_of (request : Request) :
  objectKey_of request <> "" ->
  split "/" (objectKey_of request) = List.filter truthy (split "/" (pathname request)).
Proof.
  unfold objectKey_of. cbn zeta. intros Hk.
  apply split_join.
  - intros Hnil. rewrite Hnil in Hk. apply Hk. reflexivity.
  - apply Forall_filter_truthy, split_parts_no_slash.
Qed.

(** X4: the key of a request is in normal form.  When it is not empty, its
    parts between slashes are exactly the non-empty parts of the path, so it
    has no empty part: no slash at either end, no two slashes in a row.  The
    key taken as a path, with or without a slash in front, has itself as
    key: the paths [/a//b/], [/a/b] and [a/b] name the same object. *)
Theorem objectKey_is_normalised (request : Request) :
  (objectKey_of request = ""
   \/ split "/" (objectKey_of request)
        = List.filter truthy (split "/" (pathname request))
      /\ Forall (fun p => p <> "" /\ no_slash p = true) (split "/" (objectKey_of request)))
  /\ objectKey_of (with_pathname (objectKey_of request) request) = objectKey_of request
  /\ objectKey_of (with_pathname ("/" +:+ objectKey_of request) request)
       = objectKey_of request.
Proof.
  assert (Hidem : objectKey_of (with_pathname (objectKey_of request) request)
                  = objectKey_of request).
  { destruct (String.eqb_spec (objectKey_of request) "") as [Hk | Hk].
    - rewrite Hk. reflexivity.
    - unfold objectKey_of at 1. cbn [pathname with_pathname].
      rewrite (split_objectKey_of request Hk), filter_truthy_twice. reflexivity. }
  split; [|split; [exact Hidem|]].
  - destruct (String.eqb_spec (objectKey_of request) "") as [Hk | Hk];
      [left; exact Hk | right].
    split; [exact (split_objectKey_of request Hk)|].
    rewrite (split_objectKey_of request Hk).
    apply List.Forall_forall. intros p Hin.
    pose proof (split_parts_no_slash (pathname request)) as Hns.
    apply List.filter_In in Hin. destruct Hin as [Hin Ht]. split.
    + intros ->. discriminate Ht.
    + rewrite List.Forall_forall in Hns. exact (Hns p Hin).
  - rewrite <- Hidem at 2.
    unfold objectKey_of at 1 3. cbn [pathname with_pathname].
    change ("/" +:+ objectKey_of request) with (String "/" (objectKey_of request)).
    cbn [split]. change (Ascii.eqb "/" "/") with true. cbv iota.
    cbn [List.filter]. change (truthy "") with false. reflexivity.
Qed.

(** ** The configuration step, again *)

Lemma merge_source_idempotent (c : SourceStorage) (p : SourcePatch) :
  merge_source (merge_source c p) p = merge_source c p.
Proof.
  unfold merge_source. cbn.
  destruct (patch_endpoint p), (patch_region p), (patch_accessKeyId p),
    (patch_secretAccessKey p), (patch_bucketName p); reflexivity.
Qed.

(** The CONFIG in force is read off the CONFIG of the store alone, and
    loading it a second time from the same store of configuration changes
    nothing. *)
Lemma config_in_force_idempotent (env : Env) (s s' : Store) :
  CONFIG s' = config_in_force env s ->
  config_in_force env s' = config_in_force env s.
Proof.
  destruct s as [c b q], s' as [c' b' q']. cbn [CONFIG]. intros ->.
  unfold config_in_force, configured, start, initializeConfig, try_catch, bind,
    KV_get, new_RegExp.
  destruct (source_storage_config (CONFIG_KV env)) as [|[p|]];
    destruct (read_hostname_pattern (CONFIG_KV env)) as [|rp];
    destruct (write_hostname_pattern (CONFIG_KV env)) as [|wp];
    cbn; try reflexivity;
    try (destruct (truthy_opt rp); cbn; try reflexivity;
         try (destruct (RegExp env (default "" rp)); cbn; try reflexivity));
    try (destruct (truthy_opt wp); cbn; try reflexivity;
         try (destruct (RegExp env (default "" wp)); cbn; try reflexivity));
    unfold with_SOURCE_STORAGE, with_READ_HOSTNAME_PATTERN, with_WRITE_HOSTNAME_PATTERN;
    cbn; rewrite ?merge_source_idempotent; reflexivity.
Qed.

(** ** A load of the configuration that fails *)

(** X5: [initializeConfig] has one [try] around its three reads, so a
    failure stops the load where it happens: when the read of
    [source_storage_config] throws, or the reading of the read pattern or of
    the write pattern throws (the read itself, or [new RegExp] on a text that
    is not a regular expression), the write pattern in force is the one CONFIG
    had before, also when the configuration store holds a valid write pattern;
    and when the first read throws, CONFIG is left as it was. *)
Theorem failed_load_keeps_the_write_pattern (env : Env) (s : Store) :
  source_storage_config (CONFIG_KV env) = KVThrows
  \/ pattern_fails env (read_hostname_pattern (CONFIG_KV env)) = true
  \/ pattern_fails env (write_hostname_pattern (CONFIG_KV env)) = true ->
  WRITE_HOSTNAME_PATTERN (config_in_force env s) = WRITE_HOSTNAME_PATTERN (CONFIG s)
  /\ (source_storage_config (CONFIG_KV env) = KVThrows ->
        config_in_force env s = CONFIG s).
Proof.
  destruct s as [c b q].
  unfold config_in_force, configured, start, initializeConfig, try_catch, bind,
    KV_get, new_RegExp, pattern_fails.
  destruct (source_storage_config (CONFIG_KV env)) as [|[p|]];
    destruct (read_hostname_pattern (CONFIG_KV env)) as [|[rp|]];
    destruct (write_hostname_pattern (CONFIG_KV env)) as [|[wp|]];
    cbn;
    try (destruct (truthy rp); cbn); try (destruct (RegExp env rp); cbn);
    try (destruct (truthy wp); cbn); try (destruct (RegExp env wp); cbn);
    intros H;
    first [ exfalso; destruct H as [H | [H | H]]; discriminate H
          | split; [reflexivity | intros Hs; first [reflexivity | discriminate Hs]] ].
Qed.

Lemma failed_load_keeps_the_write_pattern_witness :
  let kv := {| source_storage_config := KVReturns None;
               read_hostname_pattern := KVReturns (Some "(");
               write_hostname_pattern := KVReturns (Some "^upload-") |} in
  let re := fun p : string =>
              if String.eqb p "^upload-" then Some (startsWith "upload-") else None in
  let env := with_CONFIG_KV kv re plain_env in
  let put := request_of "PUT" "upload-bucket.example.com" "/b.txt" bearer (Some "b") in
  WRITE_HOSTNAME_PATTERN (config_in_force env stocked) = startsWith "write-"
  /\ status (response (serve env put stocked)) = 403.
Proof.
  intros kv re env put.
  split.
  - exact (proj1 (failed_load_keeps_the_write_pattern env stocked
                    (or_intror (or_introl eq_refl)))).
  - reflexivity.
Defined.

(** ** The other routes, and what every request leaves behind *)

(** Closes a case of [serve_summary] once the answer of [serve] is explicit. *)
Ltac summary_done :=
  rewrite ?configured_eq;
  cbn [after trace response store CONFIG R2_BUCKET SYNC_QUEUE forallb
       call_concerns length key sync_event app andb fst snd calls];
  rewrite ?app_nil_r;
  repeat match goal with
         | H : String.eqb ?a ?a = true |- _ => rewrite !H
         end;
  repeat split;
  first
    [ reflexivity
    | lia
    | left; reflexivity
    | right; left; eexists; reflexivity
    | right; right; reflexivity
    | right; eexists; split; [reflexivity | cbn; tauto]
    | left; cbn; tauto
    | right; eexists; reflexivity
    | unfold answered_statuses;
      repeat first [left; reflexivity | right] ].

Section EveryRequest.

Variable env : Env.
Variable request : Request.
Variable s : Store.

Lemma fetch_options :
  method request = "OPTIONS" ->
  passes_validateAuth env request s = true ->
  fetch request env (start s) =
    (Ok {| status := 200; headers := cors_descriptor; content := NoBody |},
     configured env s).
Proof.
  intros Hm Hp. enter_fetch env s. rewrite Hm.
  unfold passes_validateAuth, isWriteOperation, has_credential in Hp.
  destruct (WRITE_HOSTNAME_PATTERN (config_in_force env s) (hostname request));
    cbn in Hp; [rewrite Hp|]; reflexivity.
Qed.

Lemma fetch_unsupported :
  is_read_method request = false ->
  is_write_method request = false ->
  is_options request = false ->
  passes_validateAuth env request s = true ->
  fetch request env (start s) =
    (Ok (formatErrorResponse env
           (StorageError ("Method " +:+ method request +:+ " not supported")
              405 "MethodNotAllowed")),
     configured env s).
Proof.
  intros Hr Hw Ho Hp. enter_fetch env s.
  unfold is_read_method in Hr. rewrite Hr.
  unfold is_write_method in Hw. apply orb_false_iff in Hw. destruct Hw as [-> ->].
  unfold is_options in Ho. rewrite Ho.
  unfold passes_validateAuth, isWriteOperation, has_credential in Hp.
  destruct (WRITE_HOSTNAME_PATTERN (config_in_force env s) (hostname request));
    cbn in Hp; [rewrite Hp|]; reflexivity.
Qed.

Lemma serve_options :
  method request = "OPTIONS" ->
  passes_validateAuth env request s = true ->
  serve env request s =
    {| response := {| status := 200; headers := cors_descriptor; content := NoBody |};
       after := store (configured env s);
       trace := [] |}.
Proof.
  intros Hm Hp. unfold serve. rewrite (fetch_options Hm Hp).
  rewrite configured_eq. reflexivity.
Qed.

Lemma serve_unsupported :
  is_read_method request = false ->
  is_write_method request = false ->
  is_options request = false ->
  passes_validateAuth env request s = true ->
  serve env request s =
    {| response := formatErrorResponse env
                     (StorageError ("Method " +:+ method request +:+ " not supported")
                        405 "MethodNotAllowed");
       after := store (configured env s);
       trace := [] |}.
Proof.
  intros Hr Hw Ho Hp. unfold serve. rewrite (fetch_unsupported Hr Hw Ho Hp).
  rewrite configured_eq. reflexivity.
Qed.

(** A read, an upload or a delete with the empty key. *)
Lemma serve_empty_key :
  objectKey_of request = "" ->
  passes_validateAuth env request s = true ->
  (is_read_method request = true ->
     serve env request s =
       {| response := formatErrorResponse env
                        (StorageError "Bucket listing not implemented" 501 "NotImplemented");
          after := store (configured env s);
          trace := [] |})
  /\ (is_write_method request = true ->
      isWriteOperation env request s = true ->
        serve env request s =
          {| response := formatErrorResponse env
                           (StorageError "Invalid object key" 400 "InvalidKey");
             after := store (configured env s);
             trace := [] |}).
Proof.
  intros Hk Hp. split.
  - intros Hm. rewrite (serve_read env request s Hm Hp), Hk. cbn zeta.
    destruct (handle_empty_key env request (configured env s)) as [-> _].
    rewrite configured_eq. reflexivity.
  - intros Hm Hw.
    assert (Hc : has_credential request = true).
    { unfold passes_validateAuth in Hp. rewrite Hw in Hp. exact Hp. }
    rewrite (serve_write env request s Hm Hw Hc), Hk. cbn zeta.
    destruct (handle_empty_key env request (configured env s)) as (_ & Hput & Hdel).
    destruct (String.eqb (method request) "PUT");
      [rewrite Hput | rewrite Hdel]; rewrite configured_eq; reflexivity.
Qed.

(** An upload with a key that is not empty. *)
Lemma serve_put :
  method request = "PUT" ->
  isWriteOperation env request s = true ->
  has_credential request = true ->
  objectKey_of request <> "" ->
  let o := uploaded_object env (config_in_force env s) request in
  serve env request s =
    {| response :=
         if R2_put_accepts env
         then {| status := 200;
                 headers := headers_of [("ETag", r2_httpEtag o);
                                        ("Content-Type", "application/xml")];
                 content := NoBody |}
         else formatErrorResponse env (StorageError "Upload failed" 500 "InternalError");
       after :=
         {| CONFIG := config_in_force env s;
            R2_BUCKET := if R2_put_accepts env
                         then <[objectKey_of request := o]> (R2_BUCKET s)
                         else R2_BUCKET s;
            SYNC_QUEUE := SYNC_QUEUE s ++
                          (if R2_put_accepts env && SYNC_QUEUE_accepts env
                           then [sync_event env (objectKey_of request) "UPLOADED"]
                           else []) |};
       trace :=
         CallPut (objectKey_of request) (request_body request)
           (Some (upload_httpMetadata (config_in_force env s) request))
           (upload_metadata request) ::
         (if R2_put_accepts env
          then [CallSend (sync_event env (objectKey_of request) "UPLOADED")]
          else []) |}.
Proof.
  intros Hm Hw Hc Hk o.
  assert (Hwm : is_write_method request = true)
    by (unfold is_write_method; rewrite Hm; reflexivity).
  rewrite (serve_write env request s Hwm Hw Hc), Hm. cbn zeta.
  change (String.eqb "PUT" "PUT") with true. cbv iota.
  destruct (handlePutRequest_run env request s _ Hk) as (Hf & Hs & Hc').
  rewrite Hf, Hs, Hc'. destruct (R2_put_accepts env); reflexivity.
Qed.

(** A delete with a key that is not empty. *)
Lemma serve_delete :
  method request = "DELETE" ->
  isWriteOperation env request s = true ->
  has_credential request = true ->
  objectKey_of request <> "" ->
  serve env request s =
    {| response :=
         if R2_delete_accepts env
         then {| status := 204; headers := []; content := NoBody |}
         else formatErrorResponse env (StorageError "Delete failed" 500 "InternalError");
       after :=
         {| CONFIG := config_in_force env s;
            R2_BUCKET := if R2_delete_accepts env
                         then delete (objectKey_of request) (R2_BUCKET s)
                         else R2_BUCKET s;
            SYNC_QUEUE := SYNC_QUEUE s ++
                          (if R2_delete_accepts env && SYNC_QUEUE_accepts env
                           then [sync_event env (objectKey_of request) "DELETED"]
                           else []) |};
       trace :=
         CallDelete (objectKey_of request) ::
         (if R2_delete_accepts env
          then [CallSend (sync_event env (objectKey_of request) "DELETED")]
          else []) |}.
Proof.
  intros Hm Hw Hc Hk.
  assert (Hwm : is_write_method request = true)
    by (unfold is_write_method; rewrite Hm; reflexivity).
  rewrite (serve_write env request s Hwm Hw Hc), Hm. cbn zeta.
  change (String.eqb "DELETE" "PUT") with false. cbv iota.
  rewrite (handleDeleteRequest_run env request s _ Hk).
  destruct (R2_delete_accepts env); reflexivity.
Qed.

(** What one request can do, whatever it is: CONFIG is the loaded one; the
    bucket is as before, or has one object put or deleted at the key of the
    request; the queue is as before, or has one more event, for that key; the
    calls are about that key; the status is one of nine; an answer that is
    not a 200 or a 204 is made by [formatErrorResponse]. *)
Lemma serve_summary :
  let r := serve env request s in
  let k := objectKey_of request in
  CONFIG (after r) = config_in_force env s
  /\ (R2_BUCKET (after r) = R2_BUCKET s
      \/ (exists o, R2_BUCKET (after r) = <[k := o]> (R2_BUCKET s))
      \/ R2_BUCKET (after r) = delete k (R2_BUCKET s))
  /\ (SYNC_QUEUE (after r) = SYNC_QUEUE s
      \/ exists act,
           SYNC_QUEUE (after r) = SYNC_QUEUE s ++ [sync_event env k act]
           /\ In act ["UPLOADED"; "DELETED"; "LAZY_LOADED"])
  /\ forallb (call_concerns (sourceUrl_of (config_in_force env s) k) k) (trace r) = true
  /\ (length (trace r) <= 4)%nat
  /\ In (status (response r)) answered_statuses
  /\ (In (status (response r)) [200; 204]
      \/ exists e : JsError, response r = formatErrorResponse env e).
Proof.
  intros r k. subst r k.
  assert (Hkk : String.eqb (objectKey_of request) (objectKey_of request) = true)
    by apply String.eqb_refl.
  assert (Huu : String.eqb (sourceUrl_of (config_in_force env s) (objectKey_of request))
                  (sourceUrl_of (config_in_force env s) (objectKey_of request)) = true)
    by apply String.eqb_refl.
  destruct (passes_validateAuth env request s) eqn:Hp.
  2:{ unfold passes_validateAuth in Hp. apply orb_false_iff in Hp.
      destruct Hp as [Hw Hc]. apply negb_false_iff in Hw.
      rewrite (serve_unauthenticated env request s Hw Hc). summary_done. }
  destruct (String.eqb_spec (objectKey_of request) "") as [Hk | Hk].
  { destruct (serve_empty_key Hk Hp) as [Hre Hwe].
    destruct (is_read_method request) eqn:Hr; [rewrite (Hre eq_refl); summary_done|].
    destruct (is_write_method request) eqn:Hm.
    - destruct (isWriteOperation env request s) eqn:Hw.
      + rewrite (Hwe eq_refl eq_refl). summary_done.
      + rewrite (serve_forbidden env request s Hm Hw).
        destruct (String.eqb (method request) "PUT"); summary_done.
    - destruct (is_options request) eqn:Ho.
      + apply String.eqb_eq in Ho. rewrite (serve_options Ho Hp). summary_done.
      + rewrite (serve_unsupported Hr Hm Ho Hp). summary_done. }
  destruct (is_read_method request) eqn:Hr.
  { destruct (R2_BUCKET s !! objectKey_of request) as [o|] eqn:Hb.
    { rewrite (serve_hit env request s o Hr Hp Hk Hb).
      destruct (header_safe o); summary_done. }
    destruct (origin_fails (origin env (sourceUrl_of (config_in_force env s)
                                          (objectKey_of request)))) eqn:Hf.
    { rewrite (serve_miss env request s Hr Hp Hk Hb Hf).
      destruct (source_configured env s); summary_done. }
    destruct (origin env (sourceUrl_of (config_in_force env s)
                            (objectKey_of request))) as [|a] eqn:Hor;
      [discriminate Hf|].
    cbn in Hf. apply negb_false_iff in Hf.
    destruct (source_configured env s) eqn:Hc.
    - rewrite (serve_origin_hit env request s a Hr Hp Hk Hb Hc Hor Hf).
      unfold lazy_result.
      destruct (R2_put_accepts env), (R2_put_fails_late env), (SYNC_QUEUE_accepts env),
        (String.eqb (method request) "HEAD"), (origin_stream a); summary_done.
    - rewrite (serve_read env request s Hr Hp). cbn zeta.
      rewrite (handleGetRequest_miss env request s _ Hk Hb Hc). summary_done. }
  destruct (is_write_method request) eqn:Hm.
  { destruct (isWriteOperation env request s) eqn:Hw.
    2:{ rewrite (serve_forbidden env request s Hm Hw).
        destruct (String.eqb (method request) "PUT"); summary_done. }
    assert (Hc : has_credential request = true).
    { unfold passes_validateAuth in Hp. rewrite Hw in Hp. exact Hp. }
    unfold is_write_method in Hm.
    destruct (String.eqb_spec (method request) "PUT") as [Hput | Hput].
    - rewrite (serve_put Hput Hw Hc Hk). cbn zeta.
      destruct (R2_put_accepts env), (SYNC_QUEUE_accepts env); summary_done.
    - apply String.eqb_eq in Hm. rewrite (serve_delete Hm Hw Hc Hk).
      destruct (R2_delete_accepts env), (SYNC_QUEUE_accepts env); summary_done. }
  destruct (is_options request) eqn:Ho.
  - apply String.eqb_eq in Ho. rewrite (serve_options Ho Hp). summary_done.
  - rewrite (serve_unsupported Hr Hm Ho Hp). summary_done.
Qed.

End EveryRequest.

(** X6: whatever the request, the status of the answer is one of 200, 204,
    400, 401, 403, 404, 405, 500 and 501. *)
Theorem every_status_is_known (env : Env) (request : Request) (s : Store) :
  In (status (response (serve env request s))) answered_statuses.
Proof.
  destruct (serve_summary env request s) as (_ & _ & _ & _ & _ & H & _). exact H.
Qed.

(** X7: a request changes the bucket at its own key at most: every other key
    holds afterwards what it held before. *)
Theorem other_keys_are_untouched
  (env : Env) (request : Request) (s : Store) (k : string) :
  k <> objectKey_of request ->
  R2_BUCKET (after (serve env request s)) !! k = R2_BUCKET s !! k.
Proof.
  intros Hk.
  destruct (serve_summary env request s) as (_ & [-> | [[o ->] | ->]] & _).
  - reflexivity.
  - apply lookup_insert_ne. congruence.
  - apply lookup_delete_ne. congruence.
Qed.

Lemma other_keys_are_untouched_witness :
  let delete_b := request_of "DELETE" "write-bucket.example.com" "/b.txt" bearer None in
  R2_BUCKET (after (serve plain_env delete_b stocked)) !! "a.txt" = Some file_a.
Proof.
  intros delete_b.
  assert (Hk : "a.txt" <> objectKey_of delete_b) by (vm_compute; discriminate).
  rewrite (other_keys_are_untouched plain_env delete_b stocked "a.txt" Hk).
  reflexivity.
Defined.

(** X8: a request never removes or reorders an event of the queue, and adds
    one event at most: an UPLOADED, DELETED or LAZY_LOADED event for the key
    of the request. *)
Theorem queue_gets_at_most_one_event (env : Env) (request : Request) (s : Store) :
  SYNC_QUEUE (after (serve env request s)) = SYNC_QUEUE s
  \/ exists act : string,
       SYNC_QUEUE (after (serve env request s)) =
         SYNC_QUEUE s ++ [{| key := objectKey_of request;
                             action := act;
                             timestamp := Date_toISOString env |}]
       /\ In act ["UPLOADED"; "DELETED"; "LAZY_LOADED"].
Proof.
  destruct (serve_summary env request s) as (_ & _ & H & _). exact H.
Qed.

(** X9: the handlers never assign to CONFIG: after a request CONFIG is what
    [initializeConfig] loaded at its start, and loading again from the same
    configuration store gives the same CONFIG. *)
Theorem config_stays_as_loaded (env : Env) (request : Request) (s : Store) :
  CONFIG (after (serve env request s)) = config_in_force env s
  /\ config_in_force env (after (serve env request s)) = config_in_force env s.
Proof.
  destruct (serve_summary env request s) as (H & _).
  split; [exact H | exact (config_in_force_idempotent env s _ H)].
Qed.

(** X10: a request makes four calls at most, and each is about its own key: a
    get, put or delete of another key, a send for another key, or a fetch of
    another URL than the source URL of the key does not occur. *)
Theorem calls_are_about_the_key_of_the_request
  (env : Env) (request : Request) (s : Store) :
  forallb (call_concerns (sourceUrl_of (config_in_force env s) (objectKey_of request))
             (objectKey_of request))
    (trace (serve env request s)) = true
  /\ (length (trace (serve env request s)) <= 4)%nat.
Proof.
  destruct (serve_summary env request s) as (_ & _ & _ & H1 & H2 & _).
  split; assumption.
Qed.

(** X11: an answer is a 200, a 204, or an error document: every other answer
    has a status of 400 or more, the Content-Type application/xml, and a text
    body made by [formatErrorResponse]. *)
Theorem errors_are_xml_documents (env : Env) (request : Request) (s : Store) :
  let resp := response (serve env request s) in
  status resp = 200
  \/ status resp = 204
  \/ (400 <= status resp
      /\ headers_get "Content-Type" (headers resp) = Some "application/xml"
      /\ exists e : JsError, resp = formatErrorResponse env e).
Proof.
  cbn zeta.
  destruct (serve_summary env request s) as (_ & _ & _ & _ & _ & Hs & Hx).
  cbn zeta in Hs, Hx.
  destruct Hx as [Hok | [e He]].
  - cbn in Hok. destruct Hok as [H | [H | []]]; [left | right; left]; symmetry; exact H.
  - unfold answered_statuses in Hs. cbn [In] in Hs.
    destruct Hs as [H | [H | Hs]]; [left; symmetry; exact H | right; left; symmetry; exact H|].
    right; right. split; [|split; [rewrite He; reflexivity | exists e; exact He]].
    destruct Hs as [H | [H | [H | [H | [H | [H | [H | []]]]]]]]; rewrite <- H; lia.
Qed.

(** ** OPTIONS and the other methods *)

(** X12: an OPTIONS request that passes [validateAuth] is answered 200 with
    the four CORS headers and no body, whatever its path; nothing is called
    and the bucket and the queue stay as they are.  On a host that matches
    the write pattern an OPTIONS request without a non-empty Authorization
    header is answered 401 AccessDenied like any other request. *)
Theorem options_answers_the_cors_descriptor
  (env : Env) (request : Request) (s : Store) :
  method request = "OPTIONS" ->
  (passes_validateAuth env request s = true ->
     status (response (serve env request s)) = 200
     /\ content (response (serve env request s)) = NoBody
     /\ headers_get "Access-Control-Allow-Origin"
          (headers (response (serve env request s))) = Some "*"
     /\ headers_get "Access-Control-Allow-Methods"
          (headers (response (serve env request s)))
        = Some "GET, PUT, DELETE, HEAD, OPTIONS"
     /\ headers_get "Access-Control-Allow-Headers"
          (headers (response (serve env request s)))
        = Some "Content-Type, Authorization, X-Amz-Date, X-Amz-Content-Sha256, Content-MD5"
     /\ headers_get "Access-Control-Max-Age"
          (headers (response (serve env request s))) = Some "86400"
     /\ trace (serve env request s) = []
     /\ R2_BUCKET (after (serve env request s)) = R2_BUCKET s
     /\ SYNC_QUEUE (after (serve env request s)) = SYNC_QUEUE s)
  /\ (passes_validateAuth env request s = false ->
        response (serve env request s) =
          formatErrorResponse env
            (StorageError "Authentication required" 401 "AccessDenied")).
Proof.
  intros Hm. split.
  - intros Hp. rewrite (serve_options env request s Hm Hp). rewrite configured_eq.
    repeat split; reflexivity.
  - intros Hp. unfold passes_validateAuth in Hp. apply orb_false_iff in Hp.
    destruct Hp as [Hw Hc]. apply negb_false_iff in Hw.
    rewrite (serve_unauthenticated env request s Hw Hc). reflexivity.
Qed.

Lemma options_answers_the_cors_descriptor_witness :
  let preflight := request_of "OPTIONS" "write-bucket.example.com" "/a.txt" [] None in
  let on_read_host := request_of "OPTIONS" "read-bucket.example.com" "/a.txt" [] None in
  status (response (serve plain_env on_read_host stocked)) = 200
  /\ trace (serve plain_env on_read_host stocked) = []
  /\ status (response (serve plain_env preflight stocked)) = 401.
Proof.
  intros preflight on_read_host.
  destruct (options_answers_the_cors_descriptor plain_env on_read_host stocked eq_refl)
    as [H _].
  destruct (H eq_refl) as (Hs & _ & _ & _ & _ & _ & Ht & _).
  destruct (options_answers_the_cors_descriptor plain_env preflight stocked eq_refl)
    as [_ H'].
  split; [exact Hs | split; [exact Ht|]].
  rewrite (H' eq_refl). reflexivity.
Defined.

(** X13: a request that passes [validateAuth] with a method other than GET,
    HEAD, PUT, DELETE and OPTIONS is answered 405 MethodNotAllowed, with the
    method in the message; nothing is called and the bucket and the queue
    stay as they are. *)
Theorem other_methods_are_not_allowed
  (env : Env) (request : Request) (s : Store) :
  is_read_method request = false ->
  is_write_method request = false ->
  is_options request = false ->
  passes_validateAuth env request s = true ->
  response (serve env request s) =
    formatErrorResponse env
      (StorageError ("Method " +:+ method request +:+ " not supported")
         405 "MethodNotAllowed")
  /\ status (response (serve env request s)) = 405
  /\ trace (serve env request s) = []
  /\ R2_BUCKET (after (serve env request s)) = R2_BUCKET s
  /\ SYNC_QUEUE (after (serve env request s)) = SYNC_QUEUE s.
Proof.
  intros Hr Hw Ho Hp. rewrite (serve_unsupported env request s Hr Hw Ho Hp).
  rewrite configured_eq. repeat split; reflexivity.
Qed.

Lemma other_methods_are_not_allowed_witness :
  let post := request_of "POST" "read-bucket.example.com" "/a.txt" [] (Some "x") in
  let lower_case_get := request_of "get" "read-bucket.example.com" "/a.txt" [] None in
  status (response (serve plain_env post stocked)) = 405
  /\ status (response (serve plain_env lower_case_get stocked)) = 405.
Proof.
  intros post lower_case_get. split.
  - exact (proj1 (proj2 (other_methods_are_not_allowed plain_env post stocked
                           eq_refl eq_refl eq_refl eq_refl))).
  - exact (proj1 (proj2 (other_methods_are_not_allowed plain_env lower_case_get stocked
                           eq_refl eq_refl eq_refl eq_refl))).
Defined.

(** ** Uploads and deletes *)

(** X14: an upload of a non-empty key that the bucket accepts is answered 200
    with the ETag the bucket gave and Content-Type application/xml, and no
    body; the bucket then holds the body of the request under the key, with
    the Content-Type of the request (or application/octet-stream), its
    Cache-Control (or the default of CONFIG) and its x-amz-meta entries; the
    calls are the put and one send of the UPLOADED event.  The answer is the
    same whether the queue accepted the event or not. *)
Theorem accepted_upload
  (env : Env) (request : Request) (s : Store) :
  method request = "PUT" ->
  isWriteOperation env request s = true ->
  has_credential request = true ->
  objectKey_of request <> "" ->
  R2_put_accepts env = true ->
  let r := serve env request s in
  let o := uploaded_object env (config_in_force env s) request in
  status (response r) = 200
  /\ content (response r) = NoBody
  /\ headers_get "ETag" (headers (response r))
       = Some (R2_etag env (default "" (req_body request)))
  /\ headers_get "Content-Type" (headers (response r)) = Some "application/xml"
  /\ R2_BUCKET (after r) !! objectKey_of request = Some o
  /\ r2_bytes o = default "" (req_body request)
  /\ r2_contentType o
       = Some (or_else (headers_get "Content-Type" (req_headers request))
                 "application/octet-stream")
  /\ r2_cacheControl o
       = Some (or_else (headers_get "Cache-Control" (req_headers request))
                 (DEFAULT_CACHE_CONTROL (config_in_force env s)))
  /\ trace r =
       [CallPut (objectKey_of request) (request_body request)
          (Some (upload_httpMetadata (config_in_force env s) request))
          (upload_metadata request);
        CallSend (sync_event env (objectKey_of request) "UPLOADED")]
  /\ SYNC_QUEUE (after r) =
       SYNC_QUEUE s ++ (if SYNC_QUEUE_accepts env
                        then [sync_event env (objectKey_of request) "UPLOADED"]
                        else [])
  /\ (forall accepted : bool,
        response (serve (with_SYNC_QUEUE_accepts accepted env) request s) = response r).
Proof.
  intros Hm Hw Hc Hk Hput r o. subst r.
  rewrite (serve_put env request s Hm Hw Hc Hk). cbn zeta. rewrite Hput.
  cbn [response after trace status content headers R2_BUCKET SYNC_QUEUE andb].
  fold o.
  repeat split; try reflexivity.
  - apply lookup_insert_eq.
  - intros accepted.
    rewrite (serve_put (with_SYNC_QUEUE_accepts accepted env) request s Hm Hw Hc Hk).
    cbn zeta. cbn [R2_put_accepts with_SYNC_QUEUE_accepts]. rewrite Hput. reflexivity.
Qed.

Lemma accepted_upload_witness :
  let put_c :=
    request_of "PUT" "write-bucket.example.com" "/c.txt"
      [("authorization", "Bearer token"); ("content-type", "text/csv")] (Some "1,2") in
  status (response (serve plain_env put_c stocked)) = 200
  /\ r2_bytes <$> (R2_BUCKET (after (serve plain_env put_c stocked)) !! "c.txt")
       = Some "1,2"
  /\ r2_contentType (uploaded_object plain_env (config_in_force plain_env stocked) put_c)
       = Some "text/csv".
Proof.
  intros put_c.
  assert (Hk : objectKey_of put_c <> "") by (vm_compute; discriminate).
  destruct (accepted_upload plain_env put_c stocked eq_refl eq_refl eq_refl Hk eq_refl)
    as (Hs & _ & _ & _ & Hb & _ & Hct & _).
  split; [exact Hs | split; [|exact Hct]].
  change "c.txt" with (objectKey_of put_c). rewrite Hb. reflexivity.
Defined.

(** X15: an upload the bucket does not accept is answered 500 InternalError
    "Upload failed"; the bucket and the queue stay as they are and no event
    is sent. *)
Theorem rejected_upload
  (env : Env) (request : Request) (s : Store) :
  method request = "PUT" ->
  isWriteOperation env request s = true ->
  has_credential request = true ->
  objectKey_of request <> "" ->
  R2_put_accepts env = false ->
  response (serve env request s) =
    formatErrorResponse env (StorageError "Upload failed" 500 "InternalError")
  /\ status (response (serve env request s)) = 500
  /\ R2_BUCKET (after (serve env request s)) = R2_BUCKET s
  /\ SYNC_QUEUE (after (serve env request s)) = SYNC_QUEUE s
  /\ List.filter is_send (trace (serve env request s)) = [].
Proof.
  intros Hm Hw Hc Hk Hput.
  rewrite (serve_put env request s Hm Hw Hc Hk). cbn zeta. rewrite Hput.
  cbn [response after trace R2_BUCKET SYNC_QUEUE andb]. rewrite app_nil_r.
  repeat split; reflexivity.
Qed.

Lemma rejected_upload_witness :
  let put_c :=
    request_of "PUT" "write-bucket.example.com" "/c.txt" bearer (Some "1,2") in
  let env := with_R2_put_accepts false plain_env in
  status (response (serve env put_c stocked)) = 500
  /\ R2_BUCKET (after (serve env put_c stocked)) = R2_BUCKET stocked.
Proof.
  intros put_c env.
  assert (Hk : objectKey_of put_c <> "") by (vm_compute; discriminate).
  destruct (rejected_upload env put_c stocked eq_refl eq_refl eq_refl Hk eq_refl)
    as (_ & Hs & Hb & _).
  split; [exact Hs | exact Hb].
Defined.

(** X16: a delete the bucket does not carry out is answered 500 InternalError
    "Delete failed"; the bucket and the queue stay as they are and no DELETED
    event is sent. *)
Theorem rejected_delete
  (env : Env) (request : Request) (s : Store) :
  method request = "DELETE" ->
  isWriteOperation env request s = true ->
  has_credential request = true ->
  objectKey_of request <> "" ->
  R2_delete_accepts env = false ->
  response (serve env request s) =
    formatErrorResponse env (StorageError "Delete failed" 500 "InternalError")
  /\ status (response (serve env request s)) = 500
  /\ R2_BUCKET (after (serve env request s)) = R2_BUCKET s
  /\ SYNC_QUEUE (after (serve env request s)) = SYNC_QUEUE s
  /\ trace (serve env request s) = [CallDelete (objectKey_of request)].
Proof.
  intros Hm Hw Hc Hk Hdel.
  rewrite (serve_delete env request s Hm Hw Hc Hk). rewrite Hdel.
  cbn [response after trace R2_BUCKET SYNC_QUEUE andb]. rewrite app_nil_r.
  repeat split; reflexivity.
Qed.

Lemma rejected_delete_witness :
  let delete_a :=
    request_of "DELETE" "write-bucket.example.com" "/a.txt" bearer None in
  let env := with_R2_delete_accepts false plain_env in
  status (response (serve env delete_a stocked)) = 500
  /\ R2_BUCKET (after (serve env delete_a stocked)) !! "a.txt" = Some file_a.
Proof.
  intros delete_a env.
  assert (Hk : objectKey_of delete_a <> "") by (vm_compute; discriminate).
  destruct (rejected_delete env delete_a stocked eq_refl eq_refl eq_refl Hk eq_refl)
    as (_ & Hs & Hb & _).
  split; [exact Hs | rewrite Hb; reflexivity].
Defined.

(** ** Calls to the source storage *)



(** X18: a GET or HEAD resolved from the source storage whose answer has no
    body (the [body] of the fetched response is null): the client is answered
    200 without body, with the headers of the origin's answer, and a bucket
    that accepts the write-back then holds the key with an empty content. *)
Theorem origin_answer_without_a_body
  (env : Env) (request : Request) (s : Store) (a : OriginAnswer) :
  is_read_method request = true ->
  passes_validateAuth env request s = true ->
  objectKey_of request <> "" ->
  R2_BUCKET s !! objectKey_of request = None ->
  source_configured env s = true ->
  origin env (sourceUrl_of (config_in_force env s) (objectKey_of request))
    = FetchResolves a ->
  ok_status a = true ->
  origin_body a = None ->
  response (serve env request s) =
    {| status := 200;
       headers := getResponseHeaders (config_in_force env s) env (origin_object a);
       content := NoBody |}
  /\ In (CallPut (objectKey_of request) None
           (httpMetadata (origin_object a)) (lazy_metadata env))
        (trace (serve env request s))
  /\ (R2_put_accepts env = true ->
        r2_bytes <$> (R2_BUCKET (after (serve env request s)) !! objectKey_of request)
        = Some "").
Proof.
  intros Hr Hp Hk Hb Hc Ho Hok Hbody.
  rewrite (serve_origin_hit env request s a Hr Hp Hk Hb Hc Ho Hok).
  cbn [response trace after R2_BUCKET]. unfold lazy_result, origin_stream.
  rewrite Hbody. repeat split.
  - destruct (String.eqb (method request) "HEAD"); reflexivity.
  - cbn. tauto.
  - intros ->. rewrite lookup_insert_eq. cbn [fmap option_fmap option_map].
    unfold written_back. rewrite Hbody. reflexivity.
Qed.

Lemma origin_answer_without_a_body_witness :
  let a := {| origin_status := 204; origin_headers := []; origin_body := None |} in
  let env := origin_env (fun _ => FetchResolves a) in
  let get := request_of "GET" "read-bucket.example.com" "/empty" [] None in
  status (response (serve env get empty_store)) = 200
  /\ content (response (serve env get empty_store)) = NoBody
  /\ r2_bytes <$> (R2_BUCKET (after (serve env get empty_store)) !! "empty") = Some "".
Proof.
  intros a env get.
  assert (Hk : objectKey_of get <> "") by (vm_compute; discriminate).
  destruct (origin_answer_without_a_body env get empty_store a
              eq_refl eq_refl Hk eq_refl eq_refl eq_refl eq_refl eq_refl)
    as (H1 & _ & H3).
  rewrite H1. split; [reflexivity | split; [reflexivity|]].
  exact (H3 eq_refl).
Defined.

(** ** The boundary of [fetch] *)

(** X19: [fetch] never rejects.  In whatever state the runtime calls it
    (whatever the store, the streams already read, the calls already made),
    with whatever request and environment, it returns a response: what a
    handler, the routing or [validateAuth] throws is turned into a response
    by [formatErrorResponse] (lines 82-84), and [initializeConfig] catches
    what the configuration store throws (lines 109-111). *)
Theorem fetch_never_rejects (request : Request) (env : Env) (r : Run) :
  exists (resp : Response) (r' : Run), fetch request env r = (Ok resp, r').
Proof. exact (fetch_always_answers request env r). Qed.

(** ** The value of the credential *)

(** Header lines that are already as a Headers object has them are taken as
    they are. *)
Lemma received_accepted (h : Headers) :
  forallb pair_ok h = true -> pairs (received h) = h.
Proof.
  induction h as [|e h IH]; intros H; [reflexivity|].
  cbn [forallb] in H. apply andb_true_iff in H. destruct H as [He Hh].
  change (received (e :: h))
    with (HeaderList_add (toLowerCase (fst e), normalize_value (snd e)) (received h)).
  assert (Hsame : (toLowerCase (fst e), normalize_value (snd e)) = e).
  { pose proof He as Hok. unfold pair_ok in Hok.
    apply andb_true_iff in Hok. destruct Hok as [Hok Hv].
    apply andb_true_iff in Hok. destruct Hok as [_ Hlow].
    apply String.eqb_eq in Hlow.
    rewrite Hlow, (proj2 (is_header_value_inv _ Hv)). destruct e; reflexivity. }
  rewrite Hsame. unfold HeaderList_add.
  destruct (Bool.bool_dec (pair_ok e) true) as [Hyes | Hno]; [|contradiction].
  cbn [pairs]. rewrite (IH Hh). reflexivity.
Qed.

Lemma pairs_with_authorization (v : HeaderValue) (request : Request) :
  pairs (req_headers (with_authorization v request))
  = headers_replace "Authorization" v (pairs (req_headers request)).
Proof.
  unfold with_authorization. cbn [req_headers]. apply received_accepted.
  unfold headers_replace. rewrite List.forallb_app. apply andb_true_iff. split.
  - pose proof (pairs_accepted (req_headers request)) as H.
    induction (pairs (req_headers request)) as [|e h IH]; [reflexivity|].
    cbn [forallb] in H. apply andb_true_iff in H. destruct H as [He Hh].
    cbn [List.filter].
    destruct (negb (same_name "Authorization" e)); [|exact (IH Hh)].
    cbn [forallb]. rewrite He. exact (IH Hh).
  - cbn [forallb]. unfold pair_ok. cbn [fst snd].
    rewrite (value_is_header_value v). reflexivity.
Qed.

Lemma has_credential_with_authorization (v : HeaderValue) (request : Request) :
  truthy v = true -> has_credential (with_authorization v request) = true.
Proof.
  intros Hv. unfold has_credential. rewrite pairs_with_authorization.
  rewrite headers_get_replace. exact Hv.
Qed.

Lemma upload_metadata_with_authorization (v1 v2 : HeaderValue) (request : Request) :
  upload_metadata (with_authorization v1 request)
  = upload_metadata (with_authorization v2 request).
Proof.
  unfold upload_metadata. rewrite !pairs_with_authorization. unfold headers_replace.
  rewrite !fold_left_app. cbn [fold_left fst snd].
  change (startsWith "x-amz-meta-" (toLowerCase (toLowerCase "Authorization")))
    with false.
  reflexivity.
Qed.

Lemma upload_httpMetadata_with_authorization
  (cfg : Config) (v1 v2 : HeaderValue) (request : Request) :
  upload_httpMetadata cfg (with_authorization v1 request)
  = upload_httpMetadata cfg (with_authorization v2 request).
Proof.
  unfold upload_httpMetadata. rewrite !pairs_with_authorization.
  rewrite !headers_get_replace_other by reflexivity. reflexivity.
Qed.

Lemma uploaded_object_with_authorization
  (env : Env) (cfg : Config) (v1 v2 : HeaderValue) (request : Request) :
  uploaded_object env cfg (with_authorization v1 request)
  = uploaded_object env cfg (with_authorization v2 request).
Proof.
  unfold uploaded_object.
  rewrite (upload_httpMetadata_with_authorization cfg v1 v2),
    (upload_metadata_with_authorization v1 v2).
  reflexivity.
Qed.

(** X20: [validateAuth] only tests that the Authorization header is there
    and not empty (line 122), and no handler reads it: two requests that
    differ only in the non-empty value of their Authorization header (a
    header value, as a Headers object holds it) pass [validateAuth] on every
    host, get the same answer, make the same calls and leave the same bucket
    and queue. *)
Theorem credential_value_is_not_examined
  (env : Env) (request : Request) (s : Store) (v1 v2 : HeaderValue) :
  value_text v1 <> "" ->
  value_text v2 <> "" ->
  passes_validateAuth env (with_authorization v1 request) s = true
  /\ serve env (with_authorization v1 request) s
     = serve env (with_authorization v2 request) s.
Proof.
  intros Hv1 Hv2. apply truthy_true in Hv1, Hv2.
  pose proof (has_credential_with_authorization v1 request Hv1) as Hc1.
  pose proof (has_credential_with_authorization v2 request Hv2) as Hc2.
  assert (Hp : forall v, has_credential (with_authorization v request) = true ->
                 passes_validateAuth env (with_authorization v request) s = true).
  { intros v Hc. unfold passes_validateAuth. rewrite Hc. apply orb_true_r. }
  pose proof (Hp v1 Hc1) as Hp1. pose proof (Hp v2 Hc2) as Hp2.
  split; [exact Hp1|].
  destruct (is_read_method request) eqn:Hr.
  { rewrite (serve_read env (with_authorization v1 request) s Hr Hp1),
      (serve_read env (with_authorization v2 request) s Hr Hp2).
    reflexivity. }
  destruct (is_write_method request) eqn:Hm.
  { destruct (isWriteOperation env request s) eqn:Hw.
    2:{ rewrite (serve_forbidden env (with_authorization v1 request) s Hm Hw),
          (serve_forbidden env (with_authorization v2 request) s Hm Hw).
        reflexivity. }
    destruct (String.eqb_spec (objectKey_of request) "") as [Hk | Hk].
    { destruct (serve_empty_key env (with_authorization v1 request) s Hk Hp1) as [_ ->];
        [| exact Hm | exact Hw].
      destruct (serve_empty_key env (with_authorization v2 request) s Hk Hp2) as [_ ->];
        [| exact Hm | exact Hw].
      reflexivity. }
    unfold is_write_method in Hm.
    destruct (String.eqb_spec (method request) "PUT") as [Hput | Hput].
    - rewrite (serve_put env (with_authorization v1 request) s Hput Hw Hc1 Hk),
        (serve_put env (with_authorization v2 request) s Hput Hw Hc2 Hk).
      cbn zeta.
      rewrite (uploaded_object_with_authorization env _ v1 v2),
        (upload_httpMetadata_with_authorization _ v1 v2),
        (upload_metadata_with_authorization v1 v2).
      reflexivity.
    - apply String.eqb_eq in Hm.
      rewrite (serve_delete env (with_authorization v1 request) s Hm Hw Hc1 Hk),
        (serve_delete env (with_authorization v2 request) s Hm Hw Hc2 Hk).
      reflexivity. }
  destruct (is_options request) eqn:Ho.
  - apply String.eqb_eq in Ho.
    rewrite (serve_options env (with_authorization v1 request) s Ho Hp1),
      (serve_options env (with_authorization v2 request) s Ho Hp2).
    reflexivity.
  - rewrite (serve_unsupported env (with_authorization v1 request) s Hr Hm Ho Hp1),
      (serve_unsupported env (with_authorization v2 request) s Hr Hm Ho Hp2).
    reflexivity.
Qed.

Lemma credential_value_is_not_examined_witness :
  let delete_a := request_of "DELETE" "write-bucket.example.com" "/a.txt" [] None in
  let token : HeaderValue :=
    {| value_text := "Bearer token"; value_is_header_value := eq_refl |} in
  let other : HeaderValue :=
    {| value_text := "x"; value_is_header_value := eq_refl |} in
  let one := serve plain_env (with_authorization token delete_a) stocked in
  let two := serve plain_env (with_authorization other delete_a) stocked in
  status (response (serve plain_env delete_a stocked)) = 401
  /\ status (response one) = 204
  /\ one = two.
Proof.
  intros delete_a token other one two. subst one two.
  assert (H1 : value_text token <> "") by discriminate.
  assert (H2 : value_text other <> "") by discriminate.
  split; [reflexivity | split; [reflexivity|]].
  exact (proj2 (credential_value_is_not_examined plain_env delete_a stocked
                  token other H1 H2)).
Defined.

(** ** HEAD and GET *)



(** ** One request after another *)




(** X23: two accepted uploads to the same key, one after the other: the
    bucket then holds, under that key, the object of the second upload
    alone (content, entity tag, content type, cache control, custom
    metadata, date), and every other key is as it was before the first. *)
Theorem second_upload_replaces_the_first
  (env1 env2 : Env) (put1 put2 : Request) (s : Store) :
  method put1 = "PUT" ->
  isWriteOperation env1 put1 s = true ->
  has_credential put1 = true ->
  objectKey_of put1 <> "" ->
  R2_put_accepts env1 = true ->
  method put2 = "PUT" ->
  objectKey_of put2 = objectKey_of put1 ->
  isWriteOperation env2 put2 (after (serve env1 put1 s)) = true ->
  has_credential put2 = true ->
  R2_put_accepts env2 = true ->
  let one := serve env1 put1 s in
  let two := serve env2 put2 (after one) in
  R2_BUCKET (after two)
    = <[objectKey_of put1 :=
          uploaded_object env2 (config_in_force env2 (after one)) put2]> (R2_BUCKET s)
  /\ r2_bytes <$> (R2_BUCKET (after two) !! objectKey_of put1)
       = Some (default "" (req_body put2)).
Proof.
  intros Hm1 Hw1 Hc1 Hk Ha1 Hm2 Hsame Hw2 Hc2 Ha2 one two. subst one two.
  assert (Hk2 : objectKey_of put2 <> "") by (rewrite Hsame; exact Hk).
  rewrite (serve_put env2 put2 _ Hm2 Hw2 Hc2 Hk2). cbn zeta.
  rewrite Ha2, Hsame. cbn [after R2_BUCKET].
  assert (Hb : R2_BUCKET (after (serve env1 put1 s))
               = <[objectKey_of put1 :=
                     uploaded_object env1 (config_in_force env1 s) put1]> (R2_BUCKET s)).
  { rewrite (serve_put env1 put1 s Hm1 Hw1 Hc1 Hk). cbn zeta. rewrite Ha1. reflexivity. }
  rewrite Hb, insert_insert_eq. split; [reflexivity|].
  rewrite lookup_insert_eq. reflexivity.
Qed.

Lemma second_upload_replaces_the_first_witness :
  let put1 := request_of "PUT" "write-bucket.example.com" "/a.txt" bearer (Some "one") in
  let put2 := request_of "PUT" "write-bucket.example.com" "//a.txt/" bearer (Some "two") in
  let two := serve plain_env put2 (after (serve plain_env put1 stocked)) in
  r2_bytes <$> (R2_BUCKET (after two) !! "a.txt") = Some "two".
Proof.
  intros put1 put2 two. subst two.
  assert (Hk : objectKey_of put1 <> "") by (vm_compute; discriminate).
  exact (proj2 (second_upload_replaces_the_first plain_env plain_env put1 put2 stocked
                  eq_refl eq_refl eq_refl Hk eq_refl eq_refl eq_refl eq_refl
                  eq_refl eq_refl)).
Defined.


